(** * vscode-codesonar: hub sign-in, SARIF download and the CLI front ends

    A shallow embedding of the TypeScript sources
      - common_utils        (errorToString, replaceInvalidFileNameChars,
                             readTextStream),
      - the SARIF download command (formatUserHubAddress,
                             executeCodeSonarSarifDownload,
                             downloadSarifResults),
      - http_client_exec    (main),
      - cs_hub_client_exec  (main),
    followed by the properties proved about them.

    JavaScript strings are modelled as [string] (one [ascii] per code unit),
    [string|undefined] as [option string], asynchronous calls by explicit
    passing of the external world (secret storage, the user's answers, the
    hub's replies) and a trace of the observable events. *)

From Stdlib Require Import ZArith NArith Lia Bool List Ascii String DecimalString.
From stdpp Require Import gmap strings.

Open Scope string_scope.
Open Scope nat_scope.

(* ===================================================================== *)
(** ** JavaScript values and string primitives *)
(* ===================================================================== *)

Module JS.

(** [!s] for [s : string|undefined]: the empty string and [undefined] are
    falsy. *)
Definition truthy (o : option string) : bool :=
  match o with
  | Some s => negb (String.eqb s "")
  | None => false
  end.

(** [s.startsWith(p)]. *)
Definition startsWith (s p : string) : bool := String.prefix p s.

(** [s.substring(0, n)]. *)
Definition substring0 (n : nat) (s : string) : string := String.substring 0 n s.

(** [s.endsWith(suffix)]: the last [suffix.length] code units of [s] are
    [suffix]. *)
Definition endsWith (s suffix : string) : bool :=
  let n := String.length s in
  let m := String.length suffix in
  (m <=? n) && String.eqb (String.substring (n - m) m s) suffix.

(** [n.toString()] for a non-negative integer. *)
Definition natToString (n : N) : string :=
  NilEmpty.string_of_uint (N.to_uint n).

(** Values that reach a [catch] clause or a rejection handler. *)
Inductive Value : Type :=
| VUndefined
| VNull
| VString (s : string)
| VNumber (printed : string)
| VError (name message : string) (code : option string)
| VObject (printed : string)
| VOther (printed : string).

(** [e.toString()]; [undefined] and [null] have no such method and the
    call throws. *)
Definition toString (e : Value) : option string :=
  match e with
  | VUndefined | VNull => None
  | VString s => Some s
  | VNumber printed | VObject printed | VOther printed => Some printed
  | VError name message _ =>
      Some (if String.eqb name "" then message
            else if String.eqb message "" then name
            else name ++ ": " ++ message)
  end.

(** [new Error(message)]. *)
Definition Error (message : string) : Value := VError "Error" message None.

(** The settled state of a promise. *)
Inductive Promise (A : Type) : Type :=
| Resolved (a : A)
| Rejected (e : Value).
Arguments Resolved {A} a.
Arguments Rejected {A} e.

End JS.

(* ===================================================================== *)
(** ** common_utils *)
(* ===================================================================== *)

Module CommonUtils.
Import JS.

(** [errorToString(e, {verbose, message})]. *)
Definition errorToString (e : Value) (verbose : bool) (message : option string)
  : string :=
  match e with
  | VUndefined => "<UNDEFINED>"
  | VNull => "<NULL>"
  | VString s => s
  | VNumber printed => printed
  | VError name msg code =>
      let errorMessage := msg in
      if verbose then
        let errorMessage :=
          match code with
          | Some c => c ++ " " ++ errorMessage
          | None => errorMessage
          end in
        name ++ ": " ++ errorMessage
      else errorMessage
  | VObject printed => printed
  | VOther _ => match message with Some m => m | None => "" end
  end.

(** *** Regular expressions: the fragment used by the module

    A pattern is an alternation of sequences of atoms; an atom is a
    literal character or a starred literal character. *)
Inductive Atom : Type :=
| Lit (c : ascii)
| Star (c : ascii).

Definition push (a : Atom) (alts : list (list Atom)) : list (list Atom) :=
  match alts with
  | alt :: rest => (a :: alt) :: rest
  | [] => [[a]]
  end.

(** [new RegExp(source)] for sources made of literals, [\c] escapes, [*]
    after a character and [|]. *)
Fixpoint parseRegExp (source : list ascii) : list (list Atom) :=
  match source with
  | [] => [[]]
  | "|"%char :: r => [] :: parseRegExp r
  | "\"%char :: c :: "*"%char :: r => push (Star c) (parseRegExp r)
  | "\"%char :: c :: r => push (Lit c) (parseRegExp r)
  | c :: "*"%char :: r => push (Star c) (parseRegExp r)
  | c :: r => push (Lit c) (parseRegExp r)
  end.

(** Backtracking match of a sequence at the head of [s]; the result is
    what is left of [s] after the match.  [c*] is greedy. *)
Fixpoint matchAtoms (atoms : list Atom) (s : list ascii) : option (list ascii) :=
  match atoms with
  | [] => Some s
  | Lit c :: atoms' =>
      match s with
      | x :: s' => if Ascii.eqb x c then matchAtoms atoms' s' else None
      | [] => None
      end
  | Star c :: atoms' =>
      (fix star (s : list ascii) : option (list ascii) :=
         match s with
         | x :: s' =>
             if Ascii.eqb x c then
               match star s' with
               | Some r => Some r
               | None => matchAtoms atoms' s
               end
             else matchAtoms atoms' s
         | [] => matchAtoms atoms' []
         end) s
  end.

(** The first alternative that matches at the head of [s] wins; the
    result is the length of the match. *)
Fixpoint matchAt (alts : list (list Atom)) (s : list ascii) : option nat :=
  match alts with
  | [] => None
  | alt :: rest =>
      match matchAtoms alt s with
      | Some r => Some (length s - length r)
      | None => matchAt rest s
      end
  end.

(** [s.replace(re, replacement)] for a global [re] and a replacement
    without [$] patterns: every match, scanning from the left, is replaced;
    [skip] counts the characters of [s] still covered by the last match. *)
Fixpoint replaceFrom (alts : list (list Atom)) (replacement : list ascii)
    (skip : nat) (s : list ascii) : list ascii :=
  match skip, s with
  | S k, _ :: s' => replaceFrom alts replacement k s'
  | S _, [] => []
  | O, [] =>
      match matchAt alts [] with
      | Some _ => replacement
      | None => []
      end
  | O, x :: s' =>
      match matchAt alts s with
      | Some O => replacement ++ x :: replaceFrom alts replacement 0 s'
      | Some (S k) => replacement ++ replaceFrom alts replacement k s'
      | None => x :: replaceFrom alts replacement 0 s'
      end
  end.

Definition replace (re : list (list Atom)) (replacement s : string) : string :=
  string_of_list_ascii
    (replaceFrom re (list_ascii_of_string replacement) 0 (list_ascii_of_string s)).

(** The double quote character. *)
Definition dquote : ascii := "034"%char.

(** The value of the string literal handed to [new RegExp] in the source:
    the ten characters slash, backslash, question mark, percent, star,
    colon, bar, double quote, less-than, greater-than. *)
Definition invalidCharRegExp_source : list ascii :=
  ["/"; "\"; "?"; "%"; "*"; ":"; "|"; dquote; "<"; ">"]%char.

Definition invalidCharRegExp : list (list Atom) :=
  parseRegExp invalidCharRegExp_source.

(** [replaceInvalidFileNameChars(s, replacement = '_')]. *)
Definition replaceInvalidFileNameChars (s : string) (replacement : option string)
  : string :=
  let replacement := match replacement with Some r => r | None => "_" end in
  let s2 := replace invalidCharRegExp replacement s in
  s2.

(** The characters the function is meant to remove. *)
Definition invalidFileNameChars : list ascii :=
  ["/"; "\"; "?"; "%"; "*"; ":"; "|"; dquote; "<"; ">"]%char.

(** What replacing every invalid character by [replacement] would give. *)
Fixpoint replaceEachChar (replacement : string) (s : string) : string :=
  match s with
  | EmptyString => EmptyString
  | String c s' =>
      if existsb (Ascii.eqb c) invalidFileNameChars
      then replacement ++ replaceEachChar replacement s'
      else String c (replaceEachChar replacement s')
  end.

(** *** readTextStream *)

(** A chunk delivered by a stream: a string, or a Buffer of bytes. *)
Inductive Chunk : Type :=
| StrChunk (s : string)
| BufChunk (b : list Byte.byte).

(** [chunk.length]: code units of a string, bytes of a Buffer. *)
Definition chunkLength (c : Chunk) : nat :=
  match c with
  | StrChunk s => String.length s
  | BufChunk b => length b
  end.

(** [if (pushChunk)]: the empty string is falsy, a Buffer object never is. *)
Definition chunkTruthy (c : Chunk) : bool :=
  match c with
  | StrChunk s => negb (String.eqb s "")
  | BufChunk _ => true
  end.

(** How a stream finishes: with the 'end' event or with an 'error' event. *)
Inductive StreamEnd : Type :=
| EmitEnd
| EmitError (e : Value).

(** A readable stream as the listener sees it: the [readable] flag, the
    chunks of its 'data' events in order, and its last event. *)
Record ReadableStream : Type := {
  readable : bool;
  emitted : list Chunk;
  ending : StreamEnd
}.

(** The two variables the 'data' listener closes over. *)
Record ReadState : Type := {
  chunks : list Chunk;
  outLength : nat
}.

(** The 'data' listener; [maxLength] is a length, a non-negative integer. *)
Definition onData (maxLength : option nat) (st : ReadState) (chunk : Chunk)
  : ReadState :=
  let pushChunk : option Chunk :=
    match maxLength with
    | None => Some chunk
    | Some maxLength =>
        if maxLength <=? outLength st then None
        else if chunkLength chunk + outLength st <? maxLength then Some chunk
        else
          match chunk with
          | StrChunk s => Some (StrChunk (substring0 (maxLength - outLength st) s))
          | BufChunk b => Some (BufChunk (firstn (maxLength - outLength st) b))
          end
    end in
  match pushChunk with
  | Some c =>
      if chunkTruthy c
      then {| chunks := chunks st ++ [c]; outLength := outLength st + chunkLength c |}
      else st
  | None => st
  end.

Section ReadTextStream.
(** [Buffer.prototype.toString()], the UTF-8 decoder of the runtime. *)
Variable bufferToString : list Byte.byte -> string.

Definition chunkToString (c : Chunk) : string :=
  match c with
  | StrChunk s => s
  | BufChunk b => bufferToString b
  end.

(** [chunks.join('')]. *)
Fixpoint join (cs : list Chunk) : string :=
  match cs with
  | [] => ""
  | c :: cs' => chunkToString c ++ join cs'
  end.

(** [readTextStream(inIO, maxLength)]: the promise as settled once the
    stream has finished.  The first settlement wins, so a stream that is
    not readable gives the rejection of the guard. *)
Definition readTextStream (inIO : ReadableStream) (maxLength : option nat)
  : Promise string :=
  let st := fold_left (onData maxLength) (emitted inIO)
                      {| chunks := []; outLength := 0 |} in
  if negb (readable inIO) then
    Rejected (Error "Text stream is not readable, perhaps it has already been read.")
  else
    match ending inIO with
    | EmitError e => Rejected e
    | EmitEnd => Resolved (join (chunks st))
    end.
End ReadTextStream.

End CommonUtils.

(* ===================================================================== *)
(** ** The hub client interface, as its callers use it *)
(* ===================================================================== *)

Module HubClient.
Import JS.

(** [CSHubAddress]: the parsed hub address. *)
Record CSHubAddress : Type := {
  protocol : option string;
  hostname : string;
  port : option N
}.

(** The closure stored in [hubClientOptions.hubpasswd]: it captures the
    storage key, the user name and the address, and does nothing until it
    is called. *)
Record PasswordProvider : Type := {
  passwordStorageKeyString : string;
  username : string;
  address : string
}.

(** [CSHubClientConnectionOptions], with the fields the download command
    sets. *)
Record CSHubClientConnectionOptions : Type := {
  cafile : option string;
  hubuser : option string;
  hubpwfile : option string;
  hubcert : option string;
  hubkey : option string;
  hubpasswd : option PasswordProvider
}.

(** [{}]. *)
Definition noOptions : CSHubClientConnectionOptions :=
  {| cafile := None; hubuser := None; hubpwfile := None;
     hubcert := None; hubkey := None; hubpasswd := None |}.

(** Observable events of the editor command. *)
Inductive Event : Type :=
| ShowInputBox (prompt : string) (password : bool)
| SecretGet (key : string)
| SecretStore (key value : string)
| SecretDelete (key : string)
| LoggerInfo (message : string)
| ReadFile (path : string)
| SignInRequest
| FetchSarifAnalysisStream (analysisId : string)
| FetchSarifAnalysisDifferenceStream (analysisId baselineAnalysisId : string).

(** The world the command acts on: the editor's secret storage and the
    events so far, oldest first. *)
Record World : Type := {
  secrets : gmap string string;
  trace : list Event
}.

Definition emit (e : Event) (w : World) : World :=
  {| secrets := secrets w; trace := trace w ++ [e] |}.

(** [secretStorage.get(key)]. *)
Definition secretGet (key : string) (w : World) : option string * World :=
  (secrets w !! key, emit (SecretGet key) w).

(** [secretStorage.store(key, value)]. *)
Definition secretStore (key value : string) (w : World) : World :=
  emit (SecretStore key value)
       {| secrets := <[key := value]> (secrets w); trace := trace w |}.

(** [secretStorage.delete(key)]. *)
Definition secretDelete (key : string) (w : World) : World :=
  emit (SecretDelete key)
       {| secrets := delete key (secrets w); trace := trace w |}.

(** What the hub answers to a sign-in request. *)
Inductive HubReply : Type :=
| SignedIn
| Forbidden
| Unreachable (e : Value).

(** What lies outside the command during one run: the user's answers to
    the input boxes ([None] is a dismissed box), the files on disk and the
    hub. *)
Record Env : Type := {
  answerHubAddress : option string;
  answerHubUser : option string;
  answerPassword : Promise (option string);
  fileContents : string -> option string;
  hubReply : HubReply
}.

End HubClient.

(* ===================================================================== *)
(** ** The SARIF download command *)
(* ===================================================================== *)

Module SarifDownload.
Import JS HubClient.

(** [formatUserHubAddress(hubAddress, username)].  The first template
    literal of the source interpolates [username] only: what follows the
    at sign, an opening brace, a dollar sign and the text
    [hubAddress.hostname}], is literal text of the template. *)
Definition formatUserHubAddress (hubAddress : CSHubAddress) (username : string)
  : string :=
  let userHubAddressString := username ++ "@{$hubAddress.hostname}" in
  let userHubAddressString :=
    match protocol hubAddress with
    | Some protocol => protocol ++ "://" ++ userHubAddressString
    | None => userHubAddressString
    end in
  let userHubAddressString :=
    match port hubAddress with
    | Some port =>
        let portString := natToString port in
        userHubAddressString ++ ":" ++ portString
    | None => userHubAddressString
    end in
  userHubAddressString.

(** [csConfig.CSHubConfig]. *)
Record CSHubConfig : Type := {
  cfg_address : option string;
  cfg_cacert : option string;
  cfg_hubuser : option string;
  cfg_hubpwfile : option string;
  cfg_hubcert : option string;
  cfg_hubkey : option string
}.

(** [projectConfig.hub]: an address string or a hub configuration object. *)
Inductive HubSetting : Type :=
| HubString (s : string)
| HubObject (c : CSHubConfig).

(** The [let] variables of [executeCodeSonarSarifDownload] that describe
    the hub. *)
Record HubVariables : Type := {
  hubAddressString : option string;
  hubCAFilePath : option string;
  hubUserName : option string;
  hubUserPasswordFilePath : option string;
  hubUserCertFilePath : option string;
  hubUserCertKeyFilePath : option string
}.

(** The variables after the workspace settings have been read
    ([if (projectConfig.hub)] and [if (hubConfig)]). *)
Definition readHubSetting (hub : option HubSetting) : HubVariables :=
  match hub with
  | Some (HubString s) =>
      {| hubAddressString := if String.eqb s "" then None else Some s;
         hubCAFilePath := None; hubUserName := None;
         hubUserPasswordFilePath := None; hubUserCertFilePath := None;
         hubUserCertKeyFilePath := None |}
  | Some (HubObject c) =>
      {| hubAddressString := cfg_address c;
         hubCAFilePath := cfg_cacert c;
         hubUserName := cfg_hubuser c;
         hubUserPasswordFilePath := cfg_hubpwfile c;
         hubUserCertFilePath := cfg_hubcert c;
         hubUserCertKeyFilePath := cfg_hubkey c |}
  | None =>
      {| hubAddressString := None;
         hubCAFilePath := None; hubUserName := None;
         hubUserPasswordFilePath := None; hubUserCertFilePath := None;
         hubUserCertKeyFilePath := None |}
  end.

(** [if (!hubAddressString) { ... }]: the two input boxes shown when the
    settings name no hub. *)
Definition askHubAddress (v : HubVariables) (env : Env) (w : World)
  : HubVariables * World :=
  if negb (truthy (hubAddressString v)) then
    let w := emit (ShowInputBox "Hub Address" false) w in
    let hubAddressString' := answerHubAddress env in
    if truthy hubAddressString' && negb (truthy (hubUserName v)) then
      let w := emit (ShowInputBox "Hub User" false) w in
      ({| hubAddressString := hubAddressString';
          hubCAFilePath := hubCAFilePath v;
          hubUserName := answerHubUser env;
          hubUserPasswordFilePath := hubUserPasswordFilePath v;
          hubUserCertFilePath := hubUserCertFilePath v;
          hubUserCertKeyFilePath := hubUserCertKeyFilePath v |}, w)
    else
      ({| hubAddressString := hubAddressString';
          hubCAFilePath := hubCAFilePath v;
          hubUserName := hubUserName v;
          hubUserPasswordFilePath := hubUserPasswordFilePath v;
          hubUserCertFilePath := hubUserCertFilePath v;
          hubUserCertKeyFilePath := hubUserCertKeyFilePath v |}, w)
  else (v, w).

(** The key file path tried when [hubkey] is not set: the inner [if] of
    the certificate branch, [None] when neither suffix matches. *)
Definition defaultKeyFileName (hubUserCertFilePath : string) : option string :=
  let certSuffix := ".cert" in
  let keySuffix := ".key" in
  if endsWith hubUserCertFilePath certSuffix then
    Some (substring0 (String.length hubUserCertFilePath - String.length certSuffix)
                     hubUserCertFilePath ++ keySuffix)
  else
    let certSuffix := certSuffix ++ ".pem" in
    let keySuffix := keySuffix ++ ".pem" in
    if endsWith hubUserCertFilePath certSuffix then
      Some (substring0 (String.length hubUserCertFilePath - String.length certSuffix)
                       hubUserCertFilePath ++ keySuffix)
    else None.

(** The value of [hubUserCertKeyFilePath] before it is resolved against
    the workspace folder. *)
Definition certKeyFilePath (hubUserCertFilePath : string)
    (hubUserCertKeyFilePath : option string) : string :=
  let hubUserCertKeyFilePath :=
    match hubUserCertKeyFilePath with
    | None => defaultKeyFileName hubUserCertFilePath
    | Some k => Some k
    end in
  match hubUserCertKeyFilePath with
  | None => hubUserCertFilePath ++ ".key"
  | Some k => k
  end.

Section Command.
(** [path.normalize], [path.isAbsolute] and [path.join] of the runtime,
    and the folder found by [findActiveVSWorkspaceFolderPath()]. *)
Variable path_normalize : string -> string.
Variable path_isAbsolute : string -> bool.
Variable path_join : string -> string -> string.
Variable workspaceFolderPath : option string.

(** [new CSHubAddress(hubAddressString)] for an address it accepts. *)
Variable newCSHubAddress : string -> CSHubAddress.

(** The local function [resolveFilePath]. *)
Definition resolveFilePath (filePath : string) : string :=
  let outFilePath := path_normalize filePath in
  let outFilePath :=
    match workspaceFolderPath with
    | Some folder =>
        if negb (path_isAbsolute outFilePath) && negb (String.eqb folder "")
        then path_join folder outFilePath
        else outFilePath
    | None => outFilePath
    end in
  let outFilePath := path_normalize outFilePath in
  outFilePath.

(** [hubAddressObject]: set when [hubAddressString] is truthy. *)
Definition hubAddressObjectOf (v : HubVariables) : option CSHubAddress :=
  match hubAddressString v with
  | Some s => if String.eqb s "" then None else Some (newCSHubAddress s)
  | None => None
  end.

(** [passwordStorageKey]: set when there are an address object and a
    truthy user name. *)
Definition passwordStorageKeyOf (v : HubVariables) : option string :=
  match hubAddressObjectOf v, hubUserName v with
  | Some hubAddressObject, Some hubUserName =>
      if String.eqb hubUserName "" then None
      else
        let userHubAddressString :=
          formatUserHubAddress hubAddressObject hubUserName in
        Some ("codesonar:hubpasswd::" ++ userHubAddressString)
  | _, _ => None
  end.

(** The statements that fill [hubClientOptions], from
    [let hubClientOptions = {}] to the end of the credential
    [if / else if / else if]. *)
Definition buildHubClientOptions (v : HubVariables) (w : World)
  : CSHubClientConnectionOptions * World :=
  let hubClientOptions := noOptions in
  let hubClientOptions :=
    if truthy (hubCAFilePath v) then
      {| cafile := option_map resolveFilePath (hubCAFilePath v);
         hubuser := hubuser hubClientOptions;
         hubpwfile := hubpwfile hubClientOptions;
         hubcert := hubcert hubClientOptions;
         hubkey := hubkey hubClientOptions;
         hubpasswd := hubpasswd hubClientOptions |}
    else hubClientOptions in
  let hubClientOptions :=
    if truthy (hubUserName v) then
      {| cafile := cafile hubClientOptions;
         hubuser := hubUserName v;
         hubpwfile := hubpwfile hubClientOptions;
         hubcert := hubcert hubClientOptions;
         hubkey := hubkey hubClientOptions;
         hubpasswd := hubpasswd hubClientOptions |}
    else hubClientOptions in
  let passwordStorageKey := passwordStorageKeyOf v in
  if truthy (hubUserCertFilePath v) then
    match hubUserCertFilePath v with
    | Some certFilePath =>
        let keyFilePath := certKeyFilePath certFilePath (hubUserCertKeyFilePath v) in
        ({| cafile := cafile hubClientOptions;
            hubuser := hubuser hubClientOptions;
            hubpwfile := hubpwfile hubClientOptions;
            hubcert := Some (resolveFilePath certFilePath);
            hubkey := Some (resolveFilePath keyFilePath);
            hubpasswd := hubpasswd hubClientOptions |}, w)
    | None => (hubClientOptions, w)
    end
  else if truthy (hubUserPasswordFilePath v) then
    let hubClientOptions :=
      {| cafile := cafile hubClientOptions;
         hubuser := hubuser hubClientOptions;
         hubpwfile := option_map resolveFilePath (hubUserPasswordFilePath v);
         hubcert := hubcert hubClientOptions;
         hubkey := hubkey hubClientOptions;
         hubpasswd := hubpasswd hubClientOptions |} in
    match passwordStorageKey with
    | Some key => (hubClientOptions, secretDelete key w)
    | None => (hubClientOptions, w)
    end
  else
    match hubAddressString v, hubUserName v, passwordStorageKey with
    | Some address, Some username, Some passwordStorageKeyString =>
        if truthy (hubAddressString v) && truthy (hubUserName v)
           && truthy passwordStorageKey
        then
          ({| cafile := cafile hubClientOptions;
              hubuser := hubuser hubClientOptions;
              hubpwfile := hubpwfile hubClientOptions;
              hubcert := hubcert hubClientOptions;
              hubkey := hubkey hubClientOptions;
              hubpasswd :=
                Some {| passwordStorageKeyString := passwordStorageKeyString;
                        username := username;
                        address := address |} |}, w)
        else (hubClientOptions, w)
    | _, _, _ => (hubClientOptions, w)
    end.

(** A call of the closure stored in [hubClientOptions.hubpasswd]. *)
Definition callPasswordProvider (p : PasswordProvider) (env : Env) (w : World)
  : Promise string * World :=
  let '(password, w) := secretGet (passwordStorageKeyString p) w in
  match password with
  | Some password =>
      let w := emit (LoggerInfo "Found saved password") w in
      (Resolved password, w)
  | None =>
      let w :=
        emit (ShowInputBox ("Enter password for CodeSonar hub user '"
                            ++ username p ++ "' at '" ++ address p ++ "'") true) w in
      match answerPassword env with
      | Resolved None => (Rejected (Error "User cancelled password input."), w)
      | Resolved (Some inputValue) =>
          let w := secretStore (passwordStorageKeyString p) inputValue w in
          (Resolved inputValue, w)
      | Rejected e => (Rejected e, w)
      end
  end.

(** Modelled from the spec: the credential a sign-in attempt ends up with
    (a certificate and key pair, a password, or none), as the hub client of
    cs_hub_client, which is not among the sources, resolves it. *)
Inductive Credential : Type :=
| ClientCertificate (certificate key : string)
| Password (password : string)
| NoCredential.

(** Modelled from the spec: the hub client's reading of a credential file;
    a file that cannot be read fails with FileNotFound. *)
Definition readCredentialFile (path : string) (env : Env) (w : World)
  : Promise string * World :=
  let w := emit (ReadFile path) w in
  match fileContents env path with
  | Some contents => (Resolved contents, w)
  | None => (Rejected (VError "FileNotFound" path None), w)
  end.

(** Modelled from the spec: credential resolution of the hub client
    (the module cs_hub_client is not among the sources).  One scheme is
    resolved, by the precedence client certificate, then password file,
    then interactive provider; the certificate scheme reads the
    certificate and the key file, the password file scheme reads the
    file, the interactive scheme calls the provider; a file that cannot
    be read or a rejected provider makes resolution fail. *)
Definition resolveCredential (options : CSHubClientConnectionOptions)
    (env : Env) (w : World) : Promise Credential * World :=
  match hubcert options with
  | Some certPath =>
      let keyPath :=
        match hubkey options with
        | Some k => k
        | None => certKeyFilePath certPath None
        end in
      let '(c, w) := readCredentialFile certPath env w in
      match c with
      | Rejected e => (Rejected e, w)
      | Resolved certificate =>
          let '(k, w) := readCredentialFile keyPath env w in
          match k with
          | Rejected e => (Rejected e, w)
          | Resolved key => (Resolved (ClientCertificate certificate key), w)
          end
      end
  | None =>
      match hubpwfile options with
      | Some path =>
          let '(c, w) := readCredentialFile path env w in
          match c with
          | Rejected e => (Rejected e, w)
          | Resolved password => (Resolved (Password password), w)
          end
      | None =>
          match hubpasswd options with
          | Some provider =>
              let '(r, w) := callPasswordProvider provider env w in
              match r with
              | Rejected e => (Rejected e, w)
              | Resolved password => (Resolved (Password password), w)
              end
          | None => (Resolved NoCredential, w)
          end
      end
  end.

(** Modelled from the spec: [CSHubClient.signIn()] (the module
    cs_hub_client is not among the sources).  It resolves the active
    credential and issues the sign-in request; when the hub declines
    (403 Forbidden) it completes normally with the rejection, here the
    boolean [false] that the download command tests; a failed
    resolution or a hub that cannot be reached makes it raise. *)
Definition signIn (options : CSHubClientConnectionOptions)
    (env : Env) (w : World) : Promise bool * World :=
  let '(c, w) := resolveCredential options env w in
  match c with
  | Rejected e => (Rejected e, w)
  | Resolved _ =>
      let w := emit SignInRequest w in
      match hubReply env with
      | SignedIn => (Resolved true, w)
      | Forbidden => (Resolved false, w)
      | Unreachable e => (Rejected e, w)
      end
  end.

(** [new CSHubClient(hubAddressObject, hubClientOptions)]. *)
Record CSHubClient : Type := {
  clientAddress : CSHubAddress;
  clientOptions : CSHubClientConnectionOptions
}.

(** What the [catch] clause of the sign-in block throws for a caught
    [e]. *)
Definition signInError (e : Value) : Value :=
  let messageHeader := "CodeSonar hub sign-in error" in
  let errorMessage := CommonUtils.errorToString e false None in
  let errorMessage :=
    if negb (String.eqb errorMessage "")
    then messageHeader ++ ": " ++ errorMessage
    else messageHeader in
  Error errorMessage.

(** [if (hubAddressObject !== undefined) { ... }]: the client is made
    and signed in, inside [try / catch / finally]. *)
Definition signInToHub (v : HubVariables)
    (hubClientOptions : CSHubClientConnectionOptions) (env : Env) (w : World)
  : Promise (option CSHubClient) * World :=
  match hubAddressObjectOf v with
  | None => (Resolved None, w)
  | Some hubAddressObject =>
      let hubClient := {| clientAddress := hubAddressObject;
                          clientOptions := hubClientOptions |} in
      let '(r, w) := signIn hubClientOptions env w in
      let signInSucceeded :=
        match r with
        | Resolved b => b
        | Rejected _ => false
        end in
      let caught : option Value :=
        match r with
        | Resolved true => None
        | Resolved false => Some (Error "Access forbidden")
        | Rejected e => Some e
        end in
      let w :=
        match passwordStorageKeyOf v with
        | Some key => if negb signInSucceeded then secretDelete key w else w
        | None => w
        end in
      match caught with
      | Some e => (Rejected (signInError e), w)
      | None => (Resolved (Some hubClient), w)
      end
  end.

(** [executeCodeSonarSarifDownload] from the reading of the settings to
    the end of the sign-in block. *)
Definition executeCodeSonarSarifDownload_signIn (hub : option HubSetting)
    (env : Env) (w : World) : Promise (option CSHubClient) * World :=
  let v := readHubSetting hub in
  let '(v, w) := askHubAddress v env w in
  let '(hubClientOptions, w) := buildHubClientOptions v w in
  signInToHub v hubClientOptions env w.

End Command.

(** [CSAnalysisInfo]. *)
Record CSAnalysisInfo : Type := {
  id : string;
  name : string
}.

(** [downloadSarifResults]: the fetch it starts. *)
Definition downloadSarifResults (analysisInfo : CSAnalysisInfo)
    (baseAnalysisInfo : option CSAnalysisInfo) (w : World) : World :=
  let analysisId := id analysisInfo in
  let baseAnalysisId := option_map id baseAnalysisInfo in
  match baseAnalysisId with
  | Some baseAnalysisId =>
      emit (FetchSarifAnalysisDifferenceStream analysisId baseAnalysisId) w
  | None => emit (FetchSarifAnalysisStream analysisId) w
  end.

(** Modelled from the spec: the request behind each fetch of the hub
    client (the module cs_hub_client is not among the sources).  The SARIF
    fetch is a GET keyed by one analysis identifier, the difference fetch
    a GET keyed by two, target and baseline; the route strings are the
    hub's and are left open. *)
Inductive Endpoint : Type := SarifReport | SarifDifference.

(** Modelled from the spec: a request is an endpoint and the identifiers
    that key it. *)
Record HubRequest : Type := {
  endpoint : Endpoint;
  identifiers : list string
}.

(** Modelled from the spec: the request each fetch issues. *)
Definition requestOf (e : Event) : option HubRequest :=
  match e with
  | FetchSarifAnalysisStream a =>
      Some {| endpoint := SarifReport; identifiers := [a] |}
  | FetchSarifAnalysisDifferenceStream a b =>
      Some {| endpoint := SarifDifference; identifiers := [a; b] |}
  | _ => None
  end.

End SarifDownload.

(* ===================================================================== *)
(** ** The download command after the sign-in: what to download *)
(* ===================================================================== *)

Module Selection.
Import JS HubClient SarifDownload.

(** [CSProjectInfo]. *)
Record CSProjectInfo : Type := {
  projectInfoId : string;
  projectInfoName : string
}.

(** What the user sees and what is asked of the hub while the analysis is
    chosen. *)
Inductive UiEvent : Type :=
| FetchProjectInfo (nameFilter : option string)
| FetchAnalysisInfo (projectId : string)
| ShowQuickPick (placeholder : string) (labels : list string)
| ShowInformationMessage (message : string)
| ShowSaveDialog (defaultFilePath : string).

(** What lies outside the command: the lists the hub returns, the item the
    user accepts in a quick pick (its index, [None] when the pick is hidden
    or accepted with nothing selected) and the path chosen in the save
    dialog. *)
Record Ui : Type := {
  projectList : option string -> Promise (list CSProjectInfo);
  analysisList : string -> Promise (list CSAnalysisInfo);
  accepted : string -> list string -> option nat;
  savePath : string -> option string
}.

(** An asynchronous step: the events it causes and how it settles; a
    rejected [await] ends the command. *)
Definition Step (A : Type) : Type := (list UiEvent * Promise A)%type.

Definition ret {A : Type} (a : A) : Step A := ([], Resolved a).

Definition bind {A B : Type} (m : Step A) (f : A -> Step B) : Step B :=
  match m with
  | (t, Resolved a) => let '(t', r) := f a in ((t ++ t')%list, r)
  | (t, Rejected e) => (t, Rejected e)
  end.

(** [fetchCSProjectRecords(hubClient, projectName)]. *)
Definition fetchCSProjectRecords (ui : Ui) (projectName : option string)
  : Step (list CSProjectInfo) :=
  ([FetchProjectInfo projectName], projectList ui projectName).

(** [fetchCSAnalysisRecords(hubClient, projectId)]. *)
Definition fetchCSAnalysisRecords (ui : Ui) (projectId : string)
  : Step (list CSAnalysisInfo) :=
  ([FetchAnalysisInfo projectId], analysisList ui projectId).

(** [showQuickPick(placeholder, values, value2QuickPickItem)]: with no
    value the pick is not shown and the promise resolves with [undefined];
    otherwise it resolves with the value of the accepted item. *)
Definition showQuickPick {T : Type} (ui : Ui) (placeholder : string)
    (values : list T) (label : T -> string) : Step (option T) :=
  match values with
  | [] => ret None
  | _ :: _ =>
      ([ShowQuickPick placeholder (map label values)],
       Resolved match accepted ui placeholder (map label values) with
                | Some i => nth_error values i
                | None => None
                end)
  end.

(** [showProjectQuickPick(projectInfoArray)]. *)
Definition showProjectQuickPick (ui : Ui) (projectInfoArray : list CSProjectInfo)
  : Step (option CSProjectInfo) :=
  showQuickPick ui "Select a Project..." projectInfoArray projectInfoId.

(** [showAnalysisQuickPick(analysisInfoArray, placeholder)]. *)
Definition showAnalysisQuickPick (ui : Ui) (analysisInfoArray : list CSAnalysisInfo)
    (placeholder : string) : Step (option CSAnalysisInfo) :=
  showQuickPick ui placeholder analysisInfoArray id.

(** The variables the second half of [executeCodeSonarSarifDownload]
    starts from. *)
Record Chosen : Type := {
  hubClient : option CSHubClient;
  projectId : option string;
  projectName : option string;
  baseAnalysisId : option string;
  baseAnalysisName : option string;
  withAnalysisBaseline : bool
}.

Definition defined {A : Type} (o : option A) : bool :=
  match o with Some _ => true | None => false end.

(** The project list: fetched when there is a client and no project id,
    fetched again without the name when the name matched nothing. *)
Definition projectInfoArrayOf (c : Chosen) (ui : Ui)
  : Step (option (list CSProjectInfo)) :=
  bind (if defined (hubClient c) && negb (truthy (projectId c))
        then bind (fetchCSProjectRecords ui (projectName c)) (fun l => ret (Some l))
        else ret None)
    (fun projectInfoArray =>
       match projectInfoArray with
       | Some [] =>
           if defined (hubClient c) && truthy (projectName c) then
             bind (fetchCSProjectRecords ui None)
               (fun l =>
                  match l with
                  | [] =>
                      ([ShowInformationMessage
                          "Could not find any analysis projects on CodeSonar hub."],
                       Resolved (Some l))
                  | _ :: _ => ret (Some l)
                  end)
           else ret projectInfoArray
       | _ => ret projectInfoArray
       end).

(** [projectInfo]: the only project, or the one picked. *)
Definition projectInfoOf (ui : Ui) (projectInfoArray : option (list CSProjectInfo))
  : Step (option CSProjectInfo) :=
  match projectInfoArray with
  | Some [p] => ret (Some p)
  | Some (p :: q :: l) => showProjectQuickPick ui (p :: q :: l)
  | _ => ret None
  end.

(** [analysisInfoArray.find(a => a.id === baseAnalysisId)] and the same by
    name. *)
Definition findById (analysisId : string) (l : list CSAnalysisInfo)
  : option CSAnalysisInfo :=
  List.find (fun a => String.eqb (id a) analysisId) l.

Definition findByName (analysisName : string) (l : list CSAnalysisInfo)
  : option CSAnalysisInfo :=
  List.find (fun a => String.eqb (name a) analysisName) l.

(** The baseline analysis of a difference download. *)
Definition baseAnalysisInfoOf (c : Chosen) (ui : Ui)
    (analysisInfoArray : list CSAnalysisInfo) : Step (option CSAnalysisInfo) :=
  if negb (withAnalysisBaseline c) then ret None
  else
    match baseAnalysisId c with
    | Some baseAnalysisId =>
        match findById baseAnalysisId analysisInfoArray with
        | Some b => ret (Some b)
        | None => ([], Rejected (Error "Baseline analysis was not found"))
        end
    | None =>
        if truthy (baseAnalysisName c) then
          match baseAnalysisName c with
          | Some baseAnalysisName =>
              match findByName baseAnalysisName analysisInfoArray with
              | Some b => ret (Some b)
              | None => ([], Rejected (Error "Baseline analysis was not found"))
              end
          | None => ret None
          end
        else
          showAnalysisQuickPick ui analysisInfoArray "Select a Baseline Analysis..."
    end.

(** [analysisInfo] and [baseAnalysisInfo]. *)
Definition analysisInfoOf (c : Chosen) (ui : Ui)
  : Step (option CSAnalysisInfo * option CSAnalysisInfo) :=
  bind (projectInfoArrayOf c ui) (fun projectInfoArray =>
  bind (projectInfoOf ui projectInfoArray) (fun projectInfo =>
  let projectId :=
    match projectInfo with
    | Some p => if negb (truthy (projectId c)) then Some (projectInfoId p)
                else projectId c
    | None => projectId c
    end in
  bind (match projectId with
        | Some pid =>
            if defined (hubClient c) && truthy projectId
            then bind (fetchCSAnalysisRecords ui pid) (fun l => ret (Some l))
            else ret None
        | None => ret None
        end) (fun analysisInfoArray =>
  match analysisInfoArray with
  | Some (a :: l) =>
      bind (baseAnalysisInfoOf c ui (a :: l)) (fun baseAnalysisInfo =>
      bind (if negb (withAnalysisBaseline c) || defined baseAnalysisInfo
            then showAnalysisQuickPick ui (a :: l) "Select an Analysis..."
            else ret None) (fun analysisInfo =>
      ret (analysisInfo, baseAnalysisInfo)))
  | _ => ret (None, None)
  end))).

Section Destination.
(** [path.join] and the workspace folder, as in the first half. *)
Variable path_join : string -> string -> string.
Variable workspaceFolderPath : option string.

(** [destinationUri]: asked for once an analysis is chosen. *)
Definition destinationUriOf (ui : Ui) (analysisInfo : option CSAnalysisInfo)
  : Step (option string) :=
  match analysisInfo with
  | Some analysisInfo =>
      let defaultFileName := name analysisInfo in
      let defaultDestinationPath := defaultFileName ++ ".sarif" in
      let defaultDestinationPath :=
        match workspaceFolderPath with
        | Some folder => path_join folder defaultDestinationPath
        | None => defaultDestinationPath
        end in
      ([ShowSaveDialog defaultDestinationPath],
       Resolved (savePath ui defaultDestinationPath))
  | None => ret None
  end.

(** [executeCodeSonarSarifDownload] from the project list to the download:
    the events of the choice, how the command settles, and the world after
    the download, if one was started. *)
Definition executeCodeSonarSarifDownload_download (c : Chosen) (ui : Ui) (w : World)
  : Step unit * World :=
  match bind (analysisInfoOf c ui) (fun '(analysisInfo, baseAnalysisInfo) =>
        bind (destinationUriOf ui analysisInfo) (fun destinationUri =>
        ret (analysisInfo, baseAnalysisInfo, destinationUri))) with
  | (t, Rejected e) => ((t, Rejected e), w)
  | (t, Resolved (analysisInfo, baseAnalysisInfo, destinationUri)) =>
      match hubClient c, analysisInfo, destinationUri with
      | Some _, Some analysisInfo, Some _ =>
          ((t, Resolved tt), downloadSarifResults analysisInfo baseAnalysisInfo w)
      | _, _, _ => ((t, Resolved tt), w)
      end
  end.

End Destination.

End Selection.

(* ===================================================================== *)
(** ** The command-line front ends *)
(* ===================================================================== *)

Module Cli.
Import JS.

(** [CSHubUserKey]: a certificate path and a key path. *)
Record CSHubUserKey : Type := {
  certFilePath : string;
  keyFilePath : string
}.

(** The options the hub front end hands to the client. *)
Record HubOptions : Type := {
  cafile : option string;
  hubuser : option string;
  hubpwfile : option string;
  hubkey : option CSHubUserKey
}.

(** What a front end does, in order: writes to the error stream, calls of
    [onExit], and the calls that reach the file system or the network. *)
Inductive Event : Type :=
| StderrWrite (text : string)
| OnExit (exitCode : Z)
| PipeToStdout
| ReadFile (path : string)
| HttpRequest (url : string)
| SignIn (hubAddress : string) (options : HubOptions)
| Fetch (urlPath : string)
| Uncaught (e : Value).

(** The argument of the last [onExit] call: the value left in
    [process.exitCode]. *)
Definition exitCode (t : list Event) : option Z :=
  fold_left (fun acc e => match e with OnExit c => Some c | _ => acc end) t None.

Definition endl : string := String "010"%char EmptyString.

End Cli.

(** *** http_client_exec *)

Module HttpClientExec.
Import JS Cli.

(** The variables of the argument loop. *)
Record Args : Type := {
  errorMessage : option string;
  targetUrlString : option string;
  cacertFilePath : option string
}.

Definition noArgs : Args :=
  {| errorMessage := None; targetUrlString := None; cacertFilePath := None |}.

(** The [for] loop over [argv], on the arguments from [argIndex] on; the
    loop stops as soon as [errorMessage] is set. *)
Fixpoint parseArgs (st : Args) (args : list string) : Args :=
  match args with
  | [] => st
  | arg :: rest =>
      if truthy (errorMessage st) then st
      else if String.eqb arg "--cacert" then
        match rest with
        | value :: rest' =>
            parseArgs {| errorMessage := errorMessage st;
                         targetUrlString := targetUrlString st;
                         cacertFilePath := Some value |} rest'
        | [] => st
        end
      else if startsWith arg "-" then
        parseArgs {| errorMessage := Some ("Unrecognized option: '" ++ arg ++ "'.");
                     targetUrlString := targetUrlString st;
                     cacertFilePath := cacertFilePath st |} rest
      else
        match targetUrlString st with
        | None =>
            parseArgs {| errorMessage := errorMessage st;
                         targetUrlString := Some arg;
                         cacertFilePath := cacertFilePath st |} rest
        | Some _ =>
            parseArgs {| errorMessage := Some ("Unexpected argument: '" ++ arg ++ "'.");
                         targetUrlString := targetUrlString st;
                         cacertFilePath := cacertFilePath st |} rest
        end
  end.

(** [if (!errorMessage && !targetUrlString)]. *)
Definition checkArgs (st : Args) : Args :=
  if negb (truthy (errorMessage st)) && negb (truthy (targetUrlString st)) then
    {| errorMessage := Some "Missing URL argument.";
       targetUrlString := targetUrlString st;
       cacertFilePath := cacertFilePath st |}
  else st.

(** What the run meets outside the program: the error [new URL] throws
    for a target it does not accept, the message of the error [readFile]
    reports for a file it cannot read ([None] when the data arrives), and
    the outcome of the request. *)
Record Env : Type := {
  newURL : string -> option Value;
  readFile : string -> option string;
  request : string -> Promise unit
}.

Section Main.
(** [errorToString] of the module errors_ex. *)
Variable errorToString : Value -> string.

(** The local function [doRequest]. *)
Definition doRequest (env : Env) (targetUrl : string) : list Event :=
  [StderrWrite ("start request..." ++ endl); HttpRequest targetUrl] ++
  match request env targetUrl with
  | Resolved _ =>
      [StderrWrite ("read response..." ++ endl); PipeToStdout; OnExit 0]
  | Rejected e =>
      let errorMessage := errorToString e in
      [StderrWrite (errorMessage ++ endl); OnExit 1]
  end.

(** [main(argv, stdin, stdout, stderr, onExit)]. *)
Definition main (argv : list string) (env : Env) : list Event :=
  let st := checkArgs (parseArgs noArgs (tl argv)) in
  if truthy (errorMessage st) then
    match errorMessage st with
    | Some errorMessage => [StderrWrite (errorMessage ++ endl); OnExit 2]
    | None => []
    end
  else if truthy (targetUrlString st) then
    match targetUrlString st with
    | Some targetUrlString =>
        match newURL env targetUrlString with
        | Some e => [Uncaught e]
        | None =>
            if truthy (cacertFilePath st) then
              match cacertFilePath st with
              | Some cacertFilePath =>
                  ReadFile cacertFilePath ::
                  match readFile env cacertFilePath with
                  | Some err_message =>
                      [StderrWrite (err_message ++ endl); OnExit 1]
                  | None => doRequest env targetUrlString
                  end
              | None => []
              end
            else doRequest env targetUrlString
        end
    | None => []
    end
  else [].
End Main.

End HttpClientExec.

(** *** cs_hub_client_exec *)

Module HubClientExec.
Import JS Cli.

(** The variables of the argument loop. *)
Record Args : Type := {
  errorMessage : option string;
  hubAddress : option string;
  targetUrlString : option string;
  cacertFilePath : option string;
  userName : option string;
  userPasswordFilePath : option string;
  userCertFilePath : option string;
  userKeyFilePath : option string
}.

Definition noArgs : Args :=
  {| errorMessage := None; hubAddress := None; targetUrlString := None;
     cacertFilePath := None; userName := None; userPasswordFilePath := None;
     userCertFilePath := None; userKeyFilePath := None |}.

Definition setError (m : string) (st : Args) : Args :=
  {| errorMessage := Some m; hubAddress := hubAddress st;
     targetUrlString := targetUrlString st; cacertFilePath := cacertFilePath st;
     userName := userName st; userPasswordFilePath := userPasswordFilePath st;
     userCertFilePath := userCertFilePath st; userKeyFilePath := userKeyFilePath st |}.

(** The options that take a value, and the assignment each one makes. *)
Definition optionSetter (arg : string) : option (string -> Args -> Args) :=
  if String.eqb arg "--cacert" then
    Some (fun value st =>
      {| errorMessage := errorMessage st; hubAddress := hubAddress st;
         targetUrlString := targetUrlString st; cacertFilePath := Some value;
         userName := userName st; userPasswordFilePath := userPasswordFilePath st;
         userCertFilePath := userCertFilePath st;
         userKeyFilePath := userKeyFilePath st |})
  else if String.eqb arg "-hubuser" || String.eqb arg "--hubuser" then
    Some (fun value st =>
      {| errorMessage := errorMessage st; hubAddress := hubAddress st;
         targetUrlString := targetUrlString st; cacertFilePath := cacertFilePath st;
         userName := Some value; userPasswordFilePath := userPasswordFilePath st;
         userCertFilePath := userCertFilePath st;
         userKeyFilePath := userKeyFilePath st |})
  else if String.eqb arg "-hubpwfile" || String.eqb arg "--hubpwfile" then
    Some (fun value st =>
      {| errorMessage := errorMessage st; hubAddress := hubAddress st;
         targetUrlString := targetUrlString st; cacertFilePath := cacertFilePath st;
         userName := userName st; userPasswordFilePath := Some value;
         userCertFilePath := userCertFilePath st;
         userKeyFilePath := userKeyFilePath st |})
  else if String.eqb arg "-hubcert" || String.eqb arg "--hubcert" then
    Some (fun value st =>
      {| errorMessage := errorMessage st; hubAddress := hubAddress st;
         targetUrlString := targetUrlString st; cacertFilePath := cacertFilePath st;
         userName := userName st; userPasswordFilePath := userPasswordFilePath st;
         userCertFilePath := Some value;
         userKeyFilePath := userKeyFilePath st |})
  else if String.eqb arg "-hubkey" || String.eqb arg "--hubkey" then
    Some (fun value st =>
      {| errorMessage := errorMessage st; hubAddress := hubAddress st;
         targetUrlString := targetUrlString st; cacertFilePath := cacertFilePath st;
         userName := userName st; userPasswordFilePath := userPasswordFilePath st;
         userCertFilePath := userCertFilePath st;
         userKeyFilePath := Some value |})
  else None.

(** The [for] loop over [argv], on the arguments from [argIndex] on; the
    loop stops as soon as [errorMessage] is set. *)
Fixpoint parseArgs (st : Args) (args : list string) : Args :=
  match args with
  | [] => st
  | arg :: rest =>
      if truthy (errorMessage st) then st
      else
        match optionSetter arg with
        | Some set =>
            match rest with
            | value :: rest' => parseArgs (set value st) rest'
            | [] => st
            end
        | None =>
            if startsWith arg "-" then
              parseArgs (setError ("Unrecognized option: '" ++ arg ++ "'.") st) rest
            else
              match hubAddress st, targetUrlString st with
              | None, _ =>
                  parseArgs
                    {| errorMessage := errorMessage st; hubAddress := Some arg;
                       targetUrlString := targetUrlString st;
                       cacertFilePath := cacertFilePath st;
                       userName := userName st;
                       userPasswordFilePath := userPasswordFilePath st;
                       userCertFilePath := userCertFilePath st;
                       userKeyFilePath := userKeyFilePath st |} rest
              | Some _, None =>
                  parseArgs
                    {| errorMessage := errorMessage st; hubAddress := hubAddress st;
                       targetUrlString := Some arg;
                       cacertFilePath := cacertFilePath st;
                       userName := userName st;
                       userPasswordFilePath := userPasswordFilePath st;
                       userCertFilePath := userCertFilePath st;
                       userKeyFilePath := userKeyFilePath st |} rest
              | Some _, Some _ =>
                  parseArgs (setError ("Unexpected argument: '" ++ arg ++ "'.") st) rest
              end
        end
  end.

(** The two checks for missing positional arguments. *)
Definition checkArgs (st : Args) : Args :=
  let st :=
    if negb (truthy (errorMessage st)) && negb (truthy (hubAddress st))
    then setError "Missing Hub Address argument." st else st in
  if negb (truthy (errorMessage st)) && negb (truthy (targetUrlString st))
  then setError "Missing URL argument." st else st.

(** [a ?? b ?? ""]. *)
Definition coalesce (a b : option string) : string :=
  match a, b with
  | Some x, _ => x
  | None, Some y => y
  | None, None => ""
  end.

(** The statements that fill [hubOptions]. *)
Definition hubOptionsOf (st : Args) : HubOptions :=
  {| cafile := if truthy (cacertFilePath st) then cacertFilePath st else None;
     hubuser := if truthy (userName st) then userName st else None;
     hubpwfile :=
       if truthy (userPasswordFilePath st) then userPasswordFilePath st else None;
     hubkey :=
       if truthy (userCertFilePath st) || truthy (userKeyFilePath st) then
         Some {| certFilePath := coalesce (userCertFilePath st) (userKeyFilePath st);
                 keyFilePath := coalesce (userKeyFilePath st) (userCertFilePath st) |}
       else None |}.

(** What the run meets outside the program: the error the client's
    constructor throws for an address it does not accept, the outcome of
    [signIn()] (a message when the hub declines) and of [fetch]. *)
Record Env : Type := {
  newCSHubClient : string -> option Value;
  signIn : Promise (option string);
  fetch : string -> Promise unit
}.

(** The local function [errorHandler]. *)
Definition errorHandler (e : Value) : list Event :=
  match toString e with
  | Some text => [StderrWrite (text ++ endl); OnExit 1]
  | None => [Uncaught (VError "TypeError" "Cannot read properties" None)]
  end.

(** [main(argv, stdin, stdout, stderr, onExit)]. *)
Definition main (argv : list string) (env : Env) : list Event :=
  let st := checkArgs (parseArgs noArgs (tl argv)) in
  if truthy (errorMessage st) then
    match errorMessage st with
    | Some errorMessage => [StderrWrite (errorMessage ++ endl); OnExit 2]
    | None => []
    end
  else if truthy (targetUrlString st) && truthy (hubAddress st) then
    match targetUrlString st, hubAddress st with
    | Some targetUrlPath, Some hubAddress =>
        let hubOptions := hubOptionsOf st in
        match newCSHubClient env hubAddress with
        | Some e => [Uncaught e]
        | None =>
            SignIn hubAddress hubOptions ::
            match signIn env with
            | Resolved message =>
                if truthy message then
                  match message with
                  | Some message =>
                      errorHandler (VString ("Hub sign-in rejected: " ++ message))
                  | None => []
                  end
                else
                  Fetch targetUrlPath ::
                  match fetch env targetUrlPath with
                  | Resolved _ => [PipeToStdout; OnExit 0]
                  | Rejected e => errorHandler e
                  end
            | Rejected e => errorHandler e
            end
        end
    | _, _ => []
    end
  else [].

End HubClientExec.

(* ===================================================================== *)
(** ** Notions used to state the properties *)
(* ===================================================================== *)

Module Notions.
Import JS.

(** The credential schemes a set of connection options carries. *)
Definition honoredSchemes (o : HubClient.CSHubClientConnectionOptions) : nat :=
  (match HubClient.hubcert o with Some _ => 1 | None => 0 end)
  + (match HubClient.hubpwfile o with Some _ => 1 | None => 0 end)
  + (match HubClient.hubpasswd o with Some _ => 1 | None => 0 end).

(** Events of credential resolution by the interactive provider: a query
    of the secret storage, a write to it, the password input box. *)
Definition isCredentialResolution (e : HubClient.Event) : bool :=
  match e with
  | HubClient.SecretGet _ | HubClient.SecretStore _ _ => true
  | HubClient.ShowInputBox _ password => password
  | _ => false
  end.

(** A write of a credential to the secret storage. *)
Definition isSecretStore (e : HubClient.Event) : bool :=
  match e with
  | HubClient.SecretStore _ _ => true
  | _ => false
  end.

(** The options of http_client_exec. *)
Definition httpKnownOption (arg : string) : bool := String.eqb arg "--cacert".

(** The options of cs_hub_client_exec. *)
Definition hubKnownOption (arg : string) : bool :=
  existsb (String.eqb arg)
    ["--cacert"; "-hubuser"; "--hubuser"; "-hubpwfile"; "--hubpwfile";
     "-hubcert"; "--hubcert"; "-hubkey"; "--hubkey"].

(** An unrecognized flag: an argument that starts with a dash and is not
    a known option. *)
Definition unrecognizedFlag (known : string -> bool) (arg : string) : bool :=
  startsWith arg "-" && negb (known arg).

(** A run of whole command-line items: a known option with the argument
    that follows it as its value, or an argument that does not start with
    a dash. *)
Inductive Items (known : string -> bool) : list string -> Prop :=
| Items_nil : Items known []
| Items_option name value rest :
    known name = true -> Items known rest -> Items known (name :: value :: rest)
| Items_positional arg rest :
    startsWith arg "-" = false -> known arg = false ->
    Items known rest -> Items known (arg :: rest).

(** The chunk is a string. *)
Definition isStrChunk (c : CommonUtils.Chunk) : Prop :=
  match c with
  | CommonUtils.StrChunk _ => True
  | CommonUtils.BufChunk _ => False
  end.

(** Invariant of the 'data' listener: the text joined so far is no longer
    than [outLength], and [outLength] never passes [maxLength]. *)
Definition bounded (decode : list Byte.byte -> string) (maxLength : nat)
    (st : CommonUtils.ReadState) : Prop :=
  String.length (CommonUtils.join decode (CommonUtils.chunks st))
  <= CommonUtils.outLength st
  /\ CommonUtils.outLength st <= maxLength.

(** Invariant of the 'data' listener on string chunks: the text joined so
    far is the text seen so far cut at [maxLength], and [outLength] is its
    length. *)
Definition cutAt (decode : list Byte.byte -> string) (maxLength : nat)
    (seen : string) (st : CommonUtils.ReadState) : Prop :=
  CommonUtils.join decode (CommonUtils.chunks st) = substring0 maxLength seen
  /\ CommonUtils.outLength st
     = String.length (CommonUtils.join decode (CommonUtils.chunks st)).

(** A Buffer decoder that yields one code unit per byte. *)
Definition latin1 (b : list Byte.byte) : string :=
  string_of_list_ascii (map ascii_of_byte b).

End Notions.

(* ===================================================================== *)
(** ** Sample settings and environments *)
(* ===================================================================== *)

Module Samples.
Import JS HubClient SarifDownload.

(** Paths that are absolute and already normal. *)
Definition normalize (p : string) : string := p.
Definition isAbsolute (p : string) : bool := true.
Definition joinPaths (a b : string) : string := a ++ "/" ++ b.

(** An address parser that keeps the whole text as the host name. *)
Definition parseAddress (s : string) : CSHubAddress :=
  {| protocol := None; hostname := s; port := None |}.

(** An empty secret storage and no event yet. *)
Definition emptyWorld : World := {| secrets := ∅; trace := [] |}.

(** A user who dismisses the password box, and a hub that accepts. *)
Definition dismissingUser : Env :=
  {| answerHubAddress := None; answerHubUser := None;
     answerPassword := Resolved None;
     fileContents := fun _ => Some "secret";
     hubReply := SignedIn |}.

(** A hub that declines the credentials. *)
Definition decliningHub : Env :=
  {| answerHubAddress := None; answerHubUser := None;
     answerPassword := Resolved (Some "secret");
     fileContents := fun _ => Some "secret";
     hubReply := Forbidden |}.

(** Settings with a hub address and nothing else. *)
Definition addressOnly : HubVariables :=
  {| hubAddressString := Some "localhost:7340"; hubCAFilePath := None;
     hubUserName := None; hubUserPasswordFilePath := None;
     hubUserCertFilePath := None; hubUserCertKeyFilePath := None |}.

(** Settings with a key path and no certificate path. *)
Definition keyOnly : HubVariables :=
  {| hubAddressString := Some "localhost:7340"; hubCAFilePath := None;
     hubUserName := None; hubUserPasswordFilePath := None;
     hubUserCertFilePath := None; hubUserCertKeyFilePath := Some "client.key" |}.

(** Settings with a certificate path and a password file. *)
Definition certificateAndPasswordFile : HubVariables :=
  {| hubAddressString := Some "localhost:7340"; hubCAFilePath := None;
     hubUserName := Some "alice"; hubUserPasswordFilePath := Some "pw.txt";
     hubUserCertFilePath := Some "foo.cert"; hubUserCertKeyFilePath := None |}.

(** Settings with an address and a user name: the interactive scheme. *)
Definition aliceAtHub : CSHubConfig :=
  {| cfg_address := Some "localhost:7340"; cfg_cacert := None;
     cfg_hubuser := Some "alice"; cfg_hubpwfile := None;
     cfg_hubcert := None; cfg_hubkey := None |}.

Definition aliceProvider : PasswordProvider :=
  {| passwordStorageKeyString := "codesonar:hubpasswd::alice@{$hubAddress.hostname}";
     username := "alice"; address := "localhost:7340" |}.

End Samples.

(* ===================================================================== *)
(** ** Measures on chunks, strings and traces *)
(* ===================================================================== *)

Module Measures.
Import JS.

(** The units a list of chunks holds: code units of its strings plus bytes
    of its Buffers. *)
Fixpoint totalLength (cs : list CommonUtils.Chunk) : nat :=
  match cs with
  | [] => 0
  | c :: cs' => CommonUtils.chunkLength c + totalLength cs'
  end.

(** A chunk cut to its first [n] units: a string by [substring(0, n)], a
    Buffer by [slice(0, n)], that is in bytes and before it is decoded. *)
Definition cutChunk (n : nat) (c : CommonUtils.Chunk) : CommonUtils.Chunk :=
  match c with
  | CommonUtils.StrChunk s => CommonUtils.StrChunk (substring0 n s)
  | CommonUtils.BufChunk b => CommonUtils.BufChunk (firstn n b)
  end.

(** The chunks of a stream truncated at [n] units: the chunks that fit
    whole, in order, then the chunk that reaches the bound cut there, and
    nothing of what follows. *)
Fixpoint truncateChunks (n : nat) (cs : list CommonUtils.Chunk)
  : list CommonUtils.Chunk :=
  match cs with
  | [] => []
  | c :: cs' =>
      if n =? 0 then []
      else if CommonUtils.chunkLength c <? n
           then c :: truncateChunks (n - CommonUtils.chunkLength c) cs'
           else [cutChunk n c]
  end.

(** UTF-8 decoding of a Buffer, on the bytes of the code points up to
    U+00FF, which are the code units a [string] holds here: a byte below
    0x80 is itself, a lead byte 0xC2 or 0xC3 with its continuation byte is
    one code unit, and any other byte decodes to one replacement character,
    written as a question mark. *)
Fixpoint utf8Decode (b : list Byte.byte) : string :=
  match b with
  | [] => ""
  | x :: rest =>
      let n := Byte.to_N x in
      if (n <? 128)%N then String (ascii_of_byte x) (utf8Decode rest)
      else
        match rest with
        | y :: rest' =>
            let m := Byte.to_N y in
            if ((n =? 194)%N || (n =? 195)%N) && (128 <=? m)%N && (m <? 192)%N
            then String (ascii_of_N ((n - 192) * 64 + (m - 128)))
                        (utf8Decode rest')
            else String "?" (utf8Decode rest)
        | [] => String "?" ""
        end
  end.

(** The state of the 'data' listener of [readTextStream] once every chunk
    of the stream has been delivered. *)
Definition afterData (inIO : CommonUtils.ReadableStream) (maxLength : option nat)
  : CommonUtils.ReadState :=
  fold_left (CommonUtils.onData maxLength) (CommonUtils.emitted inIO)
            {| CommonUtils.chunks := []; CommonUtils.outLength := 0 |}.

(** The character occurs in the string. *)
Definition mentions (c : ascii) (s : string) : bool :=
  existsb (Ascii.eqb c) (list_ascii_of_string s).

(** The exit codes a front end hands to [onExit], in order. *)
Fixpoint exitCalls (t : list Cli.Event) : list Z :=
  match t with
  | [] => []
  | Cli.OnExit c :: t' => c :: exitCalls t'
  | _ :: t' => exitCalls t'
  end.

(** The event is a request to the hub or to the target server. *)
Definition isRequest (e : Cli.Event) : bool :=
  match e with
  | Cli.HttpRequest _ | Cli.SignIn _ _ | Cli.Fetch _ => true
  | _ => false
  end.

(** What a finished run of a front end looks like: [onExit] was not called
    at all, or it was called once, as the last thing, with 0, 1 or 2; with 2
    no request was made, with 0 one was. *)
Definition exitsOnce (t : list Cli.Event) : Prop :=
  exitCalls t = []
  \/ exists c,
      exitCalls t = [c]
      /\ List.last t Cli.PipeToStdout = Cli.OnExit c
      /\ (c = 0 \/ c = 1 \/ c = 2)%Z
      /\ (c = 2%Z -> existsb isRequest t = false)
      /\ (c = 0%Z -> existsb isRequest t = true).

(** The positional arguments among whole command-line items: a known
    option hides the argument after it. *)
Fixpoint positionals (known : string -> bool) (args : list string) : list string :=
  match args with
  | [] => []
  | arg :: rest =>
      if known arg then
        match rest with
        | _ :: rest' => positionals known rest'
        | [] => []
        end
      else arg :: positionals known rest
  end.

(** The event is a fetch of a SARIF document. *)
Definition isFetch (e : HubClient.Event) : bool :=
  match e with
  | HubClient.FetchSarifAnalysisStream _
  | HubClient.FetchSarifAnalysisDifferenceStream _ _ => true
  | _ => false
  end.

(** The quick pick with the given placeholder was shown. *)
Definition showsPick (placeholder : string) (e : Selection.UiEvent) : bool :=
  match e with
  | Selection.ShowQuickPick p _ => String.eqb p placeholder
  | _ => false
  end.

(** The event asks the hub for the project list. *)
Definition isProjectFetch (e : Selection.UiEvent) : bool :=
  match e with
  | Selection.FetchProjectInfo _ => true
  | _ => false
  end.

(** The save dialog was shown. *)
Definition isSaveDialog (e : Selection.UiEvent) : bool :=
  match e with
  | Selection.ShowSaveDialog _ => true
  | _ => false
  end.

End Measures.

(* ===================================================================== *)
(** ** Sample hubs and choices *)
(* ===================================================================== *)

Module DownloadSamples.
Import JS HubClient SarifDownload Selection.

Definition signedInClient : CSHubClient :=
  {| clientAddress := Samples.parseAddress "localhost:7340";
     clientOptions := noOptions |}.

(** Two analyses of a project. *)
Definition analyses : list CSAnalysisInfo :=
  [{| id := "12"; name := "nightly" |}; {| id := "15"; name := "release" |}].

(** A hub with no project that lists the two analyses, and a user who
    leaves every pick and dialog without a choice. *)
Definition quietUser : Ui :=
  {| projectList := fun _ => Resolved [];
     analysisList := fun _ => Resolved analyses;
     accepted := fun _ _ => None;
     savePath := fun _ => None |}.

(** A difference download of project 7 against baseline 99. *)
Definition diffAgainst99 : Chosen :=
  {| hubClient := Some signedInClient; projectId := Some "7"; projectName := None;
     baseAnalysisId := Some "99"; baseAnalysisName := None;
     withAnalysisBaseline := true |}.

(** A difference download of project 7 with no baseline configured. *)
Definition diffUnconfigured : Chosen :=
  {| hubClient := Some signedInClient; projectId := Some "7"; projectName := None;
     baseAnalysisId := None; baseAnalysisName := None;
     withAnalysisBaseline := true |}.

(** A full download of the project named demo. *)
Definition fullOfDemo : Chosen :=
  {| hubClient := Some signedInClient; projectId := None; projectName := Some "demo";
     baseAnalysisId := None; baseAnalysisName := None;
     withAnalysisBaseline := false |}.

End DownloadSamples.

(* ===================================================================== *)
(** ** Strings *)
(* ===================================================================== *)

Section StringFacts.

(* stdpp freezes string append under [simpl]; the inductions below need
   it to unfold on a constructor. *)
Local Arguments String.append !s1 s2 /.

Lemma strlen_app (a b : string) :
  String.length (a ++ b) = String.length a + String.length b.
Proof. induction a as [|c a IH]; simpl; [reflexivity | now rewrite IH]. Qed.

Lemma str_app_nil_r (a : string) : a ++ "" = a.
Proof. induction a as [|c a IH]; simpl; [reflexivity | now rewrite IH]. Qed.

Lemma str_app_assoc (a b c : string) : (a ++ b) ++ c = a ++ (b ++ c).
Proof. induction a as [|x a IH]; simpl; [reflexivity | now rewrite IH]. Qed.

(** Skipping a prefix: [substring] past [a] in [a ++ b] reads [b]. *)
Lemma substring_skip (a b : string) (k m : nat) :
  String.substring (String.length a + k) m (a ++ b) = String.substring k m b.
Proof. induction a as [|x a IH]; simpl; [reflexivity | exact IH]. Qed.

Lemma substring0_all (a : string) (n : nat) :
  String.length a <= n -> String.substring 0 n a = a.
Proof.
  revert n; induction a as [|x a IH]; intros [|n] H; simpl in *;
    try reflexivity; try lia.
  f_equal. apply IH. lia.
Qed.

Lemma substring0_zero (a : string) : String.substring 0 0 a = "".
Proof. destruct a; reflexivity. Qed.

Lemma substring0_app (a b : string) (n : nat) :
  String.substring 0 n (a ++ b)
  = String.substring 0 n a ++ String.substring 0 (n - String.length a) b.
Proof.
  revert n; induction a as [|x a IH]; intros n; simpl.
  - rewrite Nat.sub_0_r. destruct n; reflexivity.
  - destruct n as [|n]; simpl; [now rewrite substring0_zero|]. now rewrite IH.
Qed.

Lemma substring0_length (a : string) (n : nat) :
  String.length (String.substring 0 n a) = Nat.min n (String.length a).
Proof.
  revert n; induction a as [|x a IH]; intros [|n]; simpl; try reflexivity.
  now rewrite IH.
Qed.

Lemma substring0_prefix (a b : string) :
  String.substring 0 (String.length a) (a ++ b) = a.
Proof.
  rewrite substring0_app, Nat.sub_diag, substring0_all, substring0_zero by lia.
  apply str_app_nil_r.
Qed.

(** [(p + suffix).endsWith(suffix)]. *)
Lemma endsWith_app (p suffix : string) : JS.endsWith (p ++ suffix) suffix = true.
Proof.
  unfold JS.endsWith. rewrite strlen_app.
  replace (String.length p + String.length suffix - String.length suffix)
    with (String.length p + 0) by lia.
  rewrite substring_skip, substring0_all by lia.
  rewrite String.eqb_refl, andb_true_r. apply Nat.leb_le. lia.
Qed.

(** [(p + suffix).substring(0, (p + suffix).length - suffix.length)]. *)
Lemma strip_suffix (p suffix : string) :
  JS.substring0 (String.length (p ++ suffix) - String.length suffix) (p ++ suffix) = p.
Proof.
  unfold JS.substring0. rewrite strlen_app.
  replace (String.length p + String.length suffix - String.length suffix)
    with (String.length p) by lia.
  apply substring0_prefix.
Qed.

(** A path that ends in [.cert.pem] does not end in [.cert]. *)
Lemma cert_pem_not_cert (p : string) :
  JS.endsWith (p ++ ".cert.pem") ".cert" = false.
Proof.
  unfold JS.endsWith. rewrite strlen_app. simpl String.length.
  replace (String.length p + 9 - 5) with (String.length p + 4) by lia.
  rewrite substring_skip. simpl. apply andb_false_r.
Qed.

End StringFacts.

(* ===================================================================== *)
(** ** readTextStream: the bound on the text read *)
(* ===================================================================== *)

Section ReadTextStreamFacts.
Import JS CommonUtils Notions.

Local Arguments String.append !s1 s2 /.

Variable decode : list Byte.byte -> string.
Hypothesis decode_length : forall b, String.length (decode b) <= length b.

Variable maxLength : nat.

Lemma chunkToString_length (c : Chunk) :
  String.length (chunkToString decode c) <= chunkLength c.
Proof. destruct c; simpl; [lia | apply decode_length]. Qed.

Lemma join_snoc (cs : list Chunk) (c : Chunk) :
  join decode (cs ++ [c]) = join decode cs ++ chunkToString decode c.
Proof.
  induction cs as [|x cs IH]; simpl.
  - now rewrite str_app_nil_r.
  - now rewrite IH, str_app_assoc.
Qed.

Abbreviation bounded := (Notions.bounded decode maxLength).

Lemma onData_bounded (st : ReadState) (c : Chunk) :
  bounded st -> bounded (onData (Some maxLength) st c).
Proof.
  intros [Hlen Hmax]. unfold Notions.bounded, onData.
  destruct (maxLength <=? outLength st) eqn:Hfull; [now split|].
  apply Nat.leb_gt in Hfull.
  destruct (chunkLength c + outLength st <? maxLength) eqn:Hfits.
  - apply Nat.ltb_lt in Hfits.
    destruct (chunkTruthy c); [|now split].
    split; simpl.
    + rewrite join_snoc, strlen_app.
      pose proof (chunkToString_length c). lia.
    + lia.
  - destruct c as [s|b].
    + destruct (chunkTruthy _); [|now split].
      split; simpl.
      * rewrite join_snoc, strlen_app. simpl. lia.
      * unfold substring0. rewrite substring0_length. lia.
    + simpl chunkTruthy. cbv iota. split; simpl.
      * rewrite join_snoc, strlen_app. simpl.
        pose proof (decode_length (firstn (maxLength - outLength st) b)). lia.
      * rewrite length_firstn. lia.
Qed.

Lemma fold_onData_bounded (l : list Chunk) (st : ReadState) :
  bounded st -> bounded (fold_left (onData (Some maxLength)) l st).
Proof.
  revert st; induction l as [|c l IH]; intros st H; simpl; [exact H|].
  apply IH, onData_bounded, H.
Qed.

Abbreviation cutAt := (Notions.cutAt decode maxLength).

Lemma onData_exact (seen s : string) (st : ReadState) :
  cutAt seen st -> cutAt (seen ++ s) (onData (Some maxLength) st (StrChunk s)).
Proof.
  intros [Hjoin Hlen]. unfold Notions.cutAt, substring0 in *.
  assert (Hout : outLength st = Nat.min maxLength (String.length seen))
    by (now rewrite Hlen, Hjoin, substring0_length).
  rewrite substring0_app. unfold onData.
  destruct (maxLength <=? outLength st) eqn:Hfull.
  - apply Nat.leb_le in Hfull.
    replace (maxLength - String.length seen) with 0 by lia.
    rewrite substring0_zero, str_app_nil_r. now split.
  - apply Nat.leb_gt in Hfull.
    assert (Hseen : outLength st = String.length seen) by lia.
    simpl chunkLength.
    destruct (String.length s + outLength st <? maxLength) eqn:Hfits.
    + apply Nat.ltb_lt in Hfits.
      rewrite (substring0_all s) by lia.
      unfold chunkTruthy. destruct (String.eqb_spec s "") as [->|Hne]; simpl.
      * rewrite str_app_nil_r. now split.
      * rewrite join_snoc, Hjoin. simpl. split; [reflexivity|].
        rewrite strlen_app, <- Hjoin. lia.
    + rewrite <- Hseen.
      unfold chunkTruthy, substring0.
      destruct (String.eqb_spec
                  (String.substring 0 (maxLength - outLength st) s) "") as [->|Hne];
        simpl.
      * rewrite str_app_nil_r. now split.
      * rewrite join_snoc, Hjoin. simpl. split; [reflexivity|].
        rewrite strlen_app, <- Hjoin. lia.
Qed.

Lemma fold_onData_exact (l : list Chunk) :
  Forall isStrChunk l ->
  forall seen st, cutAt seen st ->
    cutAt (seen ++ join decode l) (fold_left (onData (Some maxLength)) l st).
Proof.
  induction 1 as [|c l Hc Hl IH]; intros seen st H; simpl.
  - now rewrite str_app_nil_r.
  - destruct c as [s|b]; [|contradiction]. simpl chunkToString.
    rewrite <- str_app_assoc. apply IH, onData_exact, H.
Qed.

End ReadTextStreamFacts.

Section ReadTextStreamTruncation.
Import JS CommonUtils Measures.

Local Arguments String.append !s1 s2 /.

Variable decode : list Byte.byte -> string.
Variable maxLength : nat.

(** Once [outLength] has reached the bound the listener keeps nothing. *)
Lemma fold_onData_full (l : list Chunk) (st : ReadState) :
  maxLength <= outLength st -> fold_left (onData (Some maxLength)) l st = st.
Proof.
  intros H. induction l as [|c l IH]; simpl; [reflexivity|].
  unfold onData at 2. apply Nat.leb_le in H. rewrite H. exact IH.
Qed.

Lemma truncateChunks_zero (l : list Chunk) : truncateChunks 0 l = [].
Proof. destruct l; reflexivity. Qed.

(** The listener keeps the text of the chunks truncated at what is left of
    the bound. *)
Lemma fold_onData_truncates (l : list Chunk) :
  forall st,
    join decode (chunks (fold_left (onData (Some maxLength)) l st))
    = join decode (chunks st)
      ++ join decode (truncateChunks (maxLength - outLength st) l).
Proof.
  induction l as [|c l IH]; intros st.
  - simpl. now rewrite str_app_nil_r.
  - destruct (Nat.le_gt_cases maxLength (outLength st)) as [Hfull|Hroom].
    + rewrite fold_onData_full by exact Hfull.
      replace (maxLength - outLength st) with 0 by lia.
      rewrite truncateChunks_zero. simpl. now rewrite str_app_nil_r.
    + cbn [fold_left truncateChunks]. rewrite IH. clear IH.
      assert (Hn : (maxLength - outLength st =? 0) = false)
        by (apply Nat.eqb_neq; lia).
      rewrite Hn. unfold onData.
      assert (Hle : (maxLength <=? outLength st) = false)
        by (apply Nat.leb_gt; exact Hroom).
      rewrite Hle.
      destruct (chunkLength c + outLength st <? maxLength) eqn:Hfits.
      * apply Nat.ltb_lt in Hfits.
        assert (Hlt : (chunkLength c <? maxLength - outLength st) = true)
          by (apply Nat.ltb_lt; lia).
        rewrite Hlt. destruct (chunkTruthy c) eqn:Ht.
        -- cbn [chunks outLength]. rewrite join_snoc, str_app_assoc.
           replace (maxLength - (outLength st + chunkLength c))
             with (maxLength - outLength st - chunkLength c) by lia.
           reflexivity.
        -- destruct c as [s|b]; [|discriminate]. simpl in Ht.
           destruct (String.eqb_spec s "") as [->|]; [|discriminate].
           simpl. now rewrite Nat.sub_0_r.
      * apply Nat.ltb_ge in Hfits.
        assert (Hlt : (chunkLength c <? maxLength - outLength st) = false)
          by (apply Nat.ltb_ge; lia).
        rewrite Hlt.
        assert (Hcut : chunkLength (cutChunk (maxLength - outLength st) c)
                       = maxLength - outLength st).
        { destruct c as [s|b]; simpl in *.
          - unfold substring0. rewrite substring0_length. lia.
          - rewrite length_firstn. lia. }
        assert (Ht : chunkTruthy (cutChunk (maxLength - outLength st) c) = true).
        { destruct c as [s|b]; [|reflexivity]. simpl in *.
          destruct (String.eqb_spec (substring0 (maxLength - outLength st) s) "")
            as [E|_]; [|reflexivity].
          rewrite E in Hcut. simpl in Hcut. lia. }
        assert (Hpush :
          match c with
          | StrChunk s => Some (StrChunk (substring0 (maxLength - outLength st) s))
          | BufChunk b => Some (BufChunk (firstn (maxLength - outLength st) b))
          end = Some (cutChunk (maxLength - outLength st) c))
          by (destruct c; reflexivity).
        rewrite Hpush, Ht. cbn [chunks outLength]. rewrite Hcut.
        replace (maxLength - (outLength st + (maxLength - outLength st)))
          with 0 by lia.
        rewrite truncateChunks_zero, join_snoc. simpl.
        now rewrite !str_app_nil_r.
Qed.

(** The truncated chunks hold [n] units, or all of them when there are
    fewer. *)
Lemma truncateChunks_totalLength (l : list Chunk) :
  forall n, totalLength (truncateChunks n l) = Nat.min n (totalLength l).
Proof.
  induction l as [|c l IH]; intros n; simpl; [lia|].
  destruct (Nat.eqb_spec n 0) as [->|Hn]; [reflexivity|].
  destruct (Nat.ltb_spec (chunkLength c) n) as [Hlt|Hge]; simpl.
  - rewrite IH. lia.
  - destruct c as [s|b]; simpl in *.
    + unfold substring0. rewrite substring0_length. lia.
    + rewrite length_firstn. lia.
Qed.

End ReadTextStreamTruncation.

Lemma utf8Decode_length (b : list Byte.byte) :
  String.length (Measures.utf8Decode b) <= length b.
Proof.
  assert (H : forall n (b : list Byte.byte), length b <= n ->
                String.length (Measures.utf8Decode b) <= length b).
  { induction n as [|n IH]; intros [|x [|y l]] Hn; simpl in *; try lia.
    - destruct (N.ltb _ _); simpl; lia.
    - destruct (N.ltb (Byte.to_N x) 128).
      + simpl. specialize (IH (y :: l)). simpl in IH. apply le_n_S, IH. lia.
      + destruct (_ && _).
        * simpl. specialize (IH l). apply le_n_S. etransitivity; [apply IH|]; lia.
        * simpl. specialize (IH (y :: l)). simpl in IH. apply le_n_S, IH. lia. }
  apply (H (length b)). lia.
Qed.

(** C10, as amended.  For every stream and every [maxLength], the string
    that [readTextStream(inIO, maxLength)] resolves with has at most
    [maxLength] code units, and a readable stream that ends does resolve.
    The string is the text of the stream's chunks truncated at [maxLength]
    units, a unit being a code unit of a string chunk and a byte of a Buffer
    chunk: the chunks that fit are kept whole, the chunk that reaches the
    bound is cut there (a Buffer in bytes, before it is decoded), and what
    arrives after the bound is dropped, so that [maxLength] units are kept,
    or all of them when the stream delivers fewer.  When the chunks are
    strings this is the concatenation of the chunks cut at [maxLength].
    Buffers are decoded by [decode], which yields at most one code unit per
    byte. *)
Theorem readTextStream_at_most_maxLength
    (decode : list Byte.byte -> string)
    (decode_length : forall b, String.length (decode b) <= length b)
    (inIO : CommonUtils.ReadableStream) (maxLength : nat) :
  (CommonUtils.readable inIO = true ->
   CommonUtils.ending inIO = CommonUtils.EmitEnd ->
   exists text,
     CommonUtils.readTextStream decode inIO (Some maxLength) = JS.Resolved text)
  /\ (forall text,
        CommonUtils.readTextStream decode inIO (Some maxLength) = JS.Resolved text ->
        String.length text <= maxLength
        /\ (Forall Notions.isStrChunk (CommonUtils.emitted inIO) ->
            text = JS.substring0 maxLength
                     (CommonUtils.join decode (CommonUtils.emitted inIO)))
        /\ text = CommonUtils.join decode
                    (Measures.truncateChunks maxLength (CommonUtils.emitted inIO)))
  /\ Measures.totalLength
       (Measures.truncateChunks maxLength (CommonUtils.emitted inIO))
     = Nat.min maxLength (Measures.totalLength (CommonUtils.emitted inIO)).
Proof.
  unfold CommonUtils.readTextStream. split; [|split].
  3: apply truncateChunks_totalLength.
  - intros -> ->. simpl. eauto.
  - intros text. destruct (CommonUtils.readable inIO); simpl; [|discriminate].
    destruct (CommonUtils.ending inIO); [|discriminate].
    intros [= <-]. repeat apply conj.
    + pose proof (fold_onData_bounded decode decode_length maxLength
                    (CommonUtils.emitted inIO)
                    {| CommonUtils.chunks := []; CommonUtils.outLength := 0 |}) as H.
      destruct H as [H1 H2]; [split; simpl; lia | lia].
    + intros Hstr.
      pose proof (fold_onData_exact decode maxLength (CommonUtils.emitted inIO) Hstr
                    "" {| CommonUtils.chunks := []; CommonUtils.outLength := 0 |}) as H.
      destruct H as [H _]; [|exact H].
      split; simpl; [|reflexivity].
      unfold JS.substring0. destruct maxLength; reflexivity.
    + rewrite fold_onData_truncates. simpl. now rewrite Nat.sub_0_r.
Qed.

(** A run of [readTextStream] on a string, a Buffer and a string, with
    [maxLength] 8: the Buffer holds the bytes of a space, w, o. *)
Lemma readTextStream_at_most_maxLength_witness :
  let inIO := {| CommonUtils.readable := true;
                 CommonUtils.emitted :=
                   [CommonUtils.StrChunk "hello";
                    CommonUtils.BufChunk [Byte.x20; Byte.x77; Byte.x6f];
                    CommonUtils.StrChunk "rld"];
                 CommonUtils.ending := CommonUtils.EmitEnd |} in
  CommonUtils.readTextStream Measures.utf8Decode inIO (Some 8)
  = JS.Resolved "hello wo"
  /\ String.length "hello wo" <= 8.
Proof.
  split; [reflexivity|].
  exact (proj1 (proj1 (proj2 (readTextStream_at_most_maxLength Measures.utf8Decode
                         utf8Decode_length
                         {| CommonUtils.readable := true;
                            CommonUtils.emitted :=
                              [CommonUtils.StrChunk "hello";
                               CommonUtils.BufChunk [Byte.x20; Byte.x77; Byte.x6f];
                               CommonUtils.StrChunk "rld"];
                            CommonUtils.ending := CommonUtils.EmitEnd |} 8))
                      "hello wo" eq_refl)).
Defined.

(** A Buffer with the four bytes of two two-byte characters, read with
    [maxLength] 2: the Buffer is cut after two bytes and the text is the one
    character they decode to, where the concatenation of the chunks cut at
    two code units holds both characters. *)
Lemma buffer_is_cut_in_bytes :
  let inIO := {| CommonUtils.readable := true;
                 CommonUtils.emitted :=
                   [CommonUtils.BufChunk [Byte.xc3; Byte.xa9; Byte.xc3; Byte.xa9]];
                 CommonUtils.ending := CommonUtils.EmitEnd |} in
  CommonUtils.readTextStream Measures.utf8Decode inIO (Some 2)
  = JS.Resolved (String "233" "")
  /\ JS.substring0 2 (CommonUtils.join Measures.utf8Decode (CommonUtils.emitted inIO))
     = String "233" (String "233" "")
  /\ CommonUtils.readTextStream Measures.utf8Decode inIO (Some 2)
     <> JS.Resolved
          (JS.substring0 2
             (CommonUtils.join Measures.utf8Decode (CommonUtils.emitted inIO))).
Proof. repeat split. discriminate. Qed.

(* ===================================================================== *)
(** ** File names and storage keys *)
(* ===================================================================== *)

(** C9. [replaceInvalidFileNameChars] does not replace the invalid
    characters one by one: its pattern is the sequence slash, question mark,
    any number of percent signs, colon, or else the sequence double quote,
    less-than, greater-than.  A name with a slash and a colon comes back
    unchanged, where replacing each invalid character gives [a_b_c]; only
    the whole sequences are replaced. *)
Theorem replaceInvalidFileNameChars_keeps_invalid_chars :
  CommonUtils.invalidCharRegExp
  = [[CommonUtils.Lit "/"; CommonUtils.Lit "?"; CommonUtils.Star "%"; CommonUtils.Lit ":"];
     [CommonUtils.Lit CommonUtils.dquote; CommonUtils.Lit "<"; CommonUtils.Lit ">"]]%char
  /\ CommonUtils.replaceInvalidFileNameChars "a/b:c" None = "a/b:c"
  /\ CommonUtils.replaceEachChar "_" "a/b:c" = "a_b_c"
  /\ CommonUtils.replaceInvalidFileNameChars "x/?%%:y" None = "x_y".
Proof. repeat split; reflexivity. Qed.

(** C8. [formatUserHubAddress] never reads the host name: two addresses
    with the same protocol and port give the same string for the same user,
    whatever their host names, and so the same password storage key. *)
Theorem formatUserHubAddress_ignores_hostname
    (protocol : option string) (port : option N) (host1 host2 username : string) :
  SarifDownload.formatUserHubAddress
    {| HubClient.protocol := protocol; HubClient.hostname := host1;
       HubClient.port := port |} username
  = SarifDownload.formatUserHubAddress
      {| HubClient.protocol := protocol; HubClient.hostname := host2;
         HubClient.port := port |} username.
Proof. reflexivity. Qed.

(** The string formatted for user alice at hub1 and at hub2, port 7340. *)
Example formatUserHubAddress_two_hubs :
  SarifDownload.formatUserHubAddress
    {| HubClient.protocol := Some "https"; HubClient.hostname := "hub1";
       HubClient.port := Some 7340%N |} "alice"
  = "https://alice@{$hubAddress.hostname}:7340"
  /\ SarifDownload.formatUserHubAddress
       {| HubClient.protocol := Some "https"; HubClient.hostname := "hub2";
          HubClient.port := Some 7340%N |} "alice"
     = "https://alice@{$hubAddress.hostname}:7340".
Proof. split; reflexivity. Qed.

(* ===================================================================== *)
(** ** The argument loops of the front ends *)
(* ===================================================================== *)

Section HttpArgs.
Import JS Cli HttpClientExec Notions.

Lemma http_error_stops (st : Args) (args : list string) :
  truthy (errorMessage st) = true -> parseArgs st args = st.
Proof. intros H. destruct args; simpl; [reflexivity | now rewrite H]. Qed.

Lemma http_flag_is_error (st : Args) (flag : string) (post : list string) :
  unrecognizedFlag httpKnownOption flag = true ->
  truthy (errorMessage (parseArgs st (flag :: post))) = true.
Proof.
  unfold unrecognizedFlag, httpKnownOption. intros [Hdash Hknown]%andb_prop.
  apply negb_true_iff in Hknown. simpl.
  destruct (truthy (errorMessage st)) eqn:He; [exact He|].
  rewrite Hknown, Hdash. now rewrite http_error_stops.
Qed.

Lemma http_items_then_flag (pre : list string) (flag : string) (post : list string) :
  Items httpKnownOption pre ->
  unrecognizedFlag httpKnownOption flag = true ->
  forall st, truthy (errorMessage (parseArgs st (pre ++ flag :: post))) = true.
Proof.
  intros Hpre Hflag.
  induction Hpre as [|name value rest Hname _ IH|arg rest Hdash Hknown _ IH];
    intros st.
  - apply http_flag_is_error, Hflag.
  - simpl. destruct (truthy (errorMessage st)) eqn:He; [exact He|].
    unfold httpKnownOption in Hname. rewrite Hname. apply IH.
  - simpl. destruct (truthy (errorMessage st)) eqn:He; [exact He|].
    unfold httpKnownOption in Hknown. rewrite Hknown, Hdash.
    destruct (targetUrlString st); [|apply IH].
    now rewrite http_error_stops.
Qed.

Lemma http_checkArgs_keeps_error (st : Args) :
  truthy (errorMessage st) = true -> checkArgs st = st.
Proof. intros H. unfold checkArgs. now rewrite H. Qed.

Lemma http_checkArgs_missing (st : Args) :
  truthy (targetUrlString st) = false ->
  truthy (errorMessage (checkArgs st)) = true.
Proof.
  intros H. unfold checkArgs. rewrite H.
  destruct (truthy (errorMessage st)) eqn:He; simpl; [exact He | reflexivity].
Qed.

Lemma http_checkArgs_accepts (st : Args) :
  truthy (errorMessage (checkArgs st)) = false ->
  checkArgs st = st /\ truthy (targetUrlString st) = true.
Proof.
  unfold checkArgs.
  destruct (truthy (errorMessage st)) eqn:E1,
           (truthy (targetUrlString st)) eqn:E2; simpl; intros H;
    try (split; [reflexivity | congruence]); congruence.
Qed.

(** With an error message set, [main] writes it and exits with 2. *)
Lemma http_main_usage_error (errorToString : Value -> string)
    (argv : list string) (env : Env) :
  truthy (errorMessage (checkArgs (parseArgs noArgs (tl argv)))) = true ->
  exists message,
    main errorToString argv env = [StderrWrite (message ++ endl); OnExit 2].
Proof.
  intros H. unfold main. rewrite H.
  destruct (errorMessage _) as [m|]; [eauto | discriminate].
Qed.

End HttpArgs.

Section HubArgs.
Import JS Cli HubClientExec Notions.

Lemma hub_known_setter (arg : string) :
  hubKnownOption arg = true <-> optionSetter arg <> None.
Proof.
  unfold hubKnownOption, optionSetter, existsb.
  repeat match goal with
         | |- context [String.eqb arg ?s] => destruct (String.eqb arg s)
         end; simpl; split; intros H; try reflexivity; try discriminate;
    try congruence.
Qed.

Lemma hub_error_stops (st : Args) (args : list string) :
  truthy (errorMessage st) = true -> parseArgs st args = st.
Proof. intros H. destruct args; simpl; [reflexivity | now rewrite H]. Qed.

Lemma hub_setter_keeps_error (arg : string) (set : string -> Args -> Args)
    (value : string) (st : Args) :
  optionSetter arg = Some set -> errorMessage (set value st) = errorMessage st.
Proof.
  unfold optionSetter.
  repeat match goal with
         | |- context [if ?b then _ else _] => destruct b
         end; intros [= <-]; reflexivity.
Qed.

Lemma hub_flag_is_error (st : Args) (flag : string) (post : list string) :
  unrecognizedFlag hubKnownOption flag = true ->
  truthy (errorMessage (parseArgs st (flag :: post))) = true.
Proof.
  unfold unrecognizedFlag. intros [Hdash Hknown]%andb_prop.
  apply negb_true_iff in Hknown.
  assert (Hset : optionSetter flag = None).
  { destruct (optionSetter flag) eqn:E; [|reflexivity].
    assert (hubKnownOption flag = true) by (apply hub_known_setter; congruence).
    congruence. }
  simpl. destruct (truthy (errorMessage st)) eqn:He; [exact He|].
  rewrite Hset, Hdash. now rewrite hub_error_stops.
Qed.

Lemma hub_items_then_flag (pre : list string) (flag : string) (post : list string) :
  Items hubKnownOption pre ->
  unrecognizedFlag hubKnownOption flag = true ->
  forall st, truthy (errorMessage (parseArgs st (pre ++ flag :: post))) = true.
Proof.
  intros Hpre Hflag.
  induction Hpre as [|name value rest Hname _ IH|arg rest Hdash Hknown _ IH];
    intros st.
  - apply hub_flag_is_error, Hflag.
  - simpl. destruct (truthy (errorMessage st)) eqn:He; [exact He|].
    apply hub_known_setter in Hname.
    destruct (optionSetter name) as [set|]; [apply IH | contradiction].
  - simpl. destruct (truthy (errorMessage st)) eqn:He; [exact He|].
    assert (Hset : optionSetter arg = None).
    { destruct (optionSetter arg) eqn:E; [|reflexivity].
      assert (hubKnownOption arg = true) by (apply hub_known_setter; congruence).
      congruence. }
    rewrite Hset, Hdash.
    destruct (hubAddress st); [destruct (targetUrlString st)|]; apply IH.
Qed.

Lemma hub_checkArgs_keeps_error (st : Args) :
  truthy (errorMessage st) = true -> checkArgs st = st.
Proof.
  intros H. unfold checkArgs. cbv zeta. rewrite H. simpl. now rewrite H.
Qed.

Lemma hub_checkArgs_missing (st : Args) :
  truthy (hubAddress st) = false \/ truthy (targetUrlString st) = false ->
  truthy (errorMessage (checkArgs st)) = true.
Proof.
  intros H. unfold checkArgs.
  destruct (truthy (errorMessage st)) eqn:He; simpl; [now rewrite He|].
  destruct (truthy (hubAddress st)) eqn:Ha; simpl; [|reflexivity].
  rewrite He. simpl. destruct H as [H|H]; [discriminate|]. now rewrite H.
Qed.

Lemma hub_checkArgs_accepts (st : Args) :
  truthy (errorMessage (checkArgs st)) = false ->
  checkArgs st = st
  /\ truthy (hubAddress st) = true /\ truthy (targetUrlString st) = true.
Proof.
  unfold checkArgs. cbv zeta.
  destruct (truthy (errorMessage st)) eqn:E1; simpl.
  - rewrite E1. simpl. congruence.
  - destruct (truthy (hubAddress st)) eqn:E2; simpl; [|discriminate].
    rewrite E1. simpl.
    destruct (truthy (targetUrlString st)) eqn:E3; simpl; [|discriminate].
    intros _. now repeat split.
Qed.

Lemma hub_main_usage_error (argv : list string) (env : Env) :
  truthy (errorMessage (checkArgs (parseArgs noArgs (tl argv)))) = true ->
  exists message, main argv env = [StderrWrite (message ++ endl); OnExit 2].
Proof.
  intros H. unfold main. rewrite H.
  destruct (errorMessage _) as [m|]; [eauto | discriminate].
Qed.

End HubArgs.

(* ===================================================================== *)
(** ** Exit status of the front ends *)
(* ===================================================================== *)

Section ExitStatus.
Import JS Cli Notions.

Variable errorToString : Value -> string.

(** http_client_exec, once the arguments are accepted: the outcome of the
    request decides between 0 and 1. *)
Lemma http_main_runtime (argv : list string) (env : HttpClientExec.Env) :
  let st := HttpClientExec.checkArgs
              (HttpClientExec.parseArgs HttpClientExec.noArgs (tl argv)) in
  truthy (HttpClientExec.errorMessage st) = false ->
  exists targetUrl,
    HttpClientExec.targetUrlString st = Some targetUrl
    /\ (HttpClientExec.newURL env targetUrl = None ->
        (forall path, HttpClientExec.cacertFilePath st = Some path ->
                      HttpClientExec.readFile env path = None) ->
        (forall e, HttpClientExec.request env targetUrl = Rejected e ->
           exitCode (HttpClientExec.main errorToString argv env) = Some 1%Z
           /\ In (StderrWrite (errorToString e ++ endl))
                 (HttpClientExec.main errorToString argv env))
        /\ (forall r, HttpClientExec.request env targetUrl = Resolved r ->
           exitCode (HttpClientExec.main errorToString argv env) = Some 0%Z
           /\ In (HttpRequest targetUrl)
                 (HttpClientExec.main errorToString argv env))).
Proof.
  intros st He. unfold HttpClientExec.main. fold st. rewrite He.
  assert (Ht : truthy (HttpClientExec.targetUrlString st) = true).
  { destruct (http_checkArgs_accepts _ He) as [Hst Ht]. subst st.
    now rewrite Hst. }
  rewrite Ht.
  destruct (HttpClientExec.targetUrlString st) as [url|]; [|discriminate].
  exists url. split; [reflexivity|]. intros Hurl Hca. rewrite Hurl.
  unfold HttpClientExec.doRequest.
  destruct (HttpClientExec.cacertFilePath st) as [p|]; simpl truthy.
  - specialize (Hca p eq_refl). rewrite Hca.
    split; intros x Hx; rewrite Hx; destruct (negb _); simpl; auto 10.
  - split; intros x Hx; rewrite Hx; simpl; auto 10.
Qed.

(** cs_hub_client_exec, once the arguments are accepted: sign-in and
    fetch decide between 0 and 1. *)
Lemma hub_main_runtime (argv : list string) (env : HubClientExec.Env) :
  let st := HubClientExec.checkArgs
              (HubClientExec.parseArgs HubClientExec.noArgs (tl argv)) in
  truthy (HubClientExec.errorMessage st) = false ->
  exists hubAddress targetUrlPath,
    HubClientExec.hubAddress st = Some hubAddress
    /\ HubClientExec.targetUrlString st = Some targetUrlPath
    /\ (HubClientExec.newCSHubClient env hubAddress = None ->
        let signInCall := SignIn hubAddress (HubClientExec.hubOptionsOf st) in
        (forall e text,
           HubClientExec.signIn env = Rejected e -> toString e = Some text ->
           HubClientExec.main argv env
           = [signInCall; StderrWrite (text ++ endl); OnExit 1%Z])
        /\ (forall message,
           HubClientExec.signIn env = Resolved (Some message) -> message <> "" ->
           HubClientExec.main argv env
           = [signInCall;
              StderrWrite (("Hub sign-in rejected: " ++ message) ++ endl);
              OnExit 1%Z])
        /\ (forall message e text,
           HubClientExec.signIn env = Resolved message -> truthy message = false ->
           HubClientExec.fetch env targetUrlPath = Rejected e ->
           toString e = Some text ->
           HubClientExec.main argv env
           = [signInCall; Fetch targetUrlPath;
              StderrWrite (text ++ endl); OnExit 1%Z])
        /\ (forall message r,
           HubClientExec.signIn env = Resolved message -> truthy message = false ->
           HubClientExec.fetch env targetUrlPath = Resolved r ->
           HubClientExec.main argv env
           = [signInCall; Fetch targetUrlPath; PipeToStdout; OnExit 0%Z])).
Proof.
  intros st He. unfold HubClientExec.main. fold st. rewrite He.
  assert (Ht : truthy (HubClientExec.hubAddress st) = true
               /\ truthy (HubClientExec.targetUrlString st) = true).
  { destruct (hub_checkArgs_accepts _ He) as (Hst & Ha & Ht). subst st.
    now rewrite Hst. }
  destruct Ht as [Ha Ht]. rewrite Ha, Ht. simpl.
  destruct (HubClientExec.hubAddress st) as [addr|]; [|discriminate].
  destruct (HubClientExec.targetUrlString st) as [path|]; [|discriminate].
  exists addr, path. repeat split; try reflexivity.
  - intros e text Hs Htext. rewrite H, Hs. unfold HubClientExec.errorHandler.
    now rewrite Htext.
  - intros message Hs Hne. rewrite H, Hs. simpl.
    destruct (String.eqb_spec message ""); [contradiction|]. reflexivity.
  - intros message e text Hs Hm Hf Htext. rewrite H, Hs, Hm, Hf.
    unfold HubClientExec.errorHandler. now rewrite Htext.
  - intros message r Hs Hm Hf. now rewrite H, Hs, Hm, Hf.
Qed.

End ExitStatus.

(** C7, as amended.  For every argument vector given to the two front
    ends: an argument that starts with a dash, is not a known option and is
    met by the argument loop as an item of its own (it follows whole items:
    known options with their values, and positional arguments), or a
    required positional argument still missing when the loop ends, makes
    [main] write one message to the error stream and call [onExit(2)],
    with no request made.  Once the arguments are accepted and the client
    is built, a failure of sign-in or of the fetch ends with the message on
    the error stream and [onExit(1)], a fetch that succeeds with
    [onExit(0)]. *)
Theorem front_end_exit_status (errorToString : JS.Value -> string) :
  (forall (argv : list string) env (pre : list string) flag post,
      tl argv = (pre ++ flag :: post)%list ->
      Notions.Items Notions.httpKnownOption pre ->
      Notions.unrecognizedFlag Notions.httpKnownOption flag = true ->
      exists message,
        HttpClientExec.main errorToString argv env
        = [Cli.StderrWrite (message ++ Cli.endl); Cli.OnExit 2%Z])
  /\ (forall argv env,
      JS.truthy (HttpClientExec.targetUrlString
                   (HttpClientExec.parseArgs HttpClientExec.noArgs (tl argv))) = false ->
      exists message,
        HttpClientExec.main errorToString argv env
        = [Cli.StderrWrite (message ++ Cli.endl); Cli.OnExit 2%Z])
  /\ (forall (argv : list string) env (pre : list string) flag post,
      tl argv = (pre ++ flag :: post)%list ->
      Notions.Items Notions.hubKnownOption pre ->
      Notions.unrecognizedFlag Notions.hubKnownOption flag = true ->
      exists message,
        HubClientExec.main argv env
        = [Cli.StderrWrite (message ++ Cli.endl); Cli.OnExit 2%Z])
  /\ (forall argv env,
      JS.truthy (HubClientExec.hubAddress
                   (HubClientExec.parseArgs HubClientExec.noArgs (tl argv))) = false
      \/ JS.truthy (HubClientExec.targetUrlString
                      (HubClientExec.parseArgs HubClientExec.noArgs (tl argv))) = false ->
      exists message,
        HubClientExec.main argv env
        = [Cli.StderrWrite (message ++ Cli.endl); Cli.OnExit 2%Z])
  /\ (forall argv env,
      let st := HttpClientExec.checkArgs
                  (HttpClientExec.parseArgs HttpClientExec.noArgs (tl argv)) in
      JS.truthy (HttpClientExec.errorMessage st) = false ->
      exists targetUrl,
        HttpClientExec.targetUrlString st = Some targetUrl
        /\ (HttpClientExec.newURL env targetUrl = None ->
            (forall path, HttpClientExec.cacertFilePath st = Some path ->
                          HttpClientExec.readFile env path = None) ->
            (forall e, HttpClientExec.request env targetUrl = JS.Rejected e ->
               Cli.exitCode (HttpClientExec.main errorToString argv env) = Some 1%Z
               /\ In (Cli.StderrWrite (errorToString e ++ Cli.endl))
                     (HttpClientExec.main errorToString argv env))
            /\ (forall r, HttpClientExec.request env targetUrl = JS.Resolved r ->
               Cli.exitCode (HttpClientExec.main errorToString argv env) = Some 0%Z
               /\ In (Cli.HttpRequest targetUrl)
                     (HttpClientExec.main errorToString argv env))))
  /\ (forall argv env,
      let st := HubClientExec.checkArgs
                  (HubClientExec.parseArgs HubClientExec.noArgs (tl argv)) in
      JS.truthy (HubClientExec.errorMessage st) = false ->
      exists hubAddress targetUrlPath,
        HubClientExec.hubAddress st = Some hubAddress
        /\ HubClientExec.targetUrlString st = Some targetUrlPath
        /\ (HubClientExec.newCSHubClient env hubAddress = None ->
            let signInCall := Cli.SignIn hubAddress (HubClientExec.hubOptionsOf st) in
            (forall e text,
               HubClientExec.signIn env = JS.Rejected e -> JS.toString e = Some text ->
               HubClientExec.main argv env
               = [signInCall; Cli.StderrWrite (text ++ Cli.endl); Cli.OnExit 1%Z])
            /\ (forall message,
               HubClientExec.signIn env = JS.Resolved (Some message) ->
               message <> "" ->
               HubClientExec.main argv env
               = [signInCall;
                  Cli.StderrWrite (("Hub sign-in rejected: " ++ message) ++ Cli.endl);
                  Cli.OnExit 1%Z])
            /\ (forall message e text,
               HubClientExec.signIn env = JS.Resolved message ->
               JS.truthy message = false ->
               HubClientExec.fetch env targetUrlPath = JS.Rejected e ->
               JS.toString e = Some text ->
               HubClientExec.main argv env
               = [signInCall; Cli.Fetch targetUrlPath;
                  Cli.StderrWrite (text ++ Cli.endl); Cli.OnExit 1%Z])
            /\ (forall message r,
               HubClientExec.signIn env = JS.Resolved message ->
               JS.truthy message = false ->
               HubClientExec.fetch env targetUrlPath = JS.Resolved r ->
               HubClientExec.main argv env
               = [signInCall; Cli.Fetch targetUrlPath; Cli.PipeToStdout;
                  Cli.OnExit 0%Z]))).
Proof.
  repeat apply conj.
  - intros argv env pre flag post Hargv Hpre Hflag.
    apply http_main_usage_error. rewrite http_checkArgs_keeps_error;
      rewrite Hargv; now apply http_items_then_flag.
  - intros argv env H. apply http_main_usage_error.
    now apply http_checkArgs_missing.
  - intros argv env pre flag post Hargv Hpre Hflag.
    apply hub_main_usage_error. rewrite hub_checkArgs_keeps_error;
      rewrite Hargv; now apply hub_items_then_flag.
  - intros argv env H. apply hub_main_usage_error.
    now apply hub_checkArgs_missing.
  - intros argv env. apply http_main_runtime.
  - intros argv env. apply hub_main_runtime.
Qed.

(** The http front end on [--cacert ca.pem -v https://hub/x]. *)
Lemma front_end_exit_status_witness :
  exists message,
    HttpClientExec.main (fun e => CommonUtils.errorToString e false None)
      ["http_client_exec"; "--cacert"; "ca.pem"; "-v"; "https://hub/x"]
      {| HttpClientExec.newURL := fun _ => None;
         HttpClientExec.readFile := fun _ => None;
         HttpClientExec.request := fun _ => JS.Resolved tt |}
    = [Cli.StderrWrite (message ++ Cli.endl); Cli.OnExit 2%Z].
Proof.
  exact (proj1 (front_end_exit_status (fun e => CommonUtils.errorToString e false None))
           ["http_client_exec"; "--cacert"; "ca.pem"; "-v"; "https://hub/x"]
           {| HttpClientExec.newURL := fun _ => None;
              HttpClientExec.readFile := fun _ => None;
              HttpClientExec.request := fun _ => JS.Resolved tt |}
           ["--cacert"; "ca.pem"] "-v" ["https://hub/x"]
           eq_refl
           (Notions.Items_option Notions.httpKnownOption "--cacert" "ca.pem" []
              eq_refl (Notions.Items_nil Notions.httpKnownOption))
           eq_refl).
Defined.

(** An argument that starts with a dash and is no known option, given
    where the value of [-hubuser] is expected: the hub front end takes it as
    the user name, signs in, fetches and exits with 0. *)
Lemma unrecognized_flag_taken_as_value :
  let argv := ["cs_hub_client_exec"; "-hubuser"; "-x"; "hub:7340"; "/index.xml"] in
  let env := {| HubClientExec.newCSHubClient := fun _ => None;
                HubClientExec.signIn := JS.Resolved None;
                HubClientExec.fetch := fun _ => JS.Resolved tt |} in
  In "-x" (tl argv)
  /\ Notions.unrecognizedFlag Notions.hubKnownOption "-x" = true
  /\ HubClientExec.main argv env
     = [Cli.SignIn "hub:7340"
          {| Cli.cafile := None; Cli.hubuser := Some "-x";
             Cli.hubpwfile := None; Cli.hubkey := None |};
        Cli.Fetch "/index.xml"; Cli.PipeToStdout; Cli.OnExit 0%Z]
  /\ Cli.exitCode (HubClientExec.main argv env) = Some 0%Z.
Proof. repeat split; simpl; auto. Qed.

(* ===================================================================== *)
(** ** The download command: credentials and sign-in *)
(* ===================================================================== *)

Lemma truthy_Some (s : string) : JS.truthy (Some s) = true <-> s <> "".
Proof.
  simpl. destruct (String.eqb_spec s ""); simpl; split; congruence.
Qed.

Section DownloadFacts.
Import JS HubClient SarifDownload Notions.

Variable path_normalize : string -> string.
Variable path_isAbsolute : string -> bool.
Variable path_join : string -> string -> string.
Variable workspaceFolderPath : option string.
Variable newCSHubAddress : string -> CSHubAddress.

Abbreviation build :=
  (buildHubClientOptions path_normalize path_isAbsolute path_join
     workspaceFolderPath newCSHubAddress).
Abbreviation resolve :=
  (resolveFilePath path_normalize path_isAbsolute path_join workspaceFolderPath).
Abbreviation storageKey := (passwordStorageKeyOf newCSHubAddress).
Abbreviation addressObject := (hubAddressObjectOf newCSHubAddress).

(** The certificate branch. *)
Lemma build_certificate (v : HubVariables) (w : World) (cert : string) :
  hubUserCertFilePath v = Some cert -> cert <> "" ->
  hubcert (fst (build v w)) = Some (resolve cert)
  /\ hubkey (fst (build v w))
     = Some (resolve (certKeyFilePath cert (hubUserCertKeyFilePath v)))
  /\ hubpwfile (fst (build v w)) = None
  /\ hubpasswd (fst (build v w)) = None
  /\ snd (build v w) = w.
Proof.
  intros Hcert Hne. apply truthy_Some in Hne.
  unfold buildHubClientOptions. rewrite Hcert, Hne.
  destruct (truthy (hubCAFilePath v)), (truthy (hubUserName v)); now simpl.
Qed.

(** The password file branch. *)
Lemma build_password_file (v : HubVariables) (w : World) :
  truthy (hubUserCertFilePath v) = false ->
  truthy (hubUserPasswordFilePath v) = true ->
  hubcert (fst (build v w)) = None
  /\ hubkey (fst (build v w)) = None
  /\ hubpwfile (fst (build v w)) = option_map resolve (hubUserPasswordFilePath v)
  /\ hubpasswd (fst (build v w)) = None
  /\ snd (build v w)
     = match storageKey v with Some key => secretDelete key w | None => w end.
Proof.
  intros Hcert Hpw. unfold buildHubClientOptions. rewrite Hcert, Hpw.
  destruct (truthy (hubCAFilePath v)), (truthy (hubUserName v)),
    (storageKey v); now simpl.
Qed.

(** The storage key starts with a fixed text, so it is never empty. *)
Lemma storageKey_truthy (v : HubVariables) (key : string) :
  storageKey v = Some key -> truthy (Some key) = true.
Proof.
  unfold passwordStorageKeyOf.
  destruct (addressObject v); [|discriminate].
  destruct (hubUserName v) as [u|]; [|discriminate].
  destruct (String.eqb u ""); [discriminate|]. now intros [= <-].
Qed.

Lemma storageKey_Some (v : HubVariables) :
  truthy (hubAddressString v) = true -> truthy (hubUserName v) = true ->
  exists a u,
    hubAddressString v = Some a /\ hubUserName v = Some u
    /\ addressObject v = Some (newCSHubAddress a)
    /\ storageKey v
       = Some ("codesonar:hubpasswd::" ++ formatUserHubAddress (newCSHubAddress a) u).
Proof.
  unfold passwordStorageKeyOf, hubAddressObjectOf.
  destruct (hubAddressString v) as [a|]; [|discriminate].
  destruct (hubUserName v) as [u|]; [|discriminate]. simpl.
  intros Ha Hu. exists a, u.
  destruct (String.eqb a ""); [discriminate|].
  destruct (String.eqb u ""); [discriminate|]. auto.
Qed.

Lemma storageKey_needs (v : HubVariables) (key : string) :
  storageKey v = Some key ->
  truthy (hubAddressString v) = true /\ truthy (hubUserName v) = true
  /\ addressObject v <> None.
Proof.
  unfold passwordStorageKeyOf, hubAddressObjectOf.
  destruct (hubAddressString v) as [a|]; [|discriminate].
  destruct (hubUserName v) as [u|]; simpl.
  - destruct (String.eqb a ""); [discriminate|].
    destruct (String.eqb u ""); [discriminate|]. now intros _.
  - destruct (String.eqb a ""); discriminate.
Qed.

(** The last branch: the interactive provider, or nothing. *)
Lemma build_interactive (v : HubVariables) (w : World) :
  truthy (hubUserCertFilePath v) = false ->
  truthy (hubUserPasswordFilePath v) = false ->
  hubcert (fst (build v w)) = None
  /\ hubkey (fst (build v w)) = None
  /\ hubpwfile (fst (build v w)) = None
  /\ snd (build v w) = w
  /\ (truthy (hubAddressString v) = true -> truthy (hubUserName v) = true ->
      exists a u key,
        hubAddressString v = Some a /\ hubUserName v = Some u
        /\ storageKey v = Some key
        /\ hubpasswd (fst (build v w))
           = Some {| passwordStorageKeyString := key; username := u; address := a |})
  /\ (truthy (hubAddressString v) && truthy (hubUserName v) = false ->
      hubpasswd (fst (build v w)) = None).
Proof.
  intros Hcert Hpw. unfold buildHubClientOptions. rewrite Hcert, Hpw.
  destruct (truthy (hubAddressString v)) eqn:Ha, (truthy (hubUserName v)) eqn:Hu.
  - destruct (storageKey_Some v Ha Hu) as (a & u & Eqa & Equ & _ & Hkey).
    rewrite Eqa, Equ, Hkey in *.
    destruct (truthy (hubCAFilePath v)); simpl;
      repeat split; try discriminate; intros _ _; eauto 10.
  - destruct (truthy (hubCAFilePath v)), (hubAddressString v), (hubUserName v),
      (storageKey v); simpl; repeat split; try discriminate; try reflexivity.
  - destruct (storageKey v) as [key|] eqn:Hk.
    { apply storageKey_needs in Hk. destruct Hk as (? & ? & _). congruence. }
    destruct (truthy (hubCAFilePath v)), (hubAddressString v), (hubUserName v);
      simpl; repeat split; try discriminate; try reflexivity.
  - destruct (truthy (hubCAFilePath v)), (hubAddressString v), (hubUserName v),
      (storageKey v); simpl; repeat split; try discriminate; try reflexivity.
Qed.

End DownloadFacts.

Section KeyPath.
Import JS SarifDownload.

Lemma certKeyFilePath_cert (p : string) :
  certKeyFilePath (p ++ ".cert") None = p ++ ".key".
Proof.
  unfold certKeyFilePath, defaultKeyFileName. cbv zeta.
  now rewrite endsWith_app, strip_suffix.
Qed.

Lemma certKeyFilePath_cert_pem (p : string) :
  certKeyFilePath (p ++ ".cert.pem") None = p ++ ".key.pem".
Proof.
  unfold certKeyFilePath, defaultKeyFileName. cbv zeta.
  rewrite cert_pem_not_cert.
  change (".cert" ++ ".pem") with ".cert.pem".
  change (".key" ++ ".pem") with ".key.pem".
  now rewrite endsWith_app, strip_suffix.
Qed.

Lemma certKeyFilePath_other (cert : string) :
  endsWith cert ".cert" = false -> endsWith cert ".cert.pem" = false ->
  certKeyFilePath cert None = cert ++ ".key".
Proof.
  intros H1 H2. unfold certKeyFilePath, defaultKeyFileName. cbv zeta.
  rewrite H1. change (".cert" ++ ".pem") with ".cert.pem". now rewrite H2.
Qed.

End KeyPath.

Section DownloadProperties.
Import JS HubClient SarifDownload Notions.

Variable path_normalize : string -> string.
Variable path_isAbsolute : string -> bool.
Variable path_join : string -> string -> string.
Variable workspaceFolderPath : option string.
Variable newCSHubAddress : string -> CSHubAddress.

Abbreviation build :=
  (buildHubClientOptions path_normalize path_isAbsolute path_join
     workspaceFolderPath newCSHubAddress).
Abbreviation resolve :=
  (resolveFilePath path_normalize path_isAbsolute path_join workspaceFolderPath).
Abbreviation storageKey := (passwordStorageKeyOf newCSHubAddress).
Abbreviation addressObject := (hubAddressObjectOf newCSHubAddress).

(** Without a certificate path the options carry neither certificate nor
    key. *)
Lemma build_no_certificate (v : HubVariables) (w : World) :
  truthy (hubUserCertFilePath v) = false ->
  hubcert (fst (build v w)) = None /\ hubkey (fst (build v w)) = None.
Proof.
  intros Hcert. destruct (truthy (hubUserPasswordFilePath v)) eqn:Hpw.
  - destruct (build_password_file path_normalize path_isAbsolute path_join
                workspaceFolderPath newCSHubAddress v w Hcert Hpw) as (? & ? & _).
    now split.
  - destruct (build_interactive path_normalize path_isAbsolute path_join
                workspaceFolderPath newCSHubAddress v w Hcert Hpw) as (? & ? & _).
    now split.
Qed.

(** C5, as amended.  In the download command, for every non-empty
    certificate path with no key path set, the key path handed to the client
    is the resolved form of: the path with [.cert] replaced by [.key] when it
    ends in [.cert]; the path with [.cert.pem] replaced by [.key.pem] when it
    ends in [.cert.pem]; the path with [.key] appended otherwise.  The
    derivation goes one way only: when no certificate path is set, a key
    path alone gives options with neither certificate nor key.  The hub
    front end derives nothing: given only one of the two paths it uses that
    path for both the certificate and the key. *)
Theorem key_path_derived_from_certificate_path (v : HubVariables) (w : World) :
  (forall cert,
      hubUserCertFilePath v = Some cert -> cert <> "" ->
      hubUserCertKeyFilePath v = None ->
      hubcert (fst (build v w)) = Some (resolve cert)
      /\ (forall p, cert = p ++ ".cert" ->
                    hubkey (fst (build v w)) = Some (resolve (p ++ ".key")))
      /\ (forall p, cert = p ++ ".cert.pem" ->
                    hubkey (fst (build v w)) = Some (resolve (p ++ ".key.pem")))
      /\ (endsWith cert ".cert" = false -> endsWith cert ".cert.pem" = false ->
          hubkey (fst (build v w)) = Some (resolve (cert ++ ".key"))))
  /\ (truthy (hubUserCertFilePath v) = false ->
      hubcert (fst (build v w)) = None /\ hubkey (fst (build v w)) = None)
  /\ (forall st path,
      (HubClientExec.userCertFilePath st = Some path
       /\ HubClientExec.userKeyFilePath st = None)
      \/ (HubClientExec.userKeyFilePath st = Some path
          /\ HubClientExec.userCertFilePath st = None) ->
      path <> "" ->
      Cli.hubkey (HubClientExec.hubOptionsOf st)
      = Some {| Cli.certFilePath := path; Cli.keyFilePath := path |}).
Proof.
  repeat apply conj.
  - intros cert Hcert Hne Hkey.
    destruct (build_certificate path_normalize path_isAbsolute path_join
                workspaceFolderPath newCSHubAddress v w cert Hcert Hne)
      as (Hc & Hk & _).
    rewrite Hkey in Hk. rewrite Hc, Hk. repeat apply conj.
    + reflexivity.
    + intros p ->. now rewrite certKeyFilePath_cert.
    + intros p ->. now rewrite certKeyFilePath_cert_pem.
    + intros H1 H2. now rewrite certKeyFilePath_other.
  - apply build_no_certificate.
  - intros st path H Hne. apply truthy_Some in Hne.
    unfold HubClientExec.hubOptionsOf. simpl.
    destruct H as [[-> ->]|[-> ->]]; rewrite Hne; simpl;
      rewrite ?orb_true_r; reflexivity.
Qed.

(** The three branches of the credential [if / else if / else if], by what
    each leaves in the options. *)
Lemma build_cases (v : HubVariables) (w : World) :
  (truthy (hubUserCertFilePath v) = true
   /\ (exists c, hubcert (fst (build v w)) = Some c)
   /\ hubpwfile (fst (build v w)) = None
   /\ hubpasswd (fst (build v w)) = None)
  \/ (truthy (hubUserCertFilePath v) = false
      /\ truthy (hubUserPasswordFilePath v) = true
      /\ hubcert (fst (build v w)) = None
      /\ (exists f, hubpwfile (fst (build v w)) = Some f)
      /\ hubpasswd (fst (build v w)) = None)
  \/ (truthy (hubUserCertFilePath v) = false
      /\ truthy (hubUserPasswordFilePath v) = false
      /\ hubcert (fst (build v w)) = None
      /\ hubpwfile (fst (build v w)) = None
      /\ ((truthy (hubAddressString v) = true /\ truthy (hubUserName v) = true
           /\ exists p, hubpasswd (fst (build v w)) = Some p)
          \/ (truthy (hubAddressString v) && truthy (hubUserName v) = false
              /\ hubpasswd (fst (build v w)) = None))).
Proof.
  destruct (truthy (hubUserCertFilePath v)) eqn:Hcert.
  - left. destruct (hubUserCertFilePath v) as [cert|] eqn:Ec; [|discriminate].
    apply truthy_Some in Hcert.
    destruct (build_certificate path_normalize path_isAbsolute path_join
                workspaceFolderPath newCSHubAddress v w cert Ec Hcert)
      as (Hc & _ & Hp & Hi & _).
    eauto 10.
  - right. destruct (truthy (hubUserPasswordFilePath v)) eqn:Hpw.
    + left.
      destruct (build_password_file path_normalize path_isAbsolute path_join
                  workspaceFolderPath newCSHubAddress v w Hcert Hpw)
        as (Hc & _ & Hp & Hi & _).
      destruct (hubUserPasswordFilePath v) as [f|]; [|discriminate].
      simpl in Hp. eauto 10.
    + right.
      destruct (build_interactive path_normalize path_isAbsolute path_join
                  workspaceFolderPath newCSHubAddress v w Hcert Hpw)
        as (Hc & _ & Hp & _ & Hyes & Hno).
      repeat (split; [assumption || reflexivity|]).
      destruct (truthy (hubAddressString v)) eqn:Ha,
               (truthy (hubUserName v)) eqn:Hu;
        try (right; split; [reflexivity | now apply Hno]).
      left. destruct (Hyes eq_refl eq_refl) as (a & u & key & _ & _ & _ & Hi).
      eauto 10.
Qed.

(** The precedence of the three credential schemes in the options that
    [buildHubClientOptions] returns. *)
Lemma build_precedence (v : HubVariables) (w : World) :
  honoredSchemes (fst (build v w)) <= 1
  /\ (truthy (hubUserCertFilePath v) = true ->
      hubcert (fst (build v w)) <> None
      /\ hubpwfile (fst (build v w)) = None
      /\ hubpasswd (fst (build v w)) = None)
  /\ (truthy (hubUserCertFilePath v) = false ->
      truthy (hubUserPasswordFilePath v) = true ->
      hubcert (fst (build v w)) = None
      /\ hubpwfile (fst (build v w)) <> None
      /\ hubpasswd (fst (build v w)) = None)
  /\ (hubpasswd (fst (build v w)) <> None <->
      truthy (hubUserCertFilePath v) = false
      /\ truthy (hubUserPasswordFilePath v) = false
      /\ truthy (hubAddressString v) = true
      /\ truthy (hubUserName v) = true)
  /\ (honoredSchemes (fst (build v w)) = 1 <->
      truthy (hubUserCertFilePath v) = true
      \/ truthy (hubUserPasswordFilePath v) = true
      \/ (truthy (hubAddressString v) = true /\ truthy (hubUserName v) = true)).
Proof.
  unfold honoredSchemes.
  destruct (build_cases v w)
    as [(Hcert & [c Hc] & Hp & Hi)
       |[(Hcert & Hpw & Hc & [f Hp] & Hi)
        |(Hcert & Hpw & Hc & Hp & [(Ha & Hu & [p Hi])|(Hau & Hi)])]];
    rewrite Hc, Hp, Hi, Hcert; try rewrite Hpw; simpl.
  - intuition (try lia; congruence).
  - intuition (try lia; congruence).
  - rewrite Ha, Hu. intuition (try lia; congruence).
  - destruct (truthy (hubAddressString v)), (truthy (hubUserName v));
      simpl in Hau; intuition (try lia; congruence).
Qed.

(** The address object exists exactly when the hub address is truthy. *)
Lemma addressObject_None (v : HubVariables) :
  addressObject v = None <-> truthy (hubAddressString v) = false.
Proof.
  unfold hubAddressObjectOf, truthy.
  destruct (hubAddressString v) as [s|]; [|tauto].
  destruct (String.eqb s ""); simpl; split; congruence.
Qed.

(** C1, as amended.  For every configuration of the download command at
    most one credential scheme is set in the connection options that the
    command builds for the hub client, chosen by the precedence client
    certificate, password file, interactive password: with a certificate
    path configured neither the password file nor the interactive provider
    is set; with no certificate but a password file path configured the
    interactive provider is not installed; the interactive provider is
    installed exactly when neither of the two is configured and a hub
    address and a user name are present.  Exactly one scheme is set when a
    certificate path, a password file path, or both a hub address and a user
    name are configured, and none is set otherwise.  A hub client is made
    only when a hub address is present: without one the command makes no
    client and attempts no sign-in, and a client that is made holds exactly
    these options. *)
Theorem credential_scheme_precedence (v : HubVariables) (w : World) :
  honoredSchemes (fst (build v w)) <= 1
  /\ (truthy (hubUserCertFilePath v) = true ->
      hubcert (fst (build v w)) <> None
      /\ hubpwfile (fst (build v w)) = None
      /\ hubpasswd (fst (build v w)) = None)
  /\ (truthy (hubUserCertFilePath v) = false ->
      truthy (hubUserPasswordFilePath v) = true ->
      hubcert (fst (build v w)) = None
      /\ hubpwfile (fst (build v w)) <> None
      /\ hubpasswd (fst (build v w)) = None)
  /\ (hubpasswd (fst (build v w)) <> None <->
      truthy (hubUserCertFilePath v) = false
      /\ truthy (hubUserPasswordFilePath v) = false
      /\ truthy (hubAddressString v) = true
      /\ truthy (hubUserName v) = true)
  /\ (honoredSchemes (fst (build v w)) = 1 <->
      truthy (hubUserCertFilePath v) = true
      \/ truthy (hubUserPasswordFilePath v) = true
      \/ (truthy (hubAddressString v) = true /\ truthy (hubUserName v) = true))
  /\ (honoredSchemes (fst (build v w)) = 0 <->
      truthy (hubUserCertFilePath v) = false
      /\ truthy (hubUserPasswordFilePath v) = false
      /\ (truthy (hubAddressString v) = false \/ truthy (hubUserName v) = false))
  /\ (truthy (hubAddressString v) = false ->
      forall env,
        signInToHub newCSHubAddress v (fst (build v w)) env (snd (build v w))
        = (Resolved None, snd (build v w)))
  /\ (forall env client,
        fst (signInToHub newCSHubAddress v (fst (build v w)) env (snd (build v w)))
        = Resolved (Some client) ->
        truthy (hubAddressString v) = true
        /\ clientOptions client = fst (build v w)).
Proof.
  destruct (build_precedence v w) as (Hle & Hcert & Hpw & Hprov & Hone).
  repeat apply conj; try assumption.
  - apply Hprov.
  - apply Hprov.
  - apply Hone.
  - apply Hone.
  - intros H0.
    destruct (truthy (hubUserCertFilePath v)) eqn:Ec;
      [assert (honoredSchemes (fst (build v w)) = 1)
         by (apply Hone; tauto); lia|].
    destruct (truthy (hubUserPasswordFilePath v)) eqn:Ep;
      [assert (honoredSchemes (fst (build v w)) = 1)
         by (apply Hone; tauto); lia|].
    destruct (truthy (hubAddressString v)) eqn:Ea; [|tauto].
    destruct (truthy (hubUserName v)) eqn:Eu; [|tauto].
    assert (honoredSchemes (fst (build v w)) = 1) by (apply Hone; tauto). lia.
  - intros (Ec & Ep & Eau).
    destruct (Nat.eq_dec (honoredSchemes (fst (build v w))) 1) as [E|E];
      [|lia].
    apply Hone in E. destruct E as [E|[E|[E1 E2]]]; try congruence.
    destruct Eau; congruence.
  - intros Ha env. apply addressObject_None in Ha.
    unfold signInToHub. now rewrite Ha.
  - intros env client. unfold signInToHub.
    destruct (addressObject v) as [a|] eqn:Ea; [|discriminate].
    destruct (truthy (hubAddressString v)) eqn:Et;
      [|apply addressObject_None in Et; congruence].
    destruct (signIn (fst (build v w)) env (snd (build v w))) as [r w'].
    destruct r as [[|]|e]; simpl; try discriminate.
    intros [= <-]. split; reflexivity.
Qed.

(** The input boxes for the hub address and the hub user are no part of
    credential resolution and leave the secret storage alone. *)
Lemma askHubAddress_world (v : HubVariables) (env : Env) (w : World) :
  secrets (snd (askHubAddress v env w)) = secrets w
  /\ List.filter isCredentialResolution (trace (snd (askHubAddress v env w)))
     = List.filter isCredentialResolution (trace w).
Proof.
  unfold askHubAddress.
  destruct (negb (truthy (hubAddressString v))); [|now split].
  destruct (truthy (answerHubAddress env) && negb (truthy (hubUserName v)));
    simpl; rewrite ?List.filter_app; simpl; now rewrite ?app_nil_r.
Qed.

(** Options that carry the interactive provider were built by the last
    branch, which touches nothing. *)
Lemma build_provider (v : HubVariables) (w : World) (p : PasswordProvider) :
  hubpasswd (fst (build v w)) = Some p ->
  snd (build v w) = w
  /\ hubcert (fst (build v w)) = None
  /\ hubpwfile (fst (build v w)) = None
  /\ storageKey v = Some (passwordStorageKeyString p)
  /\ exists a, addressObject v = Some a.
Proof.
  intros Hp.
  destruct (build_cases v w)
    as [(_ & _ & _ & Hi)|[(_ & _ & _ & _ & Hi)|(Hcert & Hpw & _)]];
    try congruence.
  destruct (build_interactive path_normalize path_isAbsolute path_join
              workspaceFolderPath newCSHubAddress v w Hcert Hpw)
    as (Hc & _ & Hf & Hw & Hyes & Hno).
  destruct (truthy (hubAddressString v)) eqn:Ha, (truthy (hubUserName v)) eqn:Hu;
    try (rewrite Hno in Hp by reflexivity; discriminate).
  destruct (Hyes eq_refl eq_refl) as (a & u & key & _ & _ & Hkey & Hi).
  rewrite Hi in Hp. injection Hp as <-. simpl.
  destruct (storageKey_Some newCSHubAddress v Ha Hu) as (a' & _ & _ & _ & Ho & _).
  eauto 10.
Qed.

(** A call of the provider that ends rejected: the storage held no
    password, the box was shown, nothing was stored. *)
Lemma provider_rejected (p : PasswordProvider) (env : Env) (w : World) (e : Value) :
  fst (callPasswordProvider p env w) = Rejected e ->
  exists prompt,
    callPasswordProvider p env w
    = (Rejected e,
       emit (ShowInputBox prompt true) (emit (SecretGet (passwordStorageKeyString p)) w))
    /\ secrets w !! passwordStorageKeyString p = None
    /\ (answerPassword env = Resolved None ->
        e = Error "User cancelled password input.").
Proof.
  unfold callPasswordProvider, secretGet.
  destruct (secrets w !! passwordStorageKeyString p); [discriminate|].
  destruct (answerPassword env) as [[inputValue|]|e']; simpl;
    [discriminate| |]; intros [= <-]; eexists; repeat split; congruence.
Qed.

(** The first thing a call of the provider does is query the storage; with
    no saved password it then shows the password box. *)
Lemma provider_call_trace (p : PasswordProvider) (env : Env) (w : World) :
  exists rest,
    trace (snd (callPasswordProvider p env w))
    = (trace w ++ SecretGet (passwordStorageKeyString p) :: rest)%list
    /\ (secrets w !! passwordStorageKeyString p = None ->
        exists prompt rest', rest = ShowInputBox prompt true :: rest').
Proof.
  unfold callPasswordProvider, secretGet.
  destruct (secrets w !! passwordStorageKeyString p).
  - eexists. simpl. rewrite <- app_assoc. simpl. split; [reflexivity|discriminate].
  - destruct (answerPassword env) as [[inputValue|]|e']; simpl;
      rewrite <- ?app_assoc; simpl; eexists; (split; [reflexivity|]);
      intros _; eauto.
Qed.

(** C4.  Configuring the session with the interactive password provider
    resolves no credential: building the options that carry the provider
    leaves the world as it was (no event at all, the secret storage
    untouched), and from the start of the command up to the sign-in nothing
    of credential resolution happens: no query of the secret storage and no
    password prompt (the only boxes shown before are those for the hub
    address and the hub user, when the settings name no hub).  Resolution
    happens when the sign-in calls the provider: the call starts with the
    query of the storage, and shows the password box when no password is
    saved. *)
Theorem interactive_password_resolved_lazily
    (hub : option HubSetting) (env : Env) (w : World) (provider : PasswordProvider) :
  let v := fst (askHubAddress (readHubSetting hub) env w) in
  let w1 := snd (askHubAddress (readHubSetting hub) env w) in
  hubpasswd (fst (build v w1)) = Some provider ->
  snd (build v w1) = w1
  /\ secrets (snd (build v w1)) = secrets w
  /\ List.filter isCredentialResolution (trace (snd (build v w1)))
     = List.filter isCredentialResolution (trace w)
  /\ (forall env' w2, exists rest,
        trace (snd (callPasswordProvider provider env' w2))
        = (trace w2 ++ SecretGet (passwordStorageKeyString provider) :: rest)%list
        /\ (secrets w2 !! passwordStorageKeyString provider = None ->
            exists prompt rest', rest = ShowInputBox prompt true :: rest')).
Proof.
  intros v w1 Hp.
  destruct (build_provider v w1 provider Hp) as (Hw & _).
  destruct (askHubAddress_world (readHubSetting hub) env w) as (Hs & Ht).
  rewrite Hw. repeat apply conj; try assumption; try reflexivity.
  intros env' w2. apply provider_call_trace.
Qed.

(** C3.  When the interactive provider's promise is rejected, as it is when
    the user dismisses the password box, the sign-in fails with that error;
    the command fails with it, under the header of its sign-in block; no
    credential is written to the secret storage by the attempt, and the
    storage holds nothing under the password key afterwards. *)
Theorem cancelled_password_prompt_stores_nothing
    (v : HubVariables) (env : Env) (w : World)
    (provider : PasswordProvider) (e : Value) :
  hubpasswd (fst (build v w)) = Some provider ->
  fst (callPasswordProvider provider env (snd (build v w))) = Rejected e ->
  let attempt := signInToHub newCSHubAddress v (fst (build v w)) env (snd (build v w)) in
  fst (signIn (fst (build v w)) env (snd (build v w))) = Rejected e
  /\ fst attempt = Rejected (signInError e)
  /\ List.filter isSecretStore (trace (snd attempt))
     = List.filter isSecretStore (trace w)
  /\ secrets (snd attempt) !! passwordStorageKeyString provider = None
  /\ (answerPassword env = Resolved None ->
      e = Error "User cancelled password input."
      /\ signInError e
         = Error "CodeSonar hub sign-in error: User cancelled password input.").
Proof.
  intros Hp Hrej attempt. subst attempt.
  destruct (build_provider v w provider Hp) as (Hw & Hc & Hf & Hkey & [a Ha]).
  rewrite Hw in *.
  destruct (provider_rejected provider env w e Hrej) as (prompt & Hcall & Hnone & Hcancel).
  assert (Hsign : signIn (fst (build v w)) env w
                  = (Rejected e,
                     emit (ShowInputBox prompt true)
                       (emit (SecretGet (passwordStorageKeyString provider)) w))).
  { unfold signIn, resolveCredential. now rewrite Hc, Hf, Hp, Hcall. }
  unfold signInToHub. rewrite Ha, Hsign, Hkey. simpl.
  repeat apply conj.
  - reflexivity.
  - reflexivity.
  - rewrite !List.filter_app. simpl. now rewrite !app_nil_r.
  - apply lookup_delete_eq.
  - intros Hanswer. specialize (Hcancel Hanswer). subst e. now split.
Qed.

(** C2.  The sign-in of the hub client, as the download command relies on
    it: once a credential is resolved, a hub that declines it (403
    Forbidden) makes [signIn()] complete normally with the rejection, the
    value [false]; a hub that cannot be reached makes it raise.  The caller
    tells the two apart by how the promise settles: the download command
    turns the first into the error Access forbidden and passes the second on
    with its own message, and both completions differ. *)
Theorem signIn_rejection_is_not_an_exception
    (options : CSHubClientConnectionOptions) (env : Env) (w w1 : World)
    (credential : Credential) :
  resolveCredential options env w = (Resolved credential, w1) ->
  (hubReply env = Forbidden ->
   signIn options env w = (Resolved false, emit SignInRequest w1))
  /\ (forall e, hubReply env = Unreachable e ->
      signIn options env w = (Rejected e, emit SignInRequest w1))
  /\ (hubReply env = SignedIn ->
      signIn options env w = (Resolved true, emit SignInRequest w1))
  /\ (forall e, @Resolved bool false <> Rejected e)
  /\ (forall v a, addressObject v = Some a ->
      (hubReply env = Forbidden ->
       fst (signInToHub newCSHubAddress v options env w)
       = Rejected (Error "CodeSonar hub sign-in error: Access forbidden"))
      /\ (forall e, hubReply env = Unreachable e ->
          fst (signInToHub newCSHubAddress v options env w)
          = Rejected (signInError e))
      /\ (hubReply env = SignedIn ->
          fst (signInToHub newCSHubAddress v options env w)
          = Resolved (Some {| clientAddress := a; clientOptions := options |})))
  /\ (forall argv cli,
      truthy (HubClientExec.errorMessage
                (HubClientExec.checkArgs
                   (HubClientExec.parseArgs HubClientExec.noArgs (tl argv)))) = false ->
      (forall a, HubClientExec.newCSHubClient cli a = None) ->
      (forall message,
          HubClientExec.signIn cli = Resolved (Some message) -> message <> "" ->
          exists call,
            HubClientExec.main argv cli
            = [call;
               Cli.StderrWrite (("Hub sign-in rejected: " ++ message) ++ Cli.endl);
               Cli.OnExit 1%Z])
      /\ (forall e text,
          HubClientExec.signIn cli = Rejected e -> toString e = Some text ->
          exists call,
            HubClientExec.main argv cli
            = [call; Cli.StderrWrite (text ++ Cli.endl); Cli.OnExit 1%Z])).
Proof.
  intros Hcred.
  assert (Hf : hubReply env = Forbidden ->
               signIn options env w = (Resolved false, emit SignInRequest w1))
    by (intros H; unfold signIn; now rewrite Hcred, H).
  assert (Hu : forall e, hubReply env = Unreachable e ->
               signIn options env w = (Rejected e, emit SignInRequest w1))
    by (intros e H; unfold signIn; now rewrite Hcred, H).
  assert (Hs : hubReply env = SignedIn ->
               signIn options env w = (Resolved true, emit SignInRequest w1))
    by (intros H; unfold signIn; now rewrite Hcred, H).
  repeat apply conj; try assumption; try discriminate.
  - intros v a Ha. repeat apply conj.
    + intros H. unfold signInToHub. rewrite Ha, (Hf H).
      destruct (storageKey v); reflexivity.
    + intros e H. unfold signInToHub. rewrite Ha, (Hu e H).
      destruct (storageKey v); reflexivity.
    + intros H. unfold signInToHub. rewrite Ha, (Hs H).
      destruct (storageKey v); reflexivity.
  - intros argv cli Hargs Hnew.
    destruct (hub_main_runtime argv cli Hargs) as (a & path & _ & _ & H).
    destruct (H (Hnew a)) as (Hrej & Hmsg & _).
    split; intros; eexists; eauto.
Qed.

End DownloadProperties.

(* ===================================================================== *)
(** ** The properties on sample settings *)
(* ===================================================================== *)

(** A certificate path [foo.cert] with no key path: the key path is
    [foo.key]. *)
Lemma key_path_derived_from_certificate_path_witness :
  HubClient.hubkey
    (fst (SarifDownload.buildHubClientOptions Samples.normalize Samples.isAbsolute
            Samples.joinPaths None Samples.parseAddress
            Samples.certificateAndPasswordFile Samples.emptyWorld))
  = Some (SarifDownload.resolveFilePath Samples.normalize Samples.isAbsolute
            Samples.joinPaths None "foo.key").
Proof.
  pose proof (key_path_derived_from_certificate_path Samples.normalize
                Samples.isAbsolute Samples.joinPaths None Samples.parseAddress
                Samples.certificateAndPasswordFile Samples.emptyWorld) as [H _].
  destruct (H "foo.cert" eq_refl ltac:(discriminate) eq_refl) as (_ & Hk & _).
  exact (Hk "foo" eq_refl).
Defined.

(** A key path with no certificate path: nothing is derived from it, and
    the options carry neither a certificate nor a key. *)
Lemma key_path_alone_derives_no_certificate :
  SarifDownload.hubUserCertKeyFilePath Samples.keyOnly = Some "client.key"
  /\ SarifDownload.hubUserCertFilePath Samples.keyOnly = None
  /\ HubClient.hubcert
       (fst (SarifDownload.buildHubClientOptions Samples.normalize Samples.isAbsolute
               Samples.joinPaths None Samples.parseAddress
               Samples.keyOnly Samples.emptyWorld)) = None
  /\ HubClient.hubkey
       (fst (SarifDownload.buildHubClientOptions Samples.normalize Samples.isAbsolute
               Samples.joinPaths None Samples.parseAddress
               Samples.keyOnly Samples.emptyWorld)) = None.
Proof. repeat split. Qed.

(** A certificate path and a password file both configured: the password
    file is not set in the options, nor is the interactive provider. *)
Lemma credential_scheme_precedence_witness :
  HubClient.hubcert
    (fst (SarifDownload.buildHubClientOptions Samples.normalize Samples.isAbsolute
            Samples.joinPaths None Samples.parseAddress
            Samples.certificateAndPasswordFile Samples.emptyWorld)) <> None
  /\ HubClient.hubpwfile
       (fst (SarifDownload.buildHubClientOptions Samples.normalize Samples.isAbsolute
               Samples.joinPaths None Samples.parseAddress
               Samples.certificateAndPasswordFile Samples.emptyWorld)) = None
  /\ HubClient.hubpasswd
       (fst (SarifDownload.buildHubClientOptions Samples.normalize Samples.isAbsolute
               Samples.joinPaths None Samples.parseAddress
               Samples.certificateAndPasswordFile Samples.emptyWorld)) = None.
Proof.
  exact (proj1 (proj2 (credential_scheme_precedence Samples.normalize
                         Samples.isAbsolute Samples.joinPaths None
                         Samples.parseAddress Samples.certificateAndPasswordFile
                         Samples.emptyWorld)) eq_refl).
Defined.

(** Settings that name a hub address and nothing else: no credential scheme
    is set in the options, and with the hub address present the command
    issues the sign-in request all the same. *)
Lemma no_scheme_without_user_name :
  Notions.honoredSchemes
    (fst (SarifDownload.buildHubClientOptions Samples.normalize Samples.isAbsolute
            Samples.joinPaths None Samples.parseAddress
            Samples.addressOnly Samples.emptyWorld)) = 0
  /\ SarifDownload.readHubSetting (Some (SarifDownload.HubString "localhost:7340"))
     = Samples.addressOnly
  /\ HubClient.trace
       (snd (SarifDownload.executeCodeSonarSarifDownload_signIn Samples.normalize
               Samples.isAbsolute Samples.joinPaths None Samples.parseAddress
               (Some (SarifDownload.HubString "localhost:7340"))
               Samples.dismissingUser Samples.emptyWorld))
     = [HubClient.SignInRequest].
Proof. repeat split. Qed.

(** Settings with an address and a user name: the provider is installed and
    the world is as before. *)
Lemma interactive_password_resolved_lazily_witness :
  snd (SarifDownload.buildHubClientOptions Samples.normalize Samples.isAbsolute
         Samples.joinPaths None Samples.parseAddress
         (SarifDownload.readHubSetting
            (Some (SarifDownload.HubObject Samples.aliceAtHub)))
         Samples.emptyWorld)
  = Samples.emptyWorld.
Proof.
  exact (proj1 (interactive_password_resolved_lazily Samples.normalize
                  Samples.isAbsolute Samples.joinPaths None Samples.parseAddress
                  (Some (SarifDownload.HubObject Samples.aliceAtHub))
                  Samples.dismissingUser Samples.emptyWorld Samples.aliceProvider
                  eq_refl)).
Defined.

(** The same settings with a user who dismisses the password box. *)
Lemma cancelled_password_prompt_stores_nothing_witness :
  fst (SarifDownload.signInToHub Samples.parseAddress
         (SarifDownload.readHubSetting
            (Some (SarifDownload.HubObject Samples.aliceAtHub)))
         (fst (SarifDownload.buildHubClientOptions Samples.normalize
                 Samples.isAbsolute Samples.joinPaths None Samples.parseAddress
                 (SarifDownload.readHubSetting
                    (Some (SarifDownload.HubObject Samples.aliceAtHub)))
                 Samples.emptyWorld))
         Samples.dismissingUser
         (snd (SarifDownload.buildHubClientOptions Samples.normalize
                 Samples.isAbsolute Samples.joinPaths None Samples.parseAddress
                 (SarifDownload.readHubSetting
                    (Some (SarifDownload.HubObject Samples.aliceAtHub)))
                 Samples.emptyWorld)))
  = JS.Rejected
      (SarifDownload.signInError (JS.Error "User cancelled password input.")).
Proof.
  exact (proj1 (proj2 (cancelled_password_prompt_stores_nothing Samples.normalize
                         Samples.isAbsolute Samples.joinPaths None
                         Samples.parseAddress
                         (SarifDownload.readHubSetting
                            (Some (SarifDownload.HubObject Samples.aliceAtHub)))
                         Samples.dismissingUser Samples.emptyWorld
                         Samples.aliceProvider
                         (JS.Error "User cancelled password input.")
                         eq_refl eq_refl))).
Defined.

(** A password file and a hub that declines: [signIn()] resolves with
    [false]. *)
Lemma signIn_rejection_is_not_an_exception_witness :
  SarifDownload.signIn
    {| HubClient.cafile := None; HubClient.hubuser := Some "alice";
       HubClient.hubpwfile := Some "pw.txt"; HubClient.hubcert := None;
       HubClient.hubkey := None; HubClient.hubpasswd := None |}
    Samples.decliningHub Samples.emptyWorld
  = (JS.Resolved false,
     HubClient.emit HubClient.SignInRequest
       (HubClient.emit (HubClient.ReadFile "pw.txt") Samples.emptyWorld)).
Proof.
  exact (proj1 (signIn_rejection_is_not_an_exception Samples.parseAddress
                  {| HubClient.cafile := None; HubClient.hubuser := Some "alice";
                     HubClient.hubpwfile := Some "pw.txt"; HubClient.hubcert := None;
                     HubClient.hubkey := None; HubClient.hubpasswd := None |}
                  Samples.decliningHub Samples.emptyWorld
                  (HubClient.emit (HubClient.ReadFile "pw.txt") Samples.emptyWorld)
                  (SarifDownload.Password "secret") eq_refl) eq_refl).
Defined.

(* ===================================================================== *)
(** ** The SARIF fetch of a download *)
(* ===================================================================== *)

(** C6.  A download starts exactly one fetch: with a baseline analysis the
    difference fetch on the analysis and the baseline identifiers, without
    one the fetch of the single analysis.  The request of the difference
    fetch is keyed by both identifiers and is never the request of the
    single-analysis fetch. *)
Theorem download_issues_one_fetch
    (analysisInfo : SarifDownload.CSAnalysisInfo)
    (baseAnalysisInfo : option SarifDownload.CSAnalysisInfo) (w : HubClient.World) :
  let fetched :=
    match baseAnalysisInfo with
    | Some base =>
        HubClient.FetchSarifAnalysisDifferenceStream
          (SarifDownload.id analysisInfo) (SarifDownload.id base)
    | None => HubClient.FetchSarifAnalysisStream (SarifDownload.id analysisInfo)
    end in
  HubClient.trace (SarifDownload.downloadSarifResults analysisInfo baseAnalysisInfo w)
  = (HubClient.trace w ++ [fetched])%list
  /\ HubClient.secrets
       (SarifDownload.downloadSarifResults analysisInfo baseAnalysisInfo w)
     = HubClient.secrets w
  /\ (forall a b,
        SarifDownload.requestOf (HubClient.FetchSarifAnalysisDifferenceStream a b)
        = Some {| SarifDownload.endpoint := SarifDownload.SarifDifference;
                  SarifDownload.identifiers := [a; b] |})
  /\ (forall a b c,
        SarifDownload.requestOf (HubClient.FetchSarifAnalysisDifferenceStream a b)
        <> SarifDownload.requestOf (HubClient.FetchSarifAnalysisStream c)).
Proof.
  unfold SarifDownload.downloadSarifResults.
  destruct baseAnalysisInfo as [base|]; simpl; repeat split; discriminate.
Qed.

(* ===================================================================== *)
(** ** readTextStream without a bound, and what a bound keeps *)
(* ===================================================================== *)

Section ReadTextStreamMore.
Import JS CommonUtils Measures.

Local Arguments String.append !s1 s2 /.

Variable decode : list Byte.byte -> string.

Lemma join_snoc' (cs : list Chunk) (c : Chunk) :
  join decode (cs ++ [c]) = join decode cs ++ chunkToString decode c.
Proof.
  induction cs as [|x cs IH]; simpl.
  - now rewrite str_app_nil_r.
  - now rewrite IH, str_app_assoc.
Qed.

Lemma join_app (cs ds : list Chunk) :
  join decode (cs ++ ds) = join decode cs ++ join decode ds.
Proof.
  induction cs as [|x cs IH]; simpl; [reflexivity|].
  now rewrite IH, str_app_assoc.
Qed.

(** Without a bound a 'data' event appends the chunk's text. *)
Lemma onData_unbounded_join (st : ReadState) (c : Chunk) :
  join decode (chunks (onData None st c))
  = join decode (chunks st) ++ chunkToString decode c.
Proof.
  unfold onData. destruct c as [s|b]; simpl.
  - destruct (String.eqb_spec s "") as [->|_]; simpl.
    + now rewrite str_app_nil_r.
    + apply join_snoc'.
  - apply join_snoc'.
Qed.

Lemma fold_onData_unbounded (l : list Chunk) (st : ReadState) :
  join decode (chunks (fold_left (onData None) l st))
  = join decode (chunks st) ++ join decode l.
Proof.
  revert st; induction l as [|c l IH]; intros st; simpl.
  - now rewrite str_app_nil_r.
  - now rewrite IH, onData_unbounded_join, str_app_assoc.
Qed.

(** X1.  Called without [maxLength], [readTextStream] on a readable stream
    that ends resolves with the text of every chunk, in order: nothing is
    cut and nothing is dropped. *)
Theorem readTextStream_unbounded_reads_everything (inIO : ReadableStream) :
  readable inIO = true -> ending inIO = EmitEnd ->
  readTextStream decode inIO None = Resolved (join decode (emitted inIO)).
Proof.
  intros Hr He. unfold readTextStream. rewrite Hr, He. simpl.
  now rewrite fold_onData_unbounded.
Qed.

(** The units counted in [outLength] are those of the chunks kept, and
    they are the smaller of the bound and of what has arrived. *)
Lemma onData_keeps_min (maxLength seen : nat) (st : ReadState) (c : Chunk) :
  totalLength (chunks st) = outLength st ->
  outLength st = Nat.min maxLength seen ->
  totalLength (chunks (onData (Some maxLength) st c))
  = outLength (onData (Some maxLength) st c)
  /\ outLength (onData (Some maxLength) st c)
     = Nat.min maxLength (seen + chunkLength c).
Proof.
  intros Hsum Hmin.
  assert (Hsnoc : forall cs x, totalLength (cs ++ [x]) = totalLength cs + chunkLength x).
  { induction cs as [|y cs IH]; intros x; simpl; [lia | rewrite IH; lia]. }
  unfold onData.
  destruct (maxLength <=? outLength st) eqn:Hfull.
  - apply Nat.leb_le in Hfull. split; [exact Hsum | lia].
  - apply Nat.leb_gt in Hfull.
    destruct (chunkLength c + outLength st <? maxLength) eqn:Hfits.
    + apply Nat.ltb_lt in Hfits.
      destruct (chunkTruthy c) eqn:Ht; simpl.
      * rewrite Hsnoc. split; lia.
      * destruct c as [s|b]; [|discriminate]. simpl in *.
        destruct (String.eqb_spec s "") as [->|]; [|discriminate].
        simpl. split; [exact Hsum | lia].
    + apply Nat.ltb_ge in Hfits.
      destruct c as [s|b]; simpl in *.
      * assert (Hk : String.length (substring0 (maxLength - outLength st) s)
                     = maxLength - outLength st)
          by (unfold substring0; rewrite substring0_length; lia).
        destruct (String.eqb_spec (substring0 (maxLength - outLength st) s) "")
          as [E|_]; simpl.
        -- rewrite E in Hk. simpl in Hk. lia.
        -- rewrite Hsnoc. simpl. rewrite Hk. split; lia.
      * rewrite Hsnoc. simpl. rewrite length_firstn. split; lia.
Qed.

(** X2.  With a bound, the chunks [readTextStream] has kept when the stream
    ends hold exactly the smaller of [maxLength] and of the units the stream
    delivered (code units of strings, bytes of Buffers): the text stops at
    the bound and is never cut short of it. *)
Theorem readTextStream_keeps_up_to_bound (inIO : ReadableStream) (maxLength : nat) :
  totalLength (chunks (afterData inIO (Some maxLength)))
  = Nat.min maxLength (totalLength (emitted inIO))
  /\ outLength (afterData inIO (Some maxLength))
     = Nat.min maxLength (totalLength (emitted inIO))
  /\ (readable inIO = true -> ending inIO = EmitEnd ->
      readTextStream decode inIO (Some maxLength)
      = Resolved (join decode (chunks (afterData inIO (Some maxLength))))).
Proof.
  unfold afterData.
  assert (H : forall l seen st,
             totalLength (chunks st) = outLength st ->
             outLength st = Nat.min maxLength seen ->
             totalLength (chunks (fold_left (onData (Some maxLength)) l st))
             = outLength (fold_left (onData (Some maxLength)) l st)
             /\ outLength (fold_left (onData (Some maxLength)) l st)
                = Nat.min maxLength (seen + totalLength l)).
  { induction l as [|c l IH]; intros seen st H1 H2; simpl.
    - rewrite Nat.add_0_r. now split.
    - destruct (onData_keeps_min maxLength seen st c H1 H2) as [H3 H4].
      destruct (IH (seen + chunkLength c) _ H3 H4) as [H5 H6].
      split; [exact H5|]. rewrite H6. f_equal. lia. }
  destruct (H (emitted inIO) 0 {| chunks := []; outLength := 0 |}) as [H1 H2];
    [reflexivity | simpl; lia |].
  simpl in H2. repeat split; try congruence.
  intros Hr He. unfold readTextStream. now rewrite Hr, He.
Qed.

End ReadTextStreamMore.

(* ===================================================================== *)
(** ** What replaceInvalidFileNameChars leaves alone *)
(* ===================================================================== *)

Section ReplaceFacts.
Import JS CommonUtils Measures.

Lemma invalidCharRegExp_alternatives :
  invalidCharRegExp
  = [[Lit "/"; Lit "?"; Star "%"; Lit ":"]; [Lit dquote; Lit "<"; Lit ">"]]%char.
Proof. reflexivity. Qed.

(** Each alternative needs a question mark or a less-than sign as its second
    character. *)
Lemma no_match_without_marks (l : list ascii) :
  existsb (Ascii.eqb "?") l = false ->
  existsb (Ascii.eqb "<") l = false ->
  matchAt invalidCharRegExp l = None.
Proof.
  rewrite invalidCharRegExp_alternatives. intros Hq Hl.
  destruct l as [|x [|y l]].
  - reflexivity.
  - cbn [matchAt matchAtoms].
    destruct (Ascii.eqb x "/"), (Ascii.eqb x dquote); reflexivity.
  - cbn [existsb] in Hq, Hl.
    apply orb_false_elim in Hq as [_ Hq]. apply orb_false_elim in Hq as [Hq _].
    apply orb_false_elim in Hl as [_ Hl]. apply orb_false_elim in Hl as [Hl _].
    assert (Hq' : Ascii.eqb y "?" = false) by (rewrite Ascii.eqb_sym; exact Hq).
    assert (Hl' : Ascii.eqb y "<" = false) by (rewrite Ascii.eqb_sym; exact Hl).
    cbn [matchAt matchAtoms]. rewrite Hq', Hl'.
    destruct (Ascii.eqb x "/"), (Ascii.eqb x dquote); reflexivity.
Qed.

Lemma replaceFrom_without_marks (replacement l : list ascii) :
  existsb (Ascii.eqb "?") l = false ->
  existsb (Ascii.eqb "<") l = false ->
  replaceFrom invalidCharRegExp replacement 0 l = l.
Proof.
  induction l as [|x l IH]; intros Hq Hl.
  - reflexivity.
  - cbn [replaceFrom]. rewrite (no_match_without_marks (x :: l) Hq Hl).
    cbn [existsb] in Hq, Hl.
    apply orb_false_elim in Hq as [_ Hq]. apply orb_false_elim in Hl as [_ Hl].
    now rewrite IH.
Qed.

(** X3.  A string with no question mark and no less-than sign comes back
    from [replaceInvalidFileNameChars] unchanged, whatever the replacement:
    slashes, backslashes, percent signs, stars, colons, bars, double quotes
    and greater-than signs in it all stay. *)
Theorem replaceInvalidFileNameChars_without_marks
    (s : string) (replacement : option string) :
  mentions "?" s = false -> mentions "<" s = false ->
  replaceInvalidFileNameChars s replacement = s.
Proof.
  unfold mentions, replaceInvalidFileNameChars, replace. intros Hq Hl.
  rewrite replaceFrom_without_marks by assumption.
  apply string_of_list_ascii_of_string.
Qed.

End ReplaceFacts.

(** A path with every other invalid character in it. *)
Lemma replaceInvalidFileNameChars_without_marks_witness :
  CommonUtils.replaceInvalidFileNameChars "C:\dir/a*b|c%d>e" None
  = "C:\dir/a*b|c%d>e".
Proof.
  exact (replaceInvalidFileNameChars_without_marks "C:\dir/a*b|c%d>e" None
           eq_refl eq_refl).
Defined.

(** A stream of a string, a Buffer and a string, read without a bound. *)
Lemma readTextStream_unbounded_reads_everything_witness :
  CommonUtils.readTextStream Notions.latin1
    {| CommonUtils.readable := true;
       CommonUtils.emitted :=
         [CommonUtils.StrChunk "ab"; CommonUtils.BufChunk [Byte.x63; Byte.x64];
          CommonUtils.StrChunk ""; CommonUtils.StrChunk "e"];
       CommonUtils.ending := CommonUtils.EmitEnd |} None
  = JS.Resolved "abcde".
Proof.
  exact (readTextStream_unbounded_reads_everything Notions.latin1
           {| CommonUtils.readable := true;
              CommonUtils.emitted :=
                [CommonUtils.StrChunk "ab"; CommonUtils.BufChunk [Byte.x63; Byte.x64];
                 CommonUtils.StrChunk ""; CommonUtils.StrChunk "e"];
              CommonUtils.ending := CommonUtils.EmitEnd |} eq_refl eq_refl).
Defined.

(* ===================================================================== *)
(** ** The download command: storage keys and saved passwords *)
(* ===================================================================== *)

Section AppendCancel.

Local Arguments String.append !s1 s2 /.

Lemma str_app_inv_head (c a b : string) : c ++ a = c ++ b -> a = b.
Proof.
  induction c as [|x c IH]; simpl; intros H; [exact H|].
  injection H as H. now apply IH.
Qed.

Lemma str_app_inv_tail (a b c : string) : a ++ c = b ++ c -> a = b.
Proof.
  intros H.
  assert (Hlen : String.length a = String.length b).
  { apply (f_equal String.length) in H. rewrite !strlen_app in H. lia. }
  revert b H Hlen; induction a as [|x a IH]; intros [|y b] H Hlen;
    simpl in *; try discriminate; [reflexivity|].
  injection H as -> H. f_equal. apply IH; [exact H | lia].
Qed.

End AppendCancel.

Section DownloadMore.
Import JS HubClient SarifDownload Notions.

Variable path_normalize : string -> string.
Variable path_isAbsolute : string -> bool.
Variable path_join : string -> string -> string.
Variable workspaceFolderPath : option string.
Variable newCSHubAddress : string -> CSHubAddress.

Abbreviation build' :=
  (buildHubClientOptions path_normalize path_isAbsolute path_join
     workspaceFolderPath newCSHubAddress).
Abbreviation storageKey' := (passwordStorageKeyOf newCSHubAddress).
Abbreviation addressObject' := (hubAddressObjectOf newCSHubAddress).

Lemma formatUserHubAddress_inj (a : CSHubAddress) (u1 u2 : string) :
  formatUserHubAddress a u1 = formatUserHubAddress a u2 -> u1 = u2.
Proof.
  unfold formatUserHubAddress. intros H.
  destruct (port a) as [n|].
  - apply str_app_inv_tail in H.
    destruct (protocol a) as [pr|].
    + apply str_app_inv_head, str_app_inv_head in H.
      now apply str_app_inv_tail in H.
    + now apply str_app_inv_tail in H.
  - destruct (protocol a) as [pr|].
    + apply str_app_inv_head, str_app_inv_head in H.
      now apply str_app_inv_tail in H.
    + now apply str_app_inv_tail in H.
Qed.

(** X4.  For one hub address, two different user names never share a
    password storage key: both settings get a key, and the keys differ. *)
Theorem storage_keys_differ_by_user (v1 v2 : HubVariables) (u1 u2 : string) :
  hubAddressString v1 = hubAddressString v2 ->
  truthy (hubAddressString v1) = true ->
  hubUserName v1 = Some u1 -> hubUserName v2 = Some u2 ->
  u1 <> "" -> u2 <> "" -> u1 <> u2 ->
  exists k1 k2,
    storageKey' v1 = Some k1 /\ storageKey' v2 = Some k2 /\ k1 <> k2.
Proof.
  intros Ha Ht Hu1 Hu2 Hn1 Hn2 Hne.
  assert (Ht2 : truthy (hubAddressString v2) = true) by now rewrite <- Ha.
  destruct (storageKey_Some newCSHubAddress v1 Ht) as (a1 & x1 & Ea1 & Ex1 & _ & K1).
  { rewrite Hu1. now apply truthy_Some. }
  destruct (storageKey_Some newCSHubAddress v2 Ht2) as (a2 & x2 & Ea2 & Ex2 & _ & K2).
  { rewrite Hu2. now apply truthy_Some. }
  rewrite Hu1 in Ex1. rewrite Hu2 in Ex2. injection Ex1 as <-. injection Ex2 as <-.
  rewrite Ea1 in Ha. rewrite Ea2 in Ha. injection Ha as <-.
  eexists _, _. split; [exact K1|]. split; [exact K2|].
  intros E. apply str_app_inv_head, formatUserHubAddress_inj in E. contradiction.
Qed.

(** X5.  Configuring a password file (with no certificate) forgets the
    password saved for this hub and user: the storage holds nothing under
    the storage key afterwards and every other key is as before; the one
    event is the deletion.  Configuring a certificate leaves the storage
    alone. *)
Theorem password_file_forgets_saved_password (v : HubVariables) (w : World) :
  (truthy (hubUserCertFilePath v) = false ->
   truthy (hubUserPasswordFilePath v) = true ->
   forall key, storageKey' v = Some key ->
     secrets (snd (build' v w)) !! key = None
     /\ (forall k, k <> key ->
           secrets (snd (build' v w)) !! k = secrets w !! k)
     /\ trace (snd (build' v w)) = (trace w ++ [SecretDelete key])%list)
  /\ (truthy (hubUserCertFilePath v) = true -> snd (build' v w) = w).
Proof.
  split.
  - intros Hcert Hpw key Hkey.
    destruct (build_password_file path_normalize path_isAbsolute path_join
                workspaceFolderPath newCSHubAddress v w Hcert Hpw)
      as (_ & _ & _ & _ & Hw).
    rewrite Hw, Hkey. simpl. repeat split.
    + apply lookup_delete_eq.
    + intros k Hk. now apply lookup_delete_ne.
  - intros Hcert.
    destruct (hubUserCertFilePath v) as [cert|] eqn:Ec; [|discriminate].
    apply truthy_Some in Hcert.
    destruct (build_certificate path_normalize path_isAbsolute path_join
                workspaceFolderPath newCSHubAddress v w cert Ec Hcert)
      as (_ & _ & _ & _ & Hw).
    exact Hw.
Qed.

(** X6.  A password typed into the password box is saved under the storage
    key and reused: the call resolves with it, the storage then holds it,
    and the next call of the provider resolves with the same password
    without showing the box, whatever the user would answer. *)
Theorem entered_password_is_saved_and_reused
    (p : PasswordProvider) (env : Env) (w : World) (password : string) :
  secrets w !! passwordStorageKeyString p = None ->
  answerPassword env = Resolved (Some password) ->
  fst (callPasswordProvider p env w) = Resolved password
  /\ secrets (snd (callPasswordProvider p env w)) !! passwordStorageKeyString p
     = Some password
  /\ (forall env',
        callPasswordProvider p env' (snd (callPasswordProvider p env w))
        = (Resolved password,
           emit (LoggerInfo "Found saved password")
             (emit (SecretGet (passwordStorageKeyString p))
                (snd (callPasswordProvider p env w))))).
Proof.
  intros Hnone Hans.
  assert (Hcall : secrets (snd (callPasswordProvider p env w))
                    !! passwordStorageKeyString p = Some password
                  /\ fst (callPasswordProvider p env w) = Resolved password).
  { unfold callPasswordProvider, secretGet. rewrite Hnone, Hans. simpl.
    split; [apply lookup_insert_eq | reflexivity]. }
  destruct Hcall as [Hs Hr]. repeat split; try assumption.
  intros env'. unfold callPasswordProvider at 1. unfold secretGet.
  now rewrite Hs.
Qed.

(** X7.  The [try / catch / finally] around the sign-in: when [signIn()]
    resolves with [true] the command goes on with the client and the world
    as the sign-in left it; in every other case (it resolves with [false]
    or it throws) the command fails with an error whose message starts with
    the header of the block, and the password saved under the storage key,
    if there is a key, is deleted. *)
Theorem signIn_block_outcomes
    (v : HubVariables) (options : CSHubClientConnectionOptions)
    (env : Env) (w w1 : World) (r : Promise bool) (a : CSHubAddress) :
  addressObject' v = Some a ->
  signIn options env w = (r, w1) ->
  (r = Resolved true ->
   signInToHub newCSHubAddress v options env w
   = (Resolved (Some {| clientAddress := a; clientOptions := options |}), w1))
  /\ (r <> Resolved true ->
      (exists detail,
          fst (signInToHub newCSHubAddress v options env w)
          = Rejected (Error ("CodeSonar hub sign-in error" ++ detail)))
      /\ snd (signInToHub newCSHubAddress v options env w)
         = match storageKey' v with
           | Some key => secretDelete key w1
           | None => w1
           end
      /\ (forall key, storageKey' v = Some key ->
            secrets (snd (signInToHub newCSHubAddress v options env w)) !! key
            = None)).
Proof.
  intros Ha Hs. unfold signInToHub. rewrite Ha, Hs. split.
  - intros ->. destruct (storageKey' v); reflexivity.
  - intros Hr.
    assert (Hcaught : exists e,
               match r with
               | Resolved true => None
               | Resolved false => Some (Error "Access forbidden")
               | Rejected e => Some e
               end = Some e
               /\ (match r with Resolved b => b | Rejected _ => false end) = false).
    { destruct r as [[|]|e]; [contradiction| |]; eauto. }
    destruct Hcaught as (e & -> & ->). simpl.
    split; [|split].
    + unfold signInError.
      destruct (String.eqb (CommonUtils.errorToString e false None) "").
      * exists "". now rewrite str_app_nil_r.
      * eexists. reflexivity.
    + destruct (storageKey' v); reflexivity.
    + intros key Hk. rewrite Hk. simpl. apply lookup_delete_eq.
Qed.

Lemma no_address_no_key (v : HubVariables) :
  truthy (hubAddressString v) = false ->
  addressObject' v = None /\ storageKey' v = None.
Proof.
  intros H. assert (Ho : addressObject' v = None).
  { unfold hubAddressObjectOf. destruct (hubAddressString v) as [s|]; [|reflexivity].
    simpl in H. now destruct (String.eqb s ""). }
  split; [exact Ho|]. unfold passwordStorageKeyOf. now rewrite Ho.
Qed.

Lemma build_without_address (v : HubVariables) (w : World) :
  truthy (hubAddressString v) = false -> snd (build' v w) = w.
Proof.
  intros H. destruct (no_address_no_key v H) as [_ Hk].
  destruct (truthy (hubUserCertFilePath v)) eqn:Hcert.
  - destruct (hubUserCertFilePath v) as [cert|] eqn:Ec; [|discriminate].
    apply truthy_Some in Hcert.
    now destruct (build_certificate path_normalize path_isAbsolute path_join
                    workspaceFolderPath newCSHubAddress v w cert Ec Hcert)
      as (_ & _ & _ & _ & Hw).
  - destruct (truthy (hubUserPasswordFilePath v)) eqn:Hpw.
    + destruct (build_password_file path_normalize path_isAbsolute path_join
                  workspaceFolderPath newCSHubAddress v w Hcert Hpw)
        as (_ & _ & _ & _ & Hw).
      now rewrite Hw, Hk.
    + now destruct (build_interactive path_normalize path_isAbsolute path_join
                      workspaceFolderPath newCSHubAddress v w Hcert Hpw)
        as (_ & _ & _ & Hw & _).
Qed.

(** X8.  When the settings name no hub and the user dismisses the Hub
    Address box (or leaves it empty), the command makes no client and does
    not sign in: the box is the only event, the Hub User box is not shown,
    and the secret storage is untouched. *)
Theorem dismissed_hub_address_ends_quietly
    (hub : option HubSetting) (env : Env) (w : World) :
  truthy (hubAddressString (readHubSetting hub)) = false ->
  truthy (answerHubAddress env) = false ->
  executeCodeSonarSarifDownload_signIn path_normalize path_isAbsolute path_join
    workspaceFolderPath newCSHubAddress hub env w
  = (Resolved None, emit (ShowInputBox "Hub Address" false) w).
Proof.
  intros Hset Hans. unfold executeCodeSonarSarifDownload_signIn, askHubAddress.
  rewrite Hset, Hans. simpl negb. cbv iota. simpl andb. cbv iota.
  set (v := {| hubAddressString := answerHubAddress env;
               hubCAFilePath := _; hubUserName := _;
               hubUserPasswordFilePath := _; hubUserCertFilePath := _;
               hubUserCertKeyFilePath := _ |}).
  assert (Hv : truthy (hubAddressString v) = false) by exact Hans.
  destruct (build' v (emit (ShowInputBox "Hub Address" false) w)) as [o w'] eqn:Hb.
  assert (Hw : w' = emit (ShowInputBox "Hub Address" false) w).
  { change w' with (snd (o, w')). rewrite <- Hb. now apply build_without_address. }
  subst w'. unfold signInToHub.
  destruct (no_address_no_key v Hv) as [-> _]. reflexivity.
Qed.

End DownloadMore.

(** Two users of one hub. *)
Lemma storage_keys_differ_by_user_witness :
  exists k1 k2,
    SarifDownload.passwordStorageKeyOf Samples.parseAddress
      (SarifDownload.readHubSetting (Some (SarifDownload.HubObject Samples.aliceAtHub)))
    = Some k1
    /\ SarifDownload.passwordStorageKeyOf Samples.parseAddress
         {| SarifDownload.hubAddressString := Some "localhost:7340";
            SarifDownload.hubCAFilePath := None;
            SarifDownload.hubUserName := Some "bob";
            SarifDownload.hubUserPasswordFilePath := None;
            SarifDownload.hubUserCertFilePath := None;
            SarifDownload.hubUserCertKeyFilePath := None |}
       = Some k2
    /\ k1 <> k2.
Proof.
  exact (storage_keys_differ_by_user Samples.parseAddress
           (SarifDownload.readHubSetting
              (Some (SarifDownload.HubObject Samples.aliceAtHub)))
           {| SarifDownload.hubAddressString := Some "localhost:7340";
              SarifDownload.hubCAFilePath := None;
              SarifDownload.hubUserName := Some "bob";
              SarifDownload.hubUserPasswordFilePath := None;
              SarifDownload.hubUserCertFilePath := None;
              SarifDownload.hubUserCertKeyFilePath := None |}
           "alice" "bob" eq_refl eq_refl eq_refl eq_refl
           ltac:(discriminate) ltac:(discriminate) ltac:(discriminate)).
Defined.

(** A user who types a password into the box, with nothing saved. *)
Lemma entered_password_is_saved_and_reused_witness :
  HubClient.secrets
    (snd (SarifDownload.callPasswordProvider Samples.aliceProvider
            Samples.decliningHub Samples.emptyWorld))
    !! HubClient.passwordStorageKeyString Samples.aliceProvider
  = Some "secret".
Proof.
  exact (proj1 (proj2 (entered_password_is_saved_and_reused Samples.aliceProvider
                         Samples.decliningHub Samples.emptyWorld "secret"
                         eq_refl eq_refl))).
Defined.

(** A password file and a hub that declines: the block fails under its
    header. *)
Lemma signIn_block_outcomes_witness :
  exists detail,
    fst (SarifDownload.signInToHub Samples.parseAddress
           Samples.certificateAndPasswordFile
           {| HubClient.cafile := None; HubClient.hubuser := Some "alice";
              HubClient.hubpwfile := Some "pw.txt"; HubClient.hubcert := None;
              HubClient.hubkey := None; HubClient.hubpasswd := None |}
           Samples.decliningHub Samples.emptyWorld)
    = JS.Rejected (JS.Error ("CodeSonar hub sign-in error" ++ detail)).
Proof.
  exact (proj1 (proj2 (signIn_block_outcomes Samples.parseAddress
                         Samples.certificateAndPasswordFile
                         {| HubClient.cafile := None; HubClient.hubuser := Some "alice";
                            HubClient.hubpwfile := Some "pw.txt";
                            HubClient.hubcert := None;
                            HubClient.hubkey := None; HubClient.hubpasswd := None |}
                         Samples.decliningHub Samples.emptyWorld
                         (HubClient.emit HubClient.SignInRequest
                            (HubClient.emit (HubClient.ReadFile "pw.txt")
                               Samples.emptyWorld))
                         (JS.Resolved false)
                         (Samples.parseAddress "localhost:7340")
                         eq_refl eq_refl)
                      ltac:(discriminate))).
Defined.

(** No hub in the settings and a dismissed Hub Address box. *)
Lemma dismissed_hub_address_ends_quietly_witness :
  SarifDownload.executeCodeSonarSarifDownload_signIn Samples.normalize
    Samples.isAbsolute Samples.joinPaths None Samples.parseAddress
    None Samples.dismissingUser Samples.emptyWorld
  = (JS.Resolved None,
     HubClient.emit (HubClient.ShowInputBox "Hub Address" false) Samples.emptyWorld).
Proof.
  exact (dismissed_hub_address_ends_quietly Samples.normalize Samples.isAbsolute
           Samples.joinPaths None Samples.parseAddress
           None Samples.dismissingUser Samples.emptyWorld eq_refl eq_refl).
Defined.

(* ===================================================================== *)
(** ** The front ends: how often they exit, and on which arguments *)
(* ===================================================================== *)

Section FrontEndsMore.
Import JS Cli Notions Measures.

Variable errorToString : Value -> string.

Ltac exits_once :=
  first
    [ left; reflexivity
    | right; eexists; split; [reflexivity|];
      split; [reflexivity|];
      split; [auto|];
      split; intros Hc; first [reflexivity | discriminate Hc] ].

Lemma http_exits_once (argv : list string) (env : HttpClientExec.Env) :
  exitsOnce (HttpClientExec.main errorToString argv env).
Proof.
  unfold HttpClientExec.main, HttpClientExec.doRequest.
  destruct (truthy (HttpClientExec.errorMessage _)).
  { destruct (HttpClientExec.errorMessage _); exits_once. }
  destruct (truthy (HttpClientExec.targetUrlString _)); [|exits_once].
  destruct (HttpClientExec.targetUrlString _) as [url|]; [|exits_once].
  destruct (HttpClientExec.newURL env url); [exits_once|].
  destruct (truthy (HttpClientExec.cacertFilePath _)).
  - destruct (HttpClientExec.cacertFilePath _) as [path|]; [|exits_once].
    destruct (HttpClientExec.readFile env path); [exits_once|].
    destruct (HttpClientExec.request env url); exits_once.
  - destruct (HttpClientExec.request env url); exits_once.
Qed.

Lemma hub_exits_once (argv : list string) (env : HubClientExec.Env) :
  exitsOnce (HubClientExec.main argv env).
Proof.
  unfold HubClientExec.main, HubClientExec.errorHandler.
  destruct (truthy (HubClientExec.errorMessage _)).
  { destruct (HubClientExec.errorMessage _); exits_once. }
  destruct (truthy (HubClientExec.targetUrlString _)
            && truthy (HubClientExec.hubAddress _)); [|exits_once].
  destruct (HubClientExec.targetUrlString _) as [path|]; [|exits_once].
  destruct (HubClientExec.hubAddress _) as [addr|]; [|exits_once].
  destruct (HubClientExec.newCSHubClient env addr); [exits_once|].
  destruct (HubClientExec.signIn env) as [message|e].
  - destruct (truthy message).
    + destruct message; exits_once.
    + destruct (HubClientExec.fetch env path) as [r|e];
        [exits_once | destruct (toString e); exits_once].
  - destruct (toString e); exits_once.
Qed.

(** X9.  Every run of either front end calls [onExit] at most once, as its
    last action, and only with 0, 1 or 2; a run that exits with 2 has made
    no request, and a run that exits with 0 has made one. *)
Theorem front_ends_exit_once :
  (forall argv env, exitsOnce (HttpClientExec.main errorToString argv env))
  /\ (forall argv env, exitsOnce (HubClientExec.main argv env)).
Proof. split; [apply http_exits_once | apply hub_exits_once]. Qed.

(** X10.  In http_client_exec, when the arguments are accepted and the file
    given to [--cacert] cannot be read, the error's message goes to the
    error stream and the run exits with 1 without making the request. *)
Theorem unreadable_ca_file_makes_no_request
    (argv : list string) (env : HttpClientExec.Env)
    (path targetUrl message : string) :
  let st := HttpClientExec.checkArgs
              (HttpClientExec.parseArgs HttpClientExec.noArgs (tl argv)) in
  truthy (HttpClientExec.errorMessage st) = false ->
  HttpClientExec.targetUrlString st = Some targetUrl ->
  HttpClientExec.newURL env targetUrl = None ->
  HttpClientExec.cacertFilePath st = Some path -> path <> "" ->
  HttpClientExec.readFile env path = Some message ->
  HttpClientExec.main errorToString argv env
  = [ReadFile path; StderrWrite (message ++ endl); OnExit 1%Z].
Proof.
  intros st He Ht Hurl Hca Hne Hread. subst st. unfold HttpClientExec.main.
  destruct (http_checkArgs_accepts _ He) as [Hst Htt].
  rewrite Hst in *. rewrite He, Htt, Ht, Hurl, Hca.
  apply truthy_Some in Hne. rewrite Hne. now rewrite Hread.
Qed.

(** The argument loops run item by item: on whole items followed by more
    arguments they give what the loop gives on the rest, started from the
    state it reaches on the items. *)
Lemma http_parse_items (pre rest : list string) :
  Items httpKnownOption pre ->
  forall st,
    HttpClientExec.parseArgs st (pre ++ rest)
    = HttpClientExec.parseArgs (HttpClientExec.parseArgs st pre) rest.
Proof.
  induction 1 as [|name value pre' Hname _ IH|arg pre' Hdash Hknown _ IH];
    intros st.
  - reflexivity.
  - simpl. destruct (truthy (HttpClientExec.errorMessage st)) eqn:He;
      [now rewrite http_error_stops|].
    unfold httpKnownOption in Hname. rewrite Hname. apply IH.
  - simpl. destruct (truthy (HttpClientExec.errorMessage st)) eqn:He;
      [now rewrite http_error_stops|].
    unfold httpKnownOption in Hknown. rewrite Hknown, Hdash.
    destruct (HttpClientExec.targetUrlString st); apply IH.
Qed.

Lemma hub_not_known (arg : string) :
  hubKnownOption arg = false -> HubClientExec.optionSetter arg = None.
Proof.
  intros H. destruct (HubClientExec.optionSetter arg) eqn:E; [|reflexivity].
  assert (hubKnownOption arg = true) by (apply hub_known_setter; congruence).
  congruence.
Qed.

Lemma hub_parse_items (pre rest : list string) :
  Items hubKnownOption pre ->
  forall st,
    HubClientExec.parseArgs st (pre ++ rest)
    = HubClientExec.parseArgs (HubClientExec.parseArgs st pre) rest.
Proof.
  induction 1 as [|name value pre' Hname _ IH|arg pre' Hdash Hknown _ IH];
    intros st.
  - reflexivity.
  - simpl. destruct (truthy (HubClientExec.errorMessage st)) eqn:He;
      [now rewrite hub_error_stops|].
    apply hub_known_setter in Hname.
    destruct (HubClientExec.optionSetter name); [apply IH | contradiction].
  - simpl. destruct (truthy (HubClientExec.errorMessage st)) eqn:He;
      [now rewrite hub_error_stops|].
    rewrite (hub_not_known arg Hknown), Hdash.
    destruct (HubClientExec.hubAddress st);
      [destruct (HubClientExec.targetUrlString st)|]; apply IH.
Qed.

Lemma http_lone_option (st : HttpClientExec.Args) (name : string) :
  httpKnownOption name = true -> HttpClientExec.parseArgs st [name] = st.
Proof.
  unfold httpKnownOption. intros H. simpl. rewrite H.
  now destruct (truthy (HttpClientExec.errorMessage st)).
Qed.

Lemma hub_lone_option (st : HubClientExec.Args) (name : string) :
  hubKnownOption name = true -> HubClientExec.parseArgs st [name] = st.
Proof.
  intros H. apply hub_known_setter in H. simpl.
  destruct (truthy (HubClientExec.errorMessage st)); [reflexivity|].
  destruct (HubClientExec.optionSetter name); [reflexivity | contradiction].
Qed.

(** X11.  A known option given as the last argument, with no value after
    it, is ignored by both front ends: after whole items, the run is the
    same as without it. *)
Theorem trailing_option_without_value_is_ignored :
  (forall argv env name,
      Items httpKnownOption (tl argv) -> httpKnownOption name = true ->
      HttpClientExec.main errorToString (argv ++ [name]) env
      = HttpClientExec.main errorToString argv env)
  /\ (forall argv env name,
      Items hubKnownOption (tl argv) -> hubKnownOption name = true ->
      HubClientExec.main (argv ++ [name]) env = HubClientExec.main argv env).
Proof.
  split; intros argv env name Hitems Hname.
  - unfold HttpClientExec.main. destruct argv as [|a l]; [reflexivity|].
    simpl tl in *. simpl app. simpl tl.
    now rewrite (http_parse_items l [name] Hitems), http_lone_option.
  - unfold HubClientExec.main. destruct argv as [|a l]; [reflexivity|].
    simpl tl in *. simpl app. simpl tl.
    now rewrite (hub_parse_items l [name] Hitems), hub_lone_option.
Qed.

(** The positional slots already filled. *)
Lemma http_too_many (args : list string) :
  Items httpKnownOption args ->
  forall st,
    (match HttpClientExec.targetUrlString st with Some _ => 1 | None => 0 end)
    + length (positionals httpKnownOption args) > 1 ->
    truthy (HttpClientExec.errorMessage (HttpClientExec.parseArgs st args)) = true.
Proof.
  induction 1 as [|name value rest Hname _ IH|arg rest Hdash Hknown _ IH];
    intros st Hn.
  - simpl in Hn. destruct (HttpClientExec.targetUrlString st); simpl in Hn; lia.
  - simpl. destruct (truthy (HttpClientExec.errorMessage st)) eqn:He; [exact He|].
    unfold httpKnownOption in Hname. rewrite Hname. apply IH.
    simpl in Hn. unfold httpKnownOption in Hn at 1. rewrite Hname in Hn. exact Hn.
  - simpl. destruct (truthy (HttpClientExec.errorMessage st)) eqn:He; [exact He|].
    simpl in Hn. rewrite Hknown in Hn.
    unfold httpKnownOption in Hknown. rewrite Hknown, Hdash.
    destruct (HttpClientExec.targetUrlString st).
    + now rewrite http_error_stops.
    + apply IH. simpl in *. lia.
Qed.

Lemma hub_setter_keeps_positionals (arg : string)
    (set : string -> HubClientExec.Args -> HubClientExec.Args)
    (value : string) (st : HubClientExec.Args) :
  HubClientExec.optionSetter arg = Some set ->
  HubClientExec.hubAddress (set value st) = HubClientExec.hubAddress st
  /\ HubClientExec.targetUrlString (set value st) = HubClientExec.targetUrlString st.
Proof.
  unfold HubClientExec.optionSetter.
  repeat match goal with
         | |- context [if ?b then _ else _] => destruct b
         end; intros [= <-]; split; reflexivity.
Qed.

Lemma hub_too_many (args : list string) :
  Items hubKnownOption args ->
  forall st,
    (match HubClientExec.hubAddress st with Some _ => 1 | None => 0 end)
    + (match HubClientExec.targetUrlString st with Some _ => 1 | None => 0 end)
    + length (positionals hubKnownOption args) > 2 ->
    truthy (HubClientExec.errorMessage (HubClientExec.parseArgs st args)) = true.
Proof.
  induction 1 as [|name value rest Hname _ IH|arg rest Hdash Hknown _ IH];
    intros st Hn.
  - simpl in Hn.
    destruct (HubClientExec.hubAddress st), (HubClientExec.targetUrlString st);
      simpl in Hn; lia.
  - cbn [HubClientExec.parseArgs].
    destruct (truthy (HubClientExec.errorMessage st)) eqn:He; [exact He|].
    cbn [positionals] in Hn. rewrite Hname in Hn.
    apply hub_known_setter in Hname.
    destruct (HubClientExec.optionSetter name) as [set|] eqn:Es; [|contradiction].
    apply IH.
    destruct (hub_setter_keeps_positionals name set value st Es) as [-> ->].
    exact Hn.
  - cbn [HubClientExec.parseArgs].
    destruct (truthy (HubClientExec.errorMessage st)) eqn:He; [exact He|].
    cbn [positionals] in Hn. rewrite Hknown in Hn.
    rewrite (hub_not_known arg Hknown), Hdash.
    destruct (HubClientExec.hubAddress st) eqn:Ea;
      [destruct (HubClientExec.targetUrlString st) eqn:Et|].
    + now rewrite hub_error_stops.
    + apply IH. simpl in *. lia.
    + apply IH. simpl in *. destruct (HubClientExec.targetUrlString st); lia.
Qed.

(** X12.  Too many positional arguments end a run with status 2: among
    whole items, more than one positional argument for http_client_exec, or
    more than two for cs_hub_client_exec, makes [main] write one message to
    the error stream and call [onExit(2)], and nothing else. *)
Theorem too_many_positionals_exit_2 :
  (forall argv env,
      Items httpKnownOption (tl argv) ->
      length (positionals httpKnownOption (tl argv)) > 1 ->
      exists message,
        HttpClientExec.main errorToString argv env
        = [StderrWrite (message ++ endl); OnExit 2%Z])
  /\ (forall argv env,
      Items hubKnownOption (tl argv) ->
      length (positionals hubKnownOption (tl argv)) > 2 ->
      exists message,
        HubClientExec.main argv env
        = [StderrWrite (message ++ endl); OnExit 2%Z]).
Proof.
  split; intros argv env Hitems Hn.
  - apply http_main_usage_error. rewrite http_checkArgs_keeps_error;
      now apply http_too_many.
  - apply hub_main_usage_error. rewrite hub_checkArgs_keeps_error;
      now apply hub_too_many.
Qed.

End FrontEndsMore.

(** An unreadable CA file. *)
Lemma unreadable_ca_file_makes_no_request_witness :
  HttpClientExec.main (fun e => CommonUtils.errorToString e false None)
    ["http_client_exec"; "--cacert"; "missing.pem"; "https://hub/x"]
    {| HttpClientExec.newURL := fun _ => None;
       HttpClientExec.readFile := fun _ => Some "ENOENT: no such file or directory";
       HttpClientExec.request := fun _ => JS.Resolved tt |}
  = [Cli.ReadFile "missing.pem";
     Cli.StderrWrite ("ENOENT: no such file or directory" ++ Cli.endl);
     Cli.OnExit 1%Z].
Proof.
  exact (unreadable_ca_file_makes_no_request
           (fun e => CommonUtils.errorToString e false None)
           ["http_client_exec"; "--cacert"; "missing.pem"; "https://hub/x"]
           {| HttpClientExec.newURL := fun _ => None;
              HttpClientExec.readFile := fun _ => Some "ENOENT: no such file or directory";
              HttpClientExec.request := fun _ => JS.Resolved tt |}
           "missing.pem" "https://hub/x" "ENOENT: no such file or directory"
           eq_refl eq_refl eq_refl eq_refl ltac:(discriminate) eq_refl).
Defined.

(** The hub front end with [-hubuser] left without a value at the end. *)
Lemma trailing_option_without_value_is_ignored_witness :
  HubClientExec.main
    (["cs_hub_client_exec"; "hub:7340"; "/index.xml"] ++ ["-hubuser"])
    {| HubClientExec.newCSHubClient := fun _ => None;
       HubClientExec.signIn := JS.Resolved None;
       HubClientExec.fetch := fun _ => JS.Resolved tt |}
  = HubClientExec.main ["cs_hub_client_exec"; "hub:7340"; "/index.xml"]
      {| HubClientExec.newCSHubClient := fun _ => None;
         HubClientExec.signIn := JS.Resolved None;
         HubClientExec.fetch := fun _ => JS.Resolved tt |}.
Proof.
  exact (proj2 (trailing_option_without_value_is_ignored
                  (fun e => CommonUtils.errorToString e false None))
           ["cs_hub_client_exec"; "hub:7340"; "/index.xml"]
           {| HubClientExec.newCSHubClient := fun _ => None;
              HubClientExec.signIn := JS.Resolved None;
              HubClientExec.fetch := fun _ => JS.Resolved tt |}
           "-hubuser"
           (Notions.Items_positional Notions.hubKnownOption "hub:7340" ["/index.xml"]
              eq_refl eq_refl
              (Notions.Items_positional Notions.hubKnownOption "/index.xml" []
                 eq_refl eq_refl (Notions.Items_nil Notions.hubKnownOption)))
           eq_refl).
Defined.

(** Two URLs given to the http front end. *)
Lemma too_many_positionals_exit_2_witness :
  exists message,
    HttpClientExec.main (fun e => CommonUtils.errorToString e false None)
      ["http_client_exec"; "https://hub/x"; "https://hub/y"]
      {| HttpClientExec.newURL := fun _ => None;
         HttpClientExec.readFile := fun _ => None;
         HttpClientExec.request := fun _ => JS.Resolved tt |}
    = [Cli.StderrWrite (message ++ Cli.endl); Cli.OnExit 2%Z].
Proof.
  exact (proj1 (too_many_positionals_exit_2
                  (fun e => CommonUtils.errorToString e false None))
           ["http_client_exec"; "https://hub/x"; "https://hub/y"]
           {| HttpClientExec.newURL := fun _ => None;
              HttpClientExec.readFile := fun _ => None;
              HttpClientExec.request := fun _ => JS.Resolved tt |}
           (Notions.Items_positional Notions.httpKnownOption "https://hub/x"
              ["https://hub/y"] eq_refl eq_refl
              (Notions.Items_positional Notions.httpKnownOption "https://hub/y" []
                 eq_refl eq_refl (Notions.Items_nil Notions.httpKnownOption)))
           ltac:(simpl; lia)).
Defined.

(* ===================================================================== *)
(** ** What the command downloads *)
(* ===================================================================== *)

Section SelectionFacts.
Import JS HubClient SarifDownload Selection Measures.

Lemma bind_resolved {A B : Type} (m : Step A) (f : A -> Step B)
    (t : list UiEvent) (b : B) :
  bind m f = (t, Resolved b) ->
  exists t1 a t2,
    m = (t1, Resolved a) /\ f a = (t2, Resolved b) /\ t = (t1 ++ t2)%list.
Proof.
  unfold bind. destruct m as [t1 [a|e]]; [|discriminate].
  destruct (f a) as [t2 r] eqn:Ef. intros [= <- ->]. eauto 10.
Qed.

(** A quick pick resolves with one of the values it was given. *)
Lemma showQuickPick_picks {T : Type} (ui : Ui) (placeholder : string)
    (values : list T) (label : T -> string) (t : list UiEvent) (x : T) :
  showQuickPick ui placeholder values label = (t, Resolved (Some x)) ->
  In x values.
Proof.
  unfold showQuickPick, ret. destruct values as [|v values]; [discriminate|].
  intros [= _ H].
  destruct (accepted ui placeholder _) as [i|]; [|discriminate].
  eapply nth_error_In, H.
Qed.

(** The baseline is one of the listed analyses, and there is none in a full
    download. *)
Lemma baseAnalysisInfoOf_listed (c : Chosen) (ui : Ui) (l : list CSAnalysisInfo)
    (t : list UiEvent) (base : option CSAnalysisInfo) :
  baseAnalysisInfoOf c ui l = (t, Resolved base) ->
  (withAnalysisBaseline c = false -> base = None)
  /\ (forall b, base = Some b -> In b l).
Proof.
  unfold baseAnalysisInfoOf, findById, findByName, ret.
  destruct (withAnalysisBaseline c); simpl.
  - destruct (baseAnalysisId c) as [bid|].
    + destruct (List.find _ l) as [b|] eqn:Ef; [|discriminate].
      intros [= _ <-]. split; [discriminate|]. intros b' [= <-].
      eapply find_some, Ef.
    + destruct (truthy (baseAnalysisName c)).
      * destruct (baseAnalysisName c) as [n|].
        -- destruct (List.find _ l) as [b|] eqn:Ef; [|discriminate].
           intros [= _ <-]. split; [discriminate|]. intros b' [= <-].
           eapply find_some, Ef.
        -- intros [= _ <-]. split; [discriminate | discriminate].
      * intros H. split; [discriminate|]. intros b ->.
        eapply showQuickPick_picks, H.
  - intros [= _ <-]. split; [reflexivity | discriminate].
Qed.

(** The analysis chosen is one of a list the hub returned, and so is the
    baseline; a baseline comes with a difference download and only with
    it. *)
Lemma analysisInfoOf_listed (c : Chosen) (ui : Ui) (t : list UiEvent)
    (a : CSAnalysisInfo) (base : option CSAnalysisInfo) :
  analysisInfoOf c ui = (t, Resolved (Some a, base)) ->
  exists pid l,
    analysisList ui pid = Resolved l
    /\ In (FetchAnalysisInfo pid) t
    /\ In a l
    /\ (withAnalysisBaseline c = false -> base = None)
    /\ (withAnalysisBaseline c = true -> exists b, base = Some b /\ In b l).
Proof.
  unfold analysisInfoOf. intros H.
  apply bind_resolved in H as (t1 & pa & t2 & _ & H & ->).
  apply bind_resolved in H as (t3 & pinfo & t4 & _ & H & ->).
  apply bind_resolved in H as (t5 & la & t6 & Hfetch & H & ->).
  destruct la as [[|x l]|]; try (injection H as _ H; discriminate).
  assert (Hlist : exists pid, analysisList ui pid = Resolved (x :: l)
                              /\ In (FetchAnalysisInfo pid) t5).
  { destruct (match pinfo with
              | Some p => if negb (truthy (projectId c)) then Some (projectInfoId p)
                          else projectId c
              | None => projectId c
              end) as [pid|]; [|discriminate].
    destruct (defined (hubClient c) && _); [|discriminate].
    apply bind_resolved in Hfetch as (t7 & l' & t8 & Hf & Hr & ->).
    injection Hr as <- <-. unfold fetchCSAnalysisRecords in Hf.
    injection Hf as <- Hf. exists pid. split; [exact Hf | now left]. }
  destruct Hlist as (pid & Hlist & Hin).
  apply bind_resolved in H as (t7 & base' & t8 & Hbase & H & ->).
  apply bind_resolved in H as (t9 & a' & t10 & Hpick & H & ->).
  injection H as <- -> <-.
  destruct (baseAnalysisInfoOf_listed c ui (x :: l) t7 base' Hbase) as [Hfull Hb].
  exists pid, (x :: l). split; [exact Hlist|].
  split; [rewrite !in_app_iff; auto|].
  assert (Hshown : negb (withAnalysisBaseline c) || defined base' = true).
  { destruct (negb (withAnalysisBaseline c) || defined base'); [reflexivity|].
    discriminate. }
  rewrite Hshown in Hpick. split; [eapply showQuickPick_picks, Hpick|].
  split; [exact Hfull|]. intros Hw. rewrite Hw in Hshown. simpl in Hshown.
  destruct base' as [b|]; [|discriminate]. eauto.
Qed.

Variable path_join : string -> string -> string.
Variable workspaceFolderPath : option string.

Abbreviation run :=
  (executeCodeSonarSarifDownload_download path_join workspaceFolderPath).

(** How the second half ends: with the world untouched, or with the one
    download of an analysis the user chose and a place to save it. *)
Lemma run_cases (c : Chosen) (ui : Ui) (w : World) :
  snd (run c ui w) = w
  \/ exists t a base defaultPath path,
      analysisInfoOf c ui = (t, Resolved (Some a, base))
      /\ hubClient c <> None
      /\ In (ShowSaveDialog defaultPath) (fst (fst (run c ui w)))
      /\ savePath ui defaultPath = Some path
      /\ snd (run c ui w) = downloadSarifResults a base w.
Proof.
  unfold executeCodeSonarSarifDownload_download, bind.
  destruct (analysisInfoOf c ui) as [t [[analysis base]|e]] eqn:Ha; [|now left].
  unfold destinationUriOf, ret.
  destruct analysis as [a|]; simpl.
  - destruct (hubClient c) as [client|] eqn:Hc; [|now left].
    set (defaultPath := match workspaceFolderPath with
                        | Some folder => path_join folder (name a ++ ".sarif")
                        | None => name a ++ ".sarif"
                        end).
    destruct (savePath ui defaultPath) as [path|] eqn:Hs; [|now left].
    right. exists t, a, base, defaultPath, path.
    repeat split; try assumption; try discriminate; try reflexivity.
    cbn [fst]. rewrite in_app_iff. right. now left.
  - destruct (hubClient c); now left.
Qed.

(** X13.  Whatever the settings, the hub and the user do, the second half
    of the command starts at most one fetch, of an analysis that is on a
    list the hub returned for a project; a full download fetches the single
    analysis and never a difference, a difference download fetches the
    difference against a baseline from the same list and never falls back
    to the single analysis. *)
Theorem download_fetches_a_listed_analysis (c : Chosen) (ui : Ui) (w : World) :
  trace (snd (run c ui w)) = trace w
  \/ exists pid l a,
      analysisList ui pid = Resolved l
      /\ In a l
      /\ ((withAnalysisBaseline c = false
           /\ trace (snd (run c ui w))
              = (trace w ++ [FetchSarifAnalysisStream (id a)])%list)
          \/ (withAnalysisBaseline c = true
              /\ exists b,
                  In b l
                  /\ trace (snd (run c ui w))
                     = (trace w
                        ++ [FetchSarifAnalysisDifferenceStream (id a) (id b)])%list)).
Proof.
  destruct (run_cases c ui w) as [->|(t & a & base & dp & path & Ha & _ & _ & _ & ->)];
    [now left|].
  right.
  destruct (analysisInfoOf_listed c ui t a base Ha)
    as (pid & l & Hl & _ & Hin & Hfull & Hdiff).
  exists pid, l, a. repeat split; try assumption.
  destruct (withAnalysisBaseline c).
  - right. split; [reflexivity|].
    destruct (Hdiff eq_refl) as (b & -> & Hb). exists b. now split.
  - left. split; [reflexivity|]. now rewrite (Hfull eq_refl).
Qed.

(** X14.  A download is started only after the save dialog was shown and
    answered with a path, and only with a hub client: when every save
    dialog is dismissed, or when there is no client, the world is left as it
    was. *)
Theorem no_download_without_destination (c : Chosen) (ui : Ui) (w : World) :
  ((forall defaultPath, savePath ui defaultPath = None) -> snd (run c ui w) = w)
  /\ (hubClient c = None -> run c ui w = (([], Resolved tt), w))
  /\ (snd (run c ui w) <> w ->
      exists defaultPath path,
        In (ShowSaveDialog defaultPath) (fst (fst (run c ui w)))
        /\ savePath ui defaultPath = Some path).
Proof.
  repeat split.
  - intros Hnone.
    destruct (run_cases c ui w) as [H|(t & a & base & dp & path & _ & _ & _ & Hs & _)];
      [exact H|]. rewrite Hnone in Hs. discriminate.
  - intros Hc. unfold executeCodeSonarSarifDownload_download, analysisInfoOf,
      projectInfoArrayOf. rewrite Hc. simpl.
    destruct (projectId c); reflexivity.
  - intros Hw.
    destruct (run_cases c ui w) as [H|(t & a & base & dp & path & _ & _ & Hin & Hs & _)];
      [contradiction|]. eauto.
Qed.

(** X15.  In a difference download with a project id and a baseline
    configured (by id, or else by name), when the hub's list of analyses is
    not empty and holds no such baseline, the command fails with the error
    Baseline analysis was not found: after the one request for the list it
    shows no pick and no save dialog and downloads nothing. *)
Theorem missing_baseline_stops_the_download
    (c : Chosen) (ui : Ui) (w : World) (client : CSHubClient) (pid : string)
    (l : list CSAnalysisInfo) :
  hubClient c = Some client ->
  projectId c = Some pid -> pid <> "" ->
  withAnalysisBaseline c = true ->
  analysisList ui pid = Resolved l -> l <> [] ->
  (exists bid, baseAnalysisId c = Some bid /\ findById bid l = None)
  \/ (exists n, baseAnalysisId c = None /\ baseAnalysisName c = Some n
                /\ n <> "" /\ findByName n l = None) ->
  run c ui w
  = (([FetchAnalysisInfo pid], Rejected (Error "Baseline analysis was not found")), w).
Proof.
  intros Hc Hp Hne Hw Hl Hnil Hbase. apply String.eqb_neq in Hne.
  unfold executeCodeSonarSarifDownload_download, analysisInfoOf,
    projectInfoArrayOf, baseAnalysisInfoOf, fetchCSAnalysisRecords.
  rewrite Hc, Hp, Hw.
  destruct l as [|x l]; [contradiction|].
  unfold findById, findByName in *.
  destruct Hbase as [(bid & -> & Hf)|(n & -> & -> & Hn & Hf)].
  - simpl in Hf.
    repeat first [rewrite Hne | rewrite Hl | rewrite Hf
                 | progress simpl | progress unfold bind, ret].
    reflexivity.
  - apply String.eqb_neq in Hn. simpl in Hf.
    repeat first [rewrite Hne | rewrite Hl | rewrite Hn | rewrite Hf
                 | progress simpl | progress unfold bind, ret].
    reflexivity.
Qed.

(** X16.  In a difference download with a project id configured and no
    baseline configured, a user who leaves the baseline pick without a
    choice is not asked anything more: the analysis pick and the save dialog
    are not shown, and nothing is downloaded. *)
Theorem cancelled_baseline_pick_ends_quietly
    (c : Chosen) (ui : Ui) (w : World) (client : CSHubClient) (pid : string)
    (l : list CSAnalysisInfo) :
  hubClient c = Some client ->
  projectId c = Some pid -> pid <> "" ->
  withAnalysisBaseline c = true ->
  baseAnalysisId c = None -> truthy (baseAnalysisName c) = false ->
  analysisList ui pid = Resolved l -> l <> [] ->
  accepted ui "Select a Baseline Analysis..." (map id l) = None ->
  run c ui w
  = (([FetchAnalysisInfo pid;
       ShowQuickPick "Select a Baseline Analysis..." (map id l)], Resolved tt), w).
Proof.
  intros Hc Hp Hne Hw Hb Hn Hl Hnil Hacc. apply String.eqb_neq in Hne.
  unfold executeCodeSonarSarifDownload_download, analysisInfoOf,
    projectInfoArrayOf, baseAnalysisInfoOf, fetchCSAnalysisRecords,
    showAnalysisQuickPick, showQuickPick.
  rewrite Hc, Hp, Hw, Hb, Hn.
  destruct l as [|x l]; [contradiction|]. simpl in Hacc.
  repeat first [rewrite Hne | rewrite Hl | rewrite Hacc
               | progress simpl | progress unfold bind, ret].
  reflexivity.
Qed.

(** The events of a composed step. *)
Lemma bind_events {A B : Type} (m : Step A) (f : A -> Step B) (P : UiEvent -> bool) :
  existsb P (fst m) = false ->
  (forall a, existsb P (fst (f a)) = false) ->
  existsb P (fst (bind m f)) = false.
Proof.
  unfold bind. destruct m as [t1 [a|e]]; simpl; intros H1 H2; [|exact H1].
  specialize (H2 a). destruct (f a) as [t2 r]. simpl in *.
  now rewrite existsb_app, H1, H2.
Qed.

Lemma bind_ret_l {A B : Type} (a : A) (f : A -> Step B) : bind (ret a) f = f a.
Proof. unfold bind, ret. now destruct (f a). Qed.

Lemma projectInfoArrayOf_configured (c : Chosen) (ui : Ui) :
  truthy (projectId c) = true -> projectInfoArrayOf c ui = ret None.
Proof.
  intros Hp. unfold projectInfoArrayOf. rewrite Hp. simpl negb.
  rewrite andb_false_r. now rewrite bind_ret_l.
Qed.

Lemma run_events (c : Chosen) (ui : Ui) (w : World) :
  fst (fst (run c ui w))
  = fst (bind (analysisInfoOf c ui) (fun '(analysisInfo, baseAnalysisInfo) =>
         bind (destinationUriOf path_join workspaceFolderPath ui analysisInfo)
           (fun destinationUri =>
              ret (analysisInfo, baseAnalysisInfo, destinationUri)))).
Proof.
  unfold executeCodeSonarSarifDownload_download.
  destruct (bind (analysisInfoOf c ui) _) as [t [[[a base] d]|e]]; [|reflexivity].
  destruct (hubClient c), a, d; reflexivity.
Qed.

(** The picks of analyses, the request for the list of analyses and the
    save dialog have nothing to do with the project. *)
Lemma analysis_steps_leave_project_alone (P : UiEvent -> bool) :
  (forall f, P (FetchAnalysisInfo f) = false) ->
  (forall labels, P (ShowQuickPick "Select a Baseline Analysis..." labels) = false) ->
  (forall labels, P (ShowQuickPick "Select an Analysis..." labels) = false) ->
  (forall d, P (ShowSaveDialog d) = false) ->
  forall c ui w,
    truthy (projectId c) = true ->
    existsb P (fst (fst (run c ui w))) = false.
Proof.
  intros Hf Hb Ha Hd c ui w Hp. rewrite run_events.
  assert (Hpick : forall l placeholder,
             (forall labels, P (ShowQuickPick placeholder labels) = false) ->
             existsb P (fst (showAnalysisQuickPick ui l placeholder)) = false).
  { intros l placeholder H. unfold showAnalysisQuickPick, showQuickPick.
    destruct l; simpl; [reflexivity | now rewrite H]. }
  apply bind_events.
  - unfold analysisInfoOf. rewrite (projectInfoArrayOf_configured c ui Hp).
    rewrite bind_ret_l. cbn [projectInfoOf]. rewrite bind_ret_l.
    apply bind_events.
    + destruct (projectId c) as [pid|]; [|reflexivity].
      destruct (defined (hubClient c) && truthy (Some pid)); [|reflexivity].
      apply bind_events; [simpl; now rewrite Hf | reflexivity].
    + intros [[|x l]|]; try reflexivity.
      apply bind_events.
      * unfold baseAnalysisInfoOf.
        destruct (negb (withAnalysisBaseline c)); [reflexivity|].
        destruct (baseAnalysisId c); [destruct (findById _ _); reflexivity|].
        destruct (truthy (baseAnalysisName c)).
        -- destruct (baseAnalysisName c); [destruct (findByName _ _)|];
             reflexivity.
        -- now apply Hpick.
      * intros base. apply bind_events; [|reflexivity].
        destruct (negb (withAnalysisBaseline c) || defined base);
          [now apply Hpick | reflexivity].
  - intros [analysis base]. apply bind_events; [|reflexivity].
    unfold destinationUriOf. destruct analysis; simpl; [now rewrite Hd | reflexivity].
Qed.

(** X17.  With a project id configured the command never asks for the
    project: it neither requests the project list from the hub nor shows
    the project pick, whatever happens afterwards. *)
Theorem configured_project_is_not_asked_for (c : Chosen) (ui : Ui) (w : World) :
  truthy (projectId c) = true ->
  existsb isProjectFetch (fst (fst (run c ui w))) = false
  /\ existsb (showsPick "Select a Project...") (fst (fst (run c ui w))) = false.
Proof.
  intros Hp.
  split; apply analysis_steps_leave_project_alone; try assumption; reflexivity.
Qed.

(** X18.  When the project name of the settings matches no project, the
    list is requested once more without the name; when that list is empty
    too, the user is told so and the command ends: no pick, no request for
    analyses, no download. *)
Theorem no_project_on_the_hub
    (c : Chosen) (ui : Ui) (w : World) (client : CSHubClient) (n : string) :
  hubClient c = Some client ->
  truthy (projectId c) = false ->
  projectName c = Some n -> n <> "" ->
  projectList ui (Some n) = Resolved [] ->
  projectList ui None = Resolved [] ->
  run c ui w
  = (([FetchProjectInfo (Some n); FetchProjectInfo None;
       ShowInformationMessage
         "Could not find any analysis projects on CodeSonar hub."],
      Resolved tt), w).
Proof.
  intros Hc Hp Hn Hne H1 H2. apply String.eqb_neq in Hne.
  unfold executeCodeSonarSarifDownload_download, analysisInfoOf,
    projectInfoArrayOf, projectInfoOf, fetchCSProjectRecords.
  rewrite Hc, Hn.
  destruct (projectId c) as [pid|].
  - assert (Hpid : String.eqb pid "" = true)
      by (simpl in Hp; now destruct (String.eqb pid "")).
    repeat first [rewrite Hne | rewrite H1 | rewrite H2 | rewrite Hpid
                 | progress simpl | progress unfold bind, ret].
    reflexivity.
  - repeat first [rewrite Hne | rewrite H1 | rewrite H2
                 | progress simpl | progress unfold bind, ret].
    reflexivity.
Qed.

End SelectionFacts.

(** Baseline 99 is not among the analyses 12 and 15. *)
Lemma missing_baseline_stops_the_download_witness :
  Selection.executeCodeSonarSarifDownload_download Samples.joinPaths None
    DownloadSamples.diffAgainst99 DownloadSamples.quietUser Samples.emptyWorld
  = (([Selection.FetchAnalysisInfo "7"],
      JS.Rejected (JS.Error "Baseline analysis was not found")),
     Samples.emptyWorld).
Proof.
  exact (missing_baseline_stops_the_download Samples.joinPaths None
           DownloadSamples.diffAgainst99 DownloadSamples.quietUser
           Samples.emptyWorld DownloadSamples.signedInClient "7"
           DownloadSamples.analyses
           eq_refl eq_refl ltac:(discriminate) eq_refl eq_refl ltac:(discriminate)
           (or_introl (ex_intro _ "99" (conj eq_refl eq_refl)))).
Defined.

(** The baseline pick left without a choice. *)
Lemma cancelled_baseline_pick_ends_quietly_witness :
  Selection.executeCodeSonarSarifDownload_download Samples.joinPaths None
    DownloadSamples.diffUnconfigured DownloadSamples.quietUser Samples.emptyWorld
  = (([Selection.FetchAnalysisInfo "7";
       Selection.ShowQuickPick "Select a Baseline Analysis..." ["12"; "15"]],
      JS.Resolved tt),
     Samples.emptyWorld).
Proof.
  exact (cancelled_baseline_pick_ends_quietly Samples.joinPaths None
           DownloadSamples.diffUnconfigured DownloadSamples.quietUser
           Samples.emptyWorld DownloadSamples.signedInClient "7"
           DownloadSamples.analyses
           eq_refl eq_refl ltac:(discriminate) eq_refl eq_refl eq_refl eq_refl
           ltac:(discriminate) eq_refl).
Defined.

(** Project 7 is configured. *)
Lemma configured_project_is_not_asked_for_witness :
  existsb Measures.isProjectFetch
    (fst (fst (Selection.executeCodeSonarSarifDownload_download Samples.joinPaths
                 None DownloadSamples.diffUnconfigured DownloadSamples.quietUser
                 Samples.emptyWorld))) = false.
Proof.
  exact (proj1 (configured_project_is_not_asked_for Samples.joinPaths None
                  DownloadSamples.diffUnconfigured DownloadSamples.quietUser
                  Samples.emptyWorld eq_refl)).
Defined.

(** A project name that matches nothing on a hub with no project. *)
Lemma no_project_on_the_hub_witness :
  Selection.executeCodeSonarSarifDownload_download Samples.joinPaths None
    DownloadSamples.fullOfDemo DownloadSamples.quietUser Samples.emptyWorld
  = (([Selection.FetchProjectInfo (Some "demo"); Selection.FetchProjectInfo None;
       Selection.ShowInformationMessage
         "Could not find any analysis projects on CodeSonar hub."],
      JS.Resolved tt),
     Samples.emptyWorld).
Proof.
  exact (no_project_on_the_hub Samples.joinPaths None
           DownloadSamples.fullOfDemo DownloadSamples.quietUser
           Samples.emptyWorld DownloadSamples.signedInClient "demo"
           eq_refl eq_refl eq_refl ltac:(discriminate) eq_refl eq_refl).
Defined.

(* ===================================================================== *)
(** ** The derived key path *)
(* ===================================================================== *)

Section KeyPathMore.
Import JS SarifDownload.

Local Arguments String.append !s1 s2 /.

Lemma substring_split (s : string) (k : nat) :
  k <= String.length s ->
  s = String.substring 0 k s ++ String.substring k (String.length s - k) s.
Proof.
  revert k; induction s as [|c s IH]; intros [|k] H; simpl in *; try lia.
  - reflexivity.
  - now rewrite substring0_all.
  - f_equal. apply IH. lia.
Qed.

(** A string that ends with a suffix is a stem followed by the suffix. *)
Lemma endsWith_stem (s suffix : string) :
  endsWith s suffix = true -> exists stem, s = stem ++ suffix.
Proof.
  unfold endsWith. intros [Hle Heq]%andb_prop.
  apply Nat.leb_le in Hle. apply String.eqb_eq in Heq.
  exists (String.substring 0 (String.length s - String.length suffix) s).
  rewrite (substring_split s (String.length s - String.length suffix)) at 1 by lia.
  f_equal.
  replace (String.length s - (String.length s - String.length suffix))
    with (String.length suffix) by lia.
  exact Heq.
Qed.

(** X19.  For every certificate path, the key path derived from it keeps
    the stem of the path and changes only the suffix ([.cert] to [.key],
    [.cert.pem] to [.key.pem], or nothing to [.key]); it is never the
    certificate path itself. *)
Theorem derived_key_path_keeps_the_stem (cert : string) :
  (exists stem,
      (cert = stem ++ ".cert" /\ certKeyFilePath cert None = stem ++ ".key")
      \/ (cert = stem ++ ".cert.pem" /\ certKeyFilePath cert None = stem ++ ".key.pem")
      \/ (cert = stem /\ certKeyFilePath cert None = stem ++ ".key"))
  /\ certKeyFilePath cert None <> cert.
Proof.
  destruct (endsWith cert ".cert") eqn:H1.
  - destruct (endsWith_stem _ _ H1) as [stem ->].
    rewrite certKeyFilePath_cert. split; [eauto|].
    intros E. apply str_app_inv_head in E. discriminate.
  - destruct (endsWith cert ".cert.pem") eqn:H2.
    + destruct (endsWith_stem _ _ H2) as [stem ->].
      rewrite certKeyFilePath_cert_pem. split; [eauto 6|].
      intros E. apply str_app_inv_head in E. discriminate.
    + rewrite (certKeyFilePath_other cert H1 H2). split; [eauto 6|].
      intros E. apply (f_equal String.length) in E.
      rewrite strlen_app in E. simpl in E. lia.
Qed.

End KeyPathMore.
